(** * Note-taking service: authorisation and referential integrity

    A shallow embedding of the backend's request handlers
    (controllers/*.js) over an explicit document store, together with the
    model schemas (models/*.js) they save through.

    Conventions of the embedding:
    - a collection is a finite map from the storage identity [_id]
      (an [ObjectId]) to the document; array fields are lists, so order
      and duplicates are kept;
    - a handler is a function from the store, the authenticated requester
      ([req.userId], [req.user.roles || []]), the request parameters and
      body, and the values the run draws from its environment (generated
      identity, clock, random suffix) to the response and the new store;
    - identities in requests are well-formed [ObjectId]s and text fields
      are ASCII strings; [undefined] is [None].  The two fields of the
      login body, which reach [toLowerCase] and [bcrypt.compare] without
      a cast, are JSON values that need not be strings;
    - the schema setters ([trim], [lowercase]) run on a value when a
      document is built and on the value of a query filter; the
      validators run on every path of a document when it is saved. *)

From Stdlib Require Import Ascii String.
From stdpp Require Import base option list gmap strings sorting pretty.

Open Scope string_scope.

(** ** JavaScript values and string helpers *)

Module Js.

(** Truthiness of a string-or-undefined value. *)
Definition truthy (v : option string) : bool :=
  match v with
  | Some s => negb (bool_decide (s = ""))
  | None => false
  end.

(** A JSON value of a body field that no cast has touched: absent, a
    string, or a value of another type (number, boolean, [null], array,
    object), of which only the truthiness matters. *)
Inductive value :=
| undefined
| str (s : string)
| other (is_truthy : bool).

Definition truthy_value (v : value) : bool :=
  match v with
  | undefined => false
  | str s => negb (bool_decide (s = ""))
  | other b => b
  end.

(** [v || d] for a string-or-undefined value. *)
Definition or_else (v : option string) (d : string) : string :=
  match v with
  | Some s => if bool_decide (s = "") then d else s
  | None => d
  end.

(** [v || d] for an array-or-undefined value (every array is truthy). *)
Definition arr_or_else {A} (v : option (list A)) (d : list A) : list A :=
  match v with
  | Some l => l
  | None => d
  end.

(** [v !== undefined ? v : old]. *)
Definition if_defined {A} (v : option A) (old : A) : A :=
  match v with
  | Some x => x
  | None => old
  end.

Definition is_space (a : ascii) : bool :=
  let n := nat_of_ascii a in
  bool_decide (n = 32) || (bool_decide (9 ≤ n)%nat && bool_decide (n ≤ 13)%nat).

Fixpoint trimStart (s : string) : string :=
  match s with
  | EmptyString => EmptyString
  | String a s' => if is_space a then trimStart s' else s
  end.

Fixpoint trimEnd (s : string) : string :=
  match s with
  | EmptyString => EmptyString
  | String a s' =>
      match trimEnd s' with
      | EmptyString => if is_space a then EmptyString else String a EmptyString
      | t => String a t
      end
  end.

Definition trim (s : string) : string := trimEnd (trimStart s).

Definition lower_ascii (a : ascii) : ascii :=
  let n := nat_of_ascii a in
  if bool_decide (65 ≤ n)%nat && bool_decide (n ≤ 90)%nat
  then ascii_of_nat (n + 32) else a.

Fixpoint toLowerCase (s : string) : string :=
  match s with
  | EmptyString => EmptyString
  | String a s' => String (lower_ascii a) (toLowerCase s')
  end.

(** [arr.includes(x)]. *)
Definition includes `{EqDecision A} (x : A) (l : list A) : bool :=
  bool_decide (x ∈ l).

End Js.

(** ** Identities, roles, responses *)

Abbreviation ObjectId := nat (only parsing).

Inductive Role := Admin | LeadEditor | Editor | Contributor.

Global Instance Role_eq_dec : EqDecision Role.
Proof. solve_decision. Defined.

Definition role_name (r : Role) : string :=
  match r with
  | Admin => "Admin"
  | LeadEditor => "Lead Editor"
  | Editor => "Editor"
  | Contributor => "Contributor"
  end.

(** The [enum] of [userSchema.roles]. *)
Definition role_of_string (s : string) : option Role :=
  if bool_decide (s = "Admin") then Some Admin
  else if bool_decide (s = "Lead Editor") then Some LeadEditor
  else if bool_decide (s = "Editor") then Some Editor
  else if bool_decide (s = "Contributor") then Some Contributor
  else None.

(** What the authentication middleware attaches to the request. *)
Record Requester := {
  userId : ObjectId;
  userRoles : list Role
}.

(** The requester holds no role other than Contributor. *)
Definition only_contributor (req : Requester) : Prop :=
  Forall (λ r, r = Contributor) (userRoles req).

Global Instance only_contributor_dec req : Decision (only_contributor req).
Proof. unfold only_contributor. apply _. Defined.

(** Values a creating handler draws from its environment: the identity the
  driver generates for the new document, [Date.now()] as read for the
  business key, the random suffix, the clock read by the schema
  defaults, and the clock read by [jwt.sign] for the [iat] and [exp] of a
  token. *)
Record Gen := {
  oid : ObjectId;
  now : N;
  rand : string;
  stamp : N;
  iat : N
}.

Definition business_key (prefix : string) (f : Gen) : string :=
  prefix ++ "_" ++ pretty (now f) ++ "_" ++ rand f.

(** Failures raised by [save], by property access on [null] or a call of
    a method the value does not have, and by [bcrypt.compare] on an
    argument that is not a string. *)
Inductive Failure :=
| ValidationError
| DuplicateKey
| TypeError
| IllegalArguments.

(** Schema helper: the [required] validator of a string path. *)
Definition required (s : string) : bool := negb (bool_decide (s = "")).

(** ** Models *)

Module User.
Record t := mk {
  user_id : string;
  user_name : string;
  first_name : string;
  last_name : string;
  email : string;
  phone : list string;
  institution : string;
  password : string;
  roles : list Role
  }.

(** The setters of the [email] path ([lowercase], [trim]) and of the
    [user_name] path ([trim]), as they run on the value of a query
    filter. *)
Definition cast_email (e : string) : string := Js.trim (Js.toLowerCase e).
Definition cast_user_name (n : string) : string := Js.trim n.
End User.

Module Note.
Record t := mk {
  note_id : string;
  UID : ObjectId;
  title : string;
  content : string;
  type : string;
  creation_time : N;
  tags : list ObjectId;
  notebooks : list ObjectId;
  connected_notes : list ObjectId;
  attachments : list ObjectId;
  comments : list ObjectId;
  view_type : string
  }.

Definition types : list string := ["text"; "markdown"; "todo"; "code"].
Definition view_types : list string := ["public"; "private"; "shared"].

(** Validation on [save], of a new document and of a loaded one alike:
    every path is checked. *)
Definition valid (n : t) : bool :=
  required (note_id n) && required (title n)
  && Js.includes (type n) types && Js.includes (view_type n) view_types.

Definition set_tags (l : list ObjectId) (n : t) : t :=
  mk (note_id n) (UID n) (title n) (content n) (type n) (creation_time n)
     l (notebooks n) (connected_notes n) (attachments n) (comments n)
     (view_type n).

Definition set_notebooks (l : list ObjectId) (n : t) : t :=
  mk (note_id n) (UID n) (title n) (content n) (type n) (creation_time n)
     (tags n) l (connected_notes n) (attachments n) (comments n)
     (view_type n).

Definition set_comments (l : list ObjectId) (n : t) : t :=
  mk (note_id n) (UID n) (title n) (content n) (type n) (creation_time n)
     (tags n) (notebooks n) (connected_notes n) (attachments n) l
     (view_type n).

Definition set_attachments (l : list ObjectId) (n : t) : t :=
  mk (note_id n) (UID n) (title n) (content n) (type n) (creation_time n)
   (tags n) (notebooks n) (connected_notes n) l (comments n)
   (view_type n).
End Note.

Module Tag.
Record t := mk {
  tag_id : string;
  tag_name : string;
  notes : list ObjectId
  }.

Definition set_notes (l : list ObjectId) (x : t) : t :=
  mk (tag_id x) (tag_name x) l.

Definition valid (x : t) : bool :=
  required (tag_id x) && required (tag_name x).

(** The setters of the [tag_name] path ([trim], [lowercase]), as they run
    on the value of a query filter. *)
Definition cast_tag_name (n : string) : string := Js.trim (Js.toLowerCase n).
End Tag.

Module Notebook.
Record t := mk {
  notebook_ID : string;
  notebook_name : string;
  parent_notebook : option ObjectId;
  owner : ObjectId;
  notes : list ObjectId;
  accessible_groups : list ObjectId;
  createdAt : N
  }.

Definition set_accessible_groups (l : list ObjectId) (b : t) : t :=
  mk (notebook_ID b) (notebook_name b) (parent_notebook b) (owner b)
     (notes b) l (createdAt b).

Definition valid (b : t) : bool :=
  required (notebook_ID b) && required (notebook_name b).

Definition set_notes (l : list ObjectId) (b : t) : t :=
  mk (notebook_ID b) (notebook_name b) (parent_notebook b) (owner b)
   l (accessible_groups b) (createdAt b).
End Notebook.

Module Group.
Record t := mk {
  group_id : string;
  group_name : string;
  lead_editor : ObjectId;
  members : list ObjectId;
  accessible_notebooks : list ObjectId;
  attachments : list ObjectId;
  createdAt : N
  }.

Definition valid (g : t) : bool :=
  required (group_id g) && required (group_name g).

Definition set_members (l : list ObjectId) (g : t) : t :=
  mk (group_id g) (group_name g) (lead_editor g) l
   (accessible_notebooks g) (attachments g) (createdAt g).

Definition set_attachments (l : list ObjectId) (g : t) : t :=
  mk (group_id g) (group_name g) (lead_editor g) (members g)
   (accessible_notebooks g) l (createdAt g).
End Group.

Module Comment.
Record t := mk {
  comment_id : string;
  user : ObjectId;
  note : ObjectId;
  comment_text : string;
  comment_time : N;
  attachments : list ObjectId
  }.

Definition valid (c : t) : bool :=
  required (comment_id c) && required (comment_text c).

Definition set_attachments (l : list ObjectId) (c : t) : t :=
  mk (comment_id c) (user c) (note c) (comment_text c) (comment_time c) l.
End Comment.

Module Attachment.
Record t := mk {
  attachment_ID : string;
  file_name : string;
  file_type : string;
  URL : string;
  parent_type : string;
  parent_id : ObjectId;
  file_size : nat;
  createdAt : N
  }.

Definition parent_types : list string := ["Note"; "Comment"; "Group"].

Definition valid (a : t) : bool :=
  required (attachment_ID a) && required (file_name a)
  && required (file_type a) && required (URL a)
  && Js.includes (parent_type a) parent_types.
End Attachment.

(** ** The store *)

Record Store := {
  db_users : gmap nat User.t;
  db_notes : gmap nat Note.t;
  db_tags : gmap nat Tag.t;
  db_notebooks : gmap nat Notebook.t;
  db_groups : gmap nat Group.t;
  db_comments : gmap nat Comment.t;
  db_attachments : gmap nat Attachment.t
}.

Definition with_users (m : gmap nat User.t) (s : Store) : Store :=
  Build_Store m (db_notes s) (db_tags s) (db_notebooks s) (db_groups s)
            (db_comments s) (db_attachments s).
Definition with_notes (m : gmap nat Note.t) (s : Store) : Store :=
  Build_Store (db_users s) m (db_tags s) (db_notebooks s) (db_groups s)
            (db_comments s) (db_attachments s).
Definition with_tags (m : gmap nat Tag.t) (s : Store) : Store :=
  Build_Store (db_users s) (db_notes s) m (db_notebooks s) (db_groups s)
            (db_comments s) (db_attachments s).
Definition with_notebooks (m : gmap nat Notebook.t) (s : Store) : Store :=
  Build_Store (db_users s) (db_notes s) (db_tags s) m (db_groups s)
            (db_comments s) (db_attachments s).
Definition with_groups (m : gmap nat Group.t) (s : Store) : Store :=
  Build_Store (db_users s) (db_notes s) (db_tags s) (db_notebooks s) m
            (db_comments s) (db_attachments s).
Definition with_comments (m : gmap nat Comment.t) (s : Store) : Store :=
  Build_Store (db_users s) (db_notes s) (db_tags s) (db_notebooks s)
            (db_groups s) m (db_attachments s).
Definition with_attachments (m : gmap nat Attachment.t) (s : Store) : Store :=
  Build_Store (db_users s) (db_notes s) (db_tags s) (db_notebooks s)
            (db_groups s) (db_comments s) m.

(** ** Collection operations (the part of the ODM the handlers use) *)

Module Model.
Section ops.
Context {A : Type}.
Implicit Types (m : gmap nat A) (q : nat → A → bool).

(** [Model.find(q)]: the matching documents, in no particular order. *)
Definition find q m : list (nat * A) :=
    filter (λ p, q p.1 p.2 = true) (map_to_list m).

(** The order of [.sort({key: -1})]: larger keys first. *)
Definition descending (key : A → N) (x y : nat * A) : Prop :=
  (key y.2 ≤ key x.2)%N.

Global Instance descending_dec key x y : Decision (descending key x y).
Proof. unfold descending. apply _. Defined.

(** [Model.find(q).sort({key: -1})]. *)
Definition find_sorted (key : A → N) q m : list (nat * A) :=
    merge_sort (descending key) (find q m).

(** [Model.findOne(q)]. *)
Definition findOne q m : option (nat * A) := head (find q m).

(** [Model.findById(id)]. *)
Definition findById (id : nat) m : option A := m !! id.

(** [Model.updateMany(q, u)]. *)
Definition updateMany q (u : A → A) m : gmap nat A :=
    map_imap (λ i d, Some (if q i d then u d else d)) m.

(** [Model.deleteMany(q)]. *)
Definition deleteMany q m : gmap nat A :=
    filter (λ p, q p.1 p.2 = false) m.

(** [Model.findByIdAndDelete(id)]. *)
Definition findByIdAndDelete (id : nat) m : gmap nat A := delete id m.
End ops.

(** [{ $pull: { field: x } }] on the array value. *)
Definition pull (x : nat) (l : list nat) : list nat :=
  filter (λ y, y ≠ x) l.

(** [{ $addToSet: { field: x } }] on the array value. *)
Definition addToSet (x : nat) (l : list nat) : list nat :=
  if Js.includes x l then l else l ++ [x].

(** [{ field: { $in: xs } }] for an array field. *)
Definition array_in (xs : list nat) (field : list nat) : bool :=
  bool_decide (Exists (λ y, y ∈ xs) field).

(** [{ field: x }] for an array field. *)
Definition array_has (x : nat) (field : list nat) : bool :=
  Js.includes x field.
End Model.


(** ** Saving documents: validators and unique indexes *)

(** A unique index on a string path: no stored document carries [k]. *)
Definition index_free {A} (path : A → string) (k : string)
    (m : gmap nat A) : bool :=
  bool_decide (map_Forall (λ _ d, path d ≠ k) m).

(** [doc.save()] of a new document with identity [id]: validation first,
    then the insert, which the unique indexes may reject. *)
Definition save_new {A} (valid free : bool) (id : nat) (d : A)
    (m : gmap nat A) : Failure + gmap nat A :=
  if negb valid then inl ValidationError
  else if bool_decide (is_Some (m !! id)) || negb free then inl DuplicateKey
  else inr (<[id := d]> m).

(** [doc.save()] of a document read from the store whose indexed paths
    were not assigned. *)
Definition save_existing {A} (valid : bool) (id : nat) (d : A)
    (m : gmap nat A) : Failure + gmap nat A :=
  if negb valid then inl ValidationError else inr (<[id := d]> m).

(** ** Responses *)

Inductive Payload :=
| NoData
| ErrorData (e : Failure)
| NoteData (id : nat) (n : Note.t)
| NotesData (l : list (nat * Note.t))
| TagData (id : nat) (t : Tag.t)
| NotebookData (id : nat) (b : Notebook.t)
| NotebooksData (l : list (nat * Notebook.t))
| GroupData (id : nat) (g : Group.t)
| CommentData (id : nat) (c : Comment.t)
| CommentsData (l : list (nat * Comment.t))
| AttachmentData (id : nat) (a : Attachment.t)
| AttachmentsData (l : list (nat * Attachment.t))
| AuthData (token : string) (id : nat) (u : User.t).

Record Response := Res {
  status : nat;
  message : string;
  data : Payload
}.

(** The ids listed in a response. *)
Definition listed_ids (r : Response) : list nat :=
  match data r with
  | NotesData l => l.*1
  | NotebooksData l => l.*1
  | CommentsData l => l.*1
  | AttachmentsData l => l.*1
  | _ => []
  end.

(** The answer of a handler whose data is not one of the payloads above:
    status, message (empty when the body has none) and the data. *)
Record Answer (A : Type) := Ans {
  ans_status : nat;
  ans_message : string;
  ans_data : A
}.
Arguments Ans {A} _ _ _.
Arguments ans_status {A} _.
Arguments ans_message {A} _.
Arguments ans_data {A} _.

(** The rule for writing a note or a comment: a privileged role, or
    ownership of the resource. *)
Definition privileged_or_owner (req : Requester) (owner : nat) : Prop :=
  Admin ∈ userRoles req ∨ Editor ∈ userRoles req
  ∨ LeadEditor ∈ userRoles req ∨ owner = userId req.

(** The rule for changing a group: Admin, or the Lead Editor who owns it. *)
Definition admin_or_owning_lead (req : Requester) (lead : nat) : Prop :=
  Admin ∈ userRoles req ∨ (LeadEditor ∈ userRoles req ∧ lead = userId req).

(** A handler permitted the request when it did not answer 403. *)
Definition permitted (r : Response * Store) : Prop := status (fst r) ≠ 403.

(** ** controllers/noteController.js *)

Module NoteController.

Record Body := {
  title : option string;
  content : option string;
  type : option string;
  tags : option (list nat);
  notebook_ids : option (list nat);
  connected_note_ids : option (list nat);
  view_type : option string
}.

Record Query := {
  notebook_id : option nat;
  tag_id : option nat;
  user_id : option nat
}.

(** The permission test shared by [updateNote] and [deleteNote]. *)
Definition canEdit (req : Requester) (note : Note.t) : bool :=
  Js.includes Admin (userRoles req)
  || Js.includes Editor (userRoles req)
  || Js.includes LeadEditor (userRoles req)
  || bool_decide (Note.UID note = userId req).

Definition createNote (s : Store) (req : Requester) (body : Body)
    (f : Gen) : Response * Store :=
  if negb (Js.truthy (title body)) then
    (Res 400 "Note title is required" NoData, s)
  else
    let note :=
      Note.mk (business_key "NOTE" f) (userId req)
              (Js.trim (Js.or_else (title body) ""))
              (Js.or_else (content body) "")
              (Js.or_else (type body) "text")
              (stamp f)
              (Js.arr_or_else (tags body) [])
              (Js.arr_or_else (notebook_ids body) [])
              (Js.arr_or_else (connected_note_ids body) [])
              [] [] "private" in
    match save_new (Note.valid note)
                   (index_free Note.note_id (Note.note_id note) (db_notes s))
                   (oid f) note (db_notes s) with
    | inl e => (Res 500 "Error creating note" (ErrorData e), s)
    | inr notes' =>
        (Res 201 "Note created successfully" (NoteData (oid f) note),
         with_notes notes' s)
    end.

(** The filter [getNotes] builds from the requester and the query string. *)
Definition notes_query (req : Requester) (q : Query) (_ : nat)
    (n : Note.t) : bool :=
  (Js.includes Admin (userRoles req)
   || bool_decide (Note.UID n = userId req)
   || bool_decide (Note.view_type n = "public")
   || bool_decide (Note.view_type n = "shared"))
  && match notebook_id q with
     | Some b => Model.array_has b (Note.notebooks n)
     | None => true
     end
  && match tag_id q with
     | Some t => Model.array_has t (Note.tags n)
     | None => true
     end
  && match user_id q with
     | Some u => if Js.includes Admin (userRoles req)
                 then bool_decide (Note.UID n = u) else true
     | None => true
     end.

Definition getNotes (s : Store) (req : Requester) (q : Query)
    : Response * Store :=
  (Res 200 "Notes retrieved successfully"
       (NotesData (Model.find_sorted Note.creation_time (notes_query req q)
                                     (db_notes s))),
   s).

(** [populate('UID', ...)]: the owner document, [null] when the reference
    does not resolve. *)
Definition populate_UID (s : Store) (note : Note.t) : option User.t :=
  db_users s !! Note.UID note.

(** The access test is a conjunction evaluated left to right: for an Admin
    it stops at the first operand; otherwise [note.UID._id] is read, which
    throws when the populated owner is [null]. *)
Definition getNoteById (s : Store) (req : Requester) (id : nat)
    : Response * Store :=
  match Model.findById id (db_notes s) with
  | None => (Res 404 "Note not found" NoData, s)
  | Some note =>
      if Js.includes Admin (userRoles req) then
        (Res 200 "Note retrieved successfully" (NoteData id note), s)
      else
        match populate_UID s note with
        | None => (Res 500 "Error fetching note" (ErrorData TypeError), s)
        | Some _ =>
            if negb (bool_decide (Note.UID note = userId req))
               && bool_decide (Note.view_type note = "private")
            then (Res 403 "Access denied to this note" NoData, s)
            else (Res 200 "Note retrieved successfully" (NoteData id note), s)
        end
  end.

Definition updateNote (s : Store) (req : Requester) (id : nat) (body : Body)
    : Response * Store :=
  match Model.findById id (db_notes s) with
  | None => (Res 404 "Note not found" NoData, s)
  | Some note =>
      if negb (canEdit req note) then
        (Res 403 "You do not have permission to edit this note" NoData, s)
      else
        let note' :=
          Note.mk (Note.note_id note) (Note.UID note)
                  (Js.if_defined (Js.trim <$> title body) (Note.title note))
                  (Js.if_defined (content body) (Note.content note))
                  (Js.if_defined (type body) (Note.type note))
                  (Note.creation_time note)
                  (Js.if_defined (tags body) (Note.tags note))
                  (Js.if_defined (notebook_ids body) (Note.notebooks note))
                  (Note.connected_notes note)
                  (Note.attachments note) (Note.comments note)
                  (Js.if_defined (view_type body) (Note.view_type note)) in
        match save_existing (Note.valid note') id note'
                            (db_notes s) with
        | inl e => (Res 500 "Error updating note" (ErrorData e), s)
        | inr notes' =>
            (Res 200 "Note updated successfully" (NoteData id note'),
             with_notes notes' s)
        end
  end.

Definition deleteNote (s : Store) (req : Requester) (id : nat)
    : Response * Store :=
  match Model.findById id (db_notes s) with
  | None => (Res 404 "Note not found" NoData, s)
  | Some note =>
      if negb (canEdit req note) then
        (Res 403 "You do not have permission to delete this note" NoData, s)
      else
        let s1 :=
          with_comments
            (Model.deleteMany
               (λ _ c, bool_decide (Comment.note c = id)) (db_comments s)) s in
        let s2 :=
          with_attachments
            (Model.deleteMany
               (λ _ a, bool_decide (Attachment.parent_type a = "Note")
                       && bool_decide (Attachment.parent_id a = id))
               (db_attachments s1)) s1 in
        let s3 :=
          with_notes (Model.findByIdAndDelete id (db_notes s2)) s2 in
        (Res 200 "Note deleted successfully" NoData, s3)
  end.

Definition addTagToNote (s : Store) (id : nat) (tag_id : option nat)
    : Response * Store :=
  match tag_id with
  | None => (Res 400 "tag_id is required" NoData, s)
  | Some tag_id =>
      match Model.findById id (db_notes s),
            Model.findById tag_id (db_tags s) with
      | Some note, Some tag =>
          if negb (Js.includes tag_id (Note.tags note)) then
            let note' := Note.set_tags (Note.tags note ++ [tag_id]) note in
            match save_existing (Note.valid note') id note'
                                (db_notes s) with
            | inl e => (Res 500 "Error adding tag" (ErrorData e), s)
            | inr notes' =>
                let s1 := with_notes notes' s in
                if negb (Js.includes id (Tag.notes tag)) then
                  let tag' := Tag.set_notes (Tag.notes tag ++ [id]) tag in
                  match save_existing (Tag.valid tag') tag_id tag'
                                      (db_tags s1) with
                  | inl e => (Res 500 "Error adding tag" (ErrorData e), s1)
                  | inr tags' =>
                      (Res 200 "Tag added to note successfully"
                           (NoteData id note'),
                       with_tags tags' s1)
                  end
                else
                  (Res 200 "Tag added to note successfully"
                       (NoteData id note'), s1)
            end
          else
            (Res 200 "Tag added to note successfully" (NoteData id note), s)
      | _, _ => (Res 404 "Note or tag not found" NoData, s)
      end
  end.

End NoteController.

(** ** controllers/tagController.js *)

Module TagController.

Definition createTag (s : Store) (tag_name : option string) (f : Gen)
    : Response * Store :=
  if negb (Js.truthy tag_name) then
    (Res 400 "tag_name is required" NoData, s)
  else
    let name := Js.toLowerCase (Js.or_else tag_name "") in
    match Model.findOne
            (λ _ t, bool_decide (Tag.tag_name t = Tag.cast_tag_name name))
            (db_tags s) with
    | Some _ => (Res 400 "Tag already exists" NoData, s)
    | None =>
        let tag := Tag.mk (business_key "TAG" f) (Js.trim name) [] in
        match save_new (Tag.valid tag)
                       (index_free Tag.tag_id (Tag.tag_id tag) (db_tags s)
                        && index_free Tag.tag_name (Tag.tag_name tag)
                                      (db_tags s))
                       (oid f) tag (db_tags s) with
        | inl e => (Res 500 "Error creating tag" (ErrorData e), s)
        | inr tags' =>
            (Res 201 "Tag created successfully" (TagData (oid f) tag),
             with_tags tags' s)
        end
    end.

Definition deleteTag (s : Store) (id : nat) : Response * Store :=
  match Model.findById id (db_tags s) with
  | None => (Res 404 "Tag not found" NoData, s)
  | Some tag =>
      let s1 :=
        with_notes
          (Model.updateMany
             (λ _ n, Model.array_has id (Note.tags n))
             (λ n, Note.set_tags (Model.pull id (Note.tags n)) n)
             (db_notes s)) s in
      (Res 200 "Tag deleted successfully" NoData,
       with_tags (Model.findByIdAndDelete id (db_tags s1)) s1)
  end.


(** The order of [.sort({ tag_name: 1 })]. *)
Definition by_name (x y : nat * Tag.t) : Prop :=
  String.leb (Tag.tag_name x.2) (Tag.tag_name y.2) = true.

Global Instance by_name_dec x y : Decision (by_name x y).
Proof. unfold by_name. apply _. Defined.

Definition getTags (s : Store) : Answer (list (nat * Tag.t)) * Store :=
  (Ans 200 "Tags retrieved successfully"
       (merge_sort by_name (Model.find (λ _ _, true) (db_tags s))),
   s).
End TagController.

(** ** controllers/notebookController.js *)

Module NotebookController.

Record Body := {
  notebook_name : option string;
  parent_notebook_id : option (option nat)
}.

Definition createNotebook (s : Store) (req : Requester) (body : Body)
    (f : Gen) : Response * Store :=
  if negb (Js.truthy (notebook_name body)) then
    (Res 400 "Notebook name is required" NoData, s)
  else
    let notebook :=
      Notebook.mk (business_key "NOTEBOOK" f)
                  (Js.trim (Js.or_else (notebook_name body) ""))
                  (mjoin (parent_notebook_id body))
                  (userId req) [] [] (stamp f) in
    match save_new (Notebook.valid notebook)
                   (index_free Notebook.notebook_ID
                               (Notebook.notebook_ID notebook)
                               (db_notebooks s))
                   (oid f) notebook (db_notebooks s) with
    | inl e => (Res 500 "Error creating notebook" (ErrorData e), s)
    | inr notebooks' =>
        (Res 201 "Notebook created successfully"
             (NotebookData (oid f) notebook),
         with_notebooks notebooks' s)
    end.

(** The filter [getNotebooks] builds: nothing for an Admin, otherwise the
    two-clause [$or]. *)
Definition notebooks_query (req : Requester) (_ : nat)
    (b : Notebook.t) : bool :=
  if Js.includes Admin (userRoles req) then true
  else bool_decide (Notebook.owner b = userId req)
       || Model.array_in [] (Notebook.accessible_groups b).

Definition getNotebooks (s : Store) (req : Requester) : Response * Store :=
  (Res 200 "Notebooks retrieved successfully"
       (NotebooksData (Model.find_sorted Notebook.createdAt
                                         (notebooks_query req)
                                         (db_notebooks s))),
   s).

Definition canDelete (req : Requester) (notebook : Notebook.t) : bool :=
  Js.includes Admin (userRoles req)
  || Js.includes LeadEditor (userRoles req)
  || bool_decide (Notebook.owner notebook = userId req).

Definition deleteNotebook (s : Store) (req : Requester) (id : nat)
    : Response * Store :=
  match Model.findById id (db_notebooks s) with
  | None => (Res 404 "Notebook not found" NoData, s)
  | Some notebook =>
      if negb (canDelete req notebook) then
        (Res 403 "You do not have permission to delete this notebook" NoData,
         s)
      else
        let s1 :=
          with_notes
            (Model.updateMany
               (λ _ n, Model.array_has id (Note.notebooks n))
               (λ n, Note.set_notebooks (Model.pull id (Note.notebooks n)) n)
               (db_notes s)) s in
        (Res 200 "Notebook deleted successfully" NoData,
         with_notebooks (Model.findByIdAndDelete id (db_notebooks s1)) s1)
  end.


(** The permission test of [updateNotebook] (the same as [canDelete]). *)
Definition canEdit (req : Requester) (notebook : Notebook.t) : bool :=
  Js.includes Admin (userRoles req)
  || Js.includes LeadEditor (userRoles req)
  || bool_decide (Notebook.owner notebook = userId req).

Definition updateNotebook (s : Store) (req : Requester) (id : nat)
    (body : Body) : Response * Store :=
  match Model.findById id (db_notebooks s) with
  | None => (Res 404 "Notebook not found" NoData, s)
  | Some notebook =>
      if negb (canEdit req notebook) then
        (Res 403 "You do not have permission to edit this notebook" NoData, s)
      else
        let notebook' :=
          Notebook.mk (Notebook.notebook_ID notebook)
                      (Js.if_defined (Js.trim <$> notebook_name body)
                                     (Notebook.notebook_name notebook))
                      (Js.if_defined (parent_notebook_id body)
                                     (Notebook.parent_notebook notebook))
                      (Notebook.owner notebook) (Notebook.notes notebook)
                      (Notebook.accessible_groups notebook)
                      (Notebook.createdAt notebook) in
        match save_existing (Notebook.valid notebook') id notebook'
                            (db_notebooks s) with
        | inl e => (Res 500 "Error updating notebook" (ErrorData e), s)
        | inr notebooks' =>
            (Res 200 "Notebook updated successfully"
                 (NotebookData id notebook'),
             with_notebooks notebooks' s)
        end
  end.

Definition addNoteToNotebook (s : Store) (id : nat) (note_id : option nat)
    : Response * Store :=
  match note_id with
  | None => (Res 400 "note_id is required" NoData, s)
  | Some note_id =>
      match Model.findById id (db_notebooks s),
            Model.findById note_id (db_notes s) with
      | Some notebook, Some note =>
          let notebook' :=
            if negb (Js.includes note_id (Notebook.notes notebook))
            then Notebook.set_notes (Notebook.notes notebook ++ [note_id])
                                    notebook
            else notebook in
          match (if negb (Js.includes note_id (Notebook.notes notebook))
                 then save_existing (Notebook.valid notebook') id notebook'
                                    (db_notebooks s)
                 else inr (db_notebooks s)) with
          | inl e => (Res 500 "Error adding note to notebook" (ErrorData e), s)
          | inr notebooks' =>
              let s1 := with_notebooks notebooks' s in
              if negb (Js.includes id (Note.notebooks note)) then
                let note' :=
                  Note.set_notebooks (Note.notebooks note ++ [id]) note in
                match save_existing (Note.valid note') note_id
                                    note' (db_notes s1) with
                | inl e =>
                    (Res 500 "Error adding note to notebook" (ErrorData e),
                     s1)
                | inr notes' =>
                    (Res 200 "Note added to notebook successfully"
                         (NotebookData id notebook'),
                     with_notes notes' s1)
                end
              else
                (Res 200 "Note added to notebook successfully"
                     (NotebookData id notebook'), s1)
          end
      | _, _ => (Res 404 "Notebook or note not found" NoData, s)
      end
  end.

Definition getNotebookById (s : Store) (id : nat) : Response * Store :=
  match Model.findById id (db_notebooks s) with
  | None => (Res 404 "Notebook not found" NoData, s)
  | Some notebook =>
      (Res 200 "Notebook retrieved successfully" (NotebookData id notebook),
       s)
  end.
End NotebookController.

(** ** controllers/groupController.js *)

Module GroupController.

Record Body := {
  group_name : option string;
  member_ids : option (list nat);
  notebook_ids : option (list nat)
}.

(** The compound unique index [{group_id, lead_editor}]. *)
Definition group_index_free (k : string) (lead : nat)
    (m : gmap nat Group.t) : bool :=
  bool_decide
    (map_Forall (λ _ g, ¬ (Group.group_id g = k ∧ Group.lead_editor g = lead))
                m).

(** [{ $pull: { accessible_groups: id } }] on the notebooks listing [id]. *)
Definition unlink_group (id : nat) (m : gmap nat Notebook.t)
    : gmap nat Notebook.t :=
  Model.updateMany
    (λ _ b, Model.array_has id (Notebook.accessible_groups b))
    (λ b, Notebook.set_accessible_groups
            (Model.pull id (Notebook.accessible_groups b)) b)
    m.

(** [{ $addToSet: { accessible_groups: id } }] on the notebooks whose
    [_id] is [$in] the list. *)
Definition link_group (id : nat) (notebook_ids : list nat)
    (m : gmap nat Notebook.t) : gmap nat Notebook.t :=
  Model.updateMany
    (λ i _, bool_decide (i ∈ notebook_ids))
    (λ b, Notebook.set_accessible_groups
            (Model.addToSet id (Notebook.accessible_groups b)) b)
    m.

(** [if (notebook_ids && notebook_ids.length > 0) link_group ...]. *)
Definition link_if_any (id : nat) (notebook_ids : option (list nat))
    (m : gmap nat Notebook.t) : gmap nat Notebook.t :=
  match notebook_ids with
  | Some (b :: l) => link_group id (b :: l) m
  | _ => m
  end.

Definition createGroup (s : Store) (req : Requester) (body : Body)
    (f : Gen) : Response * Store :=
  if negb (Js.includes LeadEditor (userRoles req))
     && negb (Js.includes Admin (userRoles req)) then
    (Res 403 "Only Lead Editors and Admins can create groups" NoData, s)
  else if negb (Js.truthy (group_name body)) then
    (Res 400 "group_name is required" NoData, s)
  else
    let group :=
      Group.mk (business_key "GROUP" f)
               (Js.trim (Js.or_else (group_name body) ""))
               (userId req)
               (Js.arr_or_else (member_ids body) [])
               (Js.arr_or_else (notebook_ids body) [])
               [] (stamp f) in
    match save_new (Group.valid group)
                   (group_index_free (Group.group_id group) (userId req)
                                     (db_groups s))
                   (oid f) group (db_groups s) with
    | inl e => (Res 500 "Error creating group" (ErrorData e), s)
    | inr groups' =>
        let s1 := with_groups groups' s in
        let s2 :=
          with_notebooks
            (link_if_any (oid f) (notebook_ids body) (db_notebooks s1)) s1 in
        (Res 201 "Group created successfully" (GroupData (oid f) group), s2)
    end.

(** The permission test shared by [updateGroup] and [deleteGroup]. *)
Definition canEdit (req : Requester) (group : Group.t) : bool :=
  Js.includes Admin (userRoles req)
  || (Js.includes LeadEditor (userRoles req)
      && bool_decide (Group.lead_editor group = userId req)).

Definition updateGroup (s : Store) (req : Requester) (id : nat) (body : Body)
    : Response * Store :=
  match Model.findById id (db_groups s) with
  | None => (Res 404 "Group not found" NoData, s)
  | Some group =>
      if negb (canEdit req group) then
        (Res 403 "You do not have permission to edit this group" NoData, s)
      else
        let group' :=
          Group.mk (Group.group_id group)
                   (Js.if_defined (Js.trim <$> group_name body)
                                  (Group.group_name group))
                   (Group.lead_editor group)
                   (Js.if_defined (member_ids body) (Group.members group))
                   (Js.if_defined (notebook_ids body)
                                  (Group.accessible_notebooks group))
                   (Group.attachments group) (Group.createdAt group) in
        let s1 :=
          match notebook_ids body with
          | None => s
          | Some l =>
              let unlinked := unlink_group id (db_notebooks s) in
              with_notebooks
                (match l with
                 | [] => unlinked
                 | _ :: _ => link_group id l unlinked
                 end) s
          end in
        match save_existing (Group.valid group') id group' (db_groups s1) with
        | inl e => (Res 500 "Error updating group" (ErrorData e), s1)
        | inr groups' =>
            (Res 200 "Group updated successfully" (GroupData id group'),
             with_groups groups' s1)
        end
  end.

Definition deleteGroup (s : Store) (req : Requester) (id : nat)
    : Response * Store :=
  match Model.findById id (db_groups s) with
  | None => (Res 404 "Group not found" NoData, s)
  | Some group =>
      if negb (canEdit req group) then
        (Res 403 "You do not have permission to delete this group" NoData, s)
      else
        let s1 := with_notebooks (unlink_group id (db_notebooks s)) s in
        (Res 200 "Group deleted successfully" NoData,
         with_groups (Model.findByIdAndDelete id (db_groups s1)) s1)
  end.


Definition addMemberToGroup (s : Store) (req : Requester) (id : nat)
    (user_id : option nat) : Response * Store :=
  match user_id with
  | None => (Res 400 "user_id is required" NoData, s)
  | Some user_id =>
      match Model.findById id (db_groups s),
            Model.findById user_id (db_users s) with
      | Some group, Some user =>
          if negb (canEdit req group) then
            (Res 403 "You do not have permission to modify this group" NoData,
             s)
          else if negb (Js.includes user_id (Group.members group)) then
            let group' :=
              Group.set_members (Group.members group ++ [user_id]) group in
            match save_existing (Group.valid group') id group'
                                (db_groups s) with
            | inl e => (Res 500 "Error adding member" (ErrorData e), s)
            | inr groups' =>
                (Res 200 "Member added to group successfully"
                     (GroupData id group'),
                 with_groups groups' s)
            end
          else
            (Res 200 "Member added to group successfully" (GroupData id group),
             s)
      | _, _ => (Res 404 "Group or user not found" NoData, s)
      end
  end.

(** The filter [getGroups] builds: nothing for an Admin or a Lead Editor,
    otherwise [$or: [{ members: userId }, { lead_editor: userId }]]. *)
Definition groups_query (req : Requester) (_ : nat) (g : Group.t) : bool :=
  if negb (Js.includes Admin (userRoles req))
     && negb (Js.includes LeadEditor (userRoles req))
  then Model.array_has (userId req) (Group.members g)
       || bool_decide (Group.lead_editor g = userId req)
  else true.

Definition getGroups (s : Store) (req : Requester)
    : Answer (list (nat * Group.t)) * Store :=
  (Ans 200 "Groups retrieved successfully"
       (Model.find_sorted Group.createdAt (groups_query req) (db_groups s)),
   s).

Definition getGroupById (s : Store) (id : nat) : Response * Store :=
  match Model.findById id (db_groups s) with
  | None => (Res 404 "Group not found" NoData, s)
  | Some group =>
      (Res 200 "Group retrieved successfully" (GroupData id group), s)
  end.
End GroupController.

(** ** controllers/commentController.js *)

Module CommentController.

Record Body := {
  note_id : option nat;
  comment_text : option string
}.

(** The compound unique index [{comment_id, note}]. *)
Definition comment_index_free (k : string) (n : nat)
    (m : gmap nat Comment.t) : bool :=
  bool_decide
    (map_Forall (λ _ c, ¬ (Comment.comment_id c = k ∧ Comment.note c = n)) m).

Definition createComment (s : Store) (req : Requester) (body : Body)
    (f : Gen) : Response * Store :=
  match note_id body with
  | None => (Res 400 "note_id and comment_text are required" NoData, s)
  | Some nid =>
      if negb (Js.truthy (comment_text body)) then
        (Res 400 "note_id and comment_text are required" NoData, s)
      else
        match Model.findById nid (db_notes s) with
        | None => (Res 404 "Note not found" NoData, s)
        | Some note =>
            let comment :=
              Comment.mk (business_key "COMMENT" f) (userId req) nid
                         (Js.trim (Js.or_else (comment_text body) ""))
                         (stamp f) [] in
            match save_new (Comment.valid comment)
                           (comment_index_free (Comment.comment_id comment)
                                               nid (db_comments s))
                           (oid f) comment (db_comments s) with
            | inl e => (Res 500 "Error creating comment" (ErrorData e), s)
            | inr comments' =>
                let s1 := with_comments comments' s in
                let note' :=
                  Note.set_comments (Note.comments note ++ [oid f]) note in
                match save_existing (Note.valid note') nid note'
                                    (db_notes s1) with
                | inl e =>
                    (Res 500 "Error creating comment" (ErrorData e), s1)
                | inr notes' =>
                    (Res 201 "Comment created successfully"
                         (CommentData (oid f) comment),
                     with_notes notes' s1)
                end
            end
        end
  end.

Definition getComments (s : Store) (note_id : option nat)
    : Response * Store :=
  (Res 200 "Comments retrieved successfully"
       (CommentsData
          (Model.find_sorted Comment.comment_time
             (λ _ c, match note_id with
                     | Some n => bool_decide (Comment.note c = n)
                     | None => true
                     end)
             (db_comments s))),
   s).

Definition canDelete (req : Requester) (comment : Comment.t) : bool :=
  Js.includes Admin (userRoles req)
  || Js.includes Editor (userRoles req)
  || Js.includes LeadEditor (userRoles req)
  || bool_decide (Comment.user comment = userId req).

Definition deleteComment (s : Store) (req : Requester) (id : nat)
    : Response * Store :=
  match Model.findById id (db_comments s) with
  | None => (Res 404 "Comment not found" NoData, s)
  | Some comment =>
      if negb (canDelete req comment) then
        (Res 403 "You do not have permission to delete this comment" NoData,
         s)
      else
        let s1 :=
          with_notes
            (alter (λ n, Note.set_comments (Model.pull id (Note.comments n)) n)
                   (Comment.note comment) (db_notes s)) s in
        (Res 200 "Comment deleted successfully" NoData,
         with_comments (Model.findByIdAndDelete id (db_comments s1)) s1)
  end.

End CommentController.

(** ** controllers/attachmentController.js *)

Module AttachmentController.

Record Body := {
  parent_type : option string;
  parent_id : option nat;
  file_name : option string;
  file_type : option string;
  URL : option string;
  file_size : option nat
}.

(** The compound unique index [{attachment_ID, parent_type, parent_id}]. *)
Definition attachment_index_free (a : Attachment.t)
    (m : gmap nat Attachment.t) : bool :=
  bool_decide
    (map_Forall
       (λ _ x, ¬ (Attachment.attachment_ID x = Attachment.attachment_ID a
                  ∧ Attachment.parent_type x = Attachment.parent_type a
                  ∧ Attachment.parent_id x = Attachment.parent_id a)) m).

(** The parent document an attachment hangs on, by [parent_type]. *)
Inductive Parent :=
| NoteParent (n : Note.t)
| CommentParent (c : Comment.t)
| GroupParent (g : Group.t).

Definition find_parent (s : Store) (parent_type : string) (parent_id : nat)
    : option Parent :=
  if bool_decide (parent_type = "Note") then
    NoteParent <$> Model.findById parent_id (db_notes s)
  else if bool_decide (parent_type = "Comment") then
    CommentParent <$> Model.findById parent_id (db_comments s)
  else if bool_decide (parent_type = "Group") then
    GroupParent <$> Model.findById parent_id (db_groups s)
  else None.

(** [parent.attachments = update(parent.attachments); parent.save()]. *)
Definition save_parent (s : Store) (parent : Parent) (parent_id : nat)
    (update : list nat → list nat) : Failure + Store :=
  match parent with
  | NoteParent n =>
      let n' := Note.set_attachments (update (Note.attachments n)) n in
      match save_existing (Note.valid n') parent_id n'
                          (db_notes s) with
      | inl e => inl e
      | inr m => inr (with_notes m s)
      end
  | CommentParent c =>
      let c' := Comment.set_attachments (update (Comment.attachments c)) c in
      match save_existing (Comment.valid c') parent_id c'
                          (db_comments s) with
      | inl e => inl e
      | inr m => inr (with_comments m s)
      end
  | GroupParent g =>
      let g' := Group.set_attachments (update (Group.attachments g)) g in
      match save_existing (Group.valid g') parent_id g' (db_groups s) with
      | inl e => inl e
      | inr m => inr (with_groups m s)
      end
  end.


Definition createAttachment (s : Store) (body : Body) (f : Gen)
    : Response * Store :=
  match parent_id body with
  | Some pid =>
      if negb (Js.truthy (parent_type body))
         || negb (Js.truthy (file_name body))
         || negb (Js.truthy (file_type body))
         || negb (Js.truthy (URL body)) then
        (Res 400
             "parent_type, parent_id, file_name, file_type, and URL are required"
             NoData, s)
      else
        let ptype := Js.or_else (parent_type body) "" in
        match find_parent s ptype pid with
        | None => (Res 404 (ptype ++ " not found") NoData, s)
        | Some parent =>
            let attachment :=
              Attachment.mk (business_key "ATTACH" f)
                            (Js.trim (Js.or_else (file_name body) ""))
                            (Js.or_else (file_type body) "")
                            (Js.or_else (URL body) "")
                            ptype pid (default 0 (file_size body))
                            (stamp f) in
            match save_new (Attachment.valid attachment)
                           (attachment_index_free attachment
                                                  (db_attachments s))
                           (oid f) attachment (db_attachments s) with
            | inl e => (Res 500 "Error creating attachment" (ErrorData e), s)
            | inr attachments' =>
                let s1 := with_attachments attachments' s in
                match save_parent s1 parent pid (λ l, (l ++ [oid f])%list) with
                | inl e =>
                    (Res 500 "Error creating attachment" (ErrorData e), s1)
                | inr s2 =>
                    (Res 201 "Attachment created successfully"
                         (AttachmentData (oid f) attachment), s2)
                end
            end
        end
  | None =>
      (Res 400
           "parent_type, parent_id, file_name, file_type, and URL are required"
           NoData, s)
  end.

Definition deleteAttachment (s : Store) (id : nat) : Response * Store :=
  match Model.findById id (db_attachments s) with
  | None => (Res 404 "Attachment not found" NoData, s)
  | Some attachment =>
      match
        match find_parent s (Attachment.parent_type attachment)
                          (Attachment.parent_id attachment) with
        | Some parent =>
            save_parent s parent (Attachment.parent_id attachment)
                        (filter (λ attId, attId ≠ id))
        | None => inr s
        end
      with
      | inl e => (Res 500 "Error deleting attachment" (ErrorData e), s)
      | inr s1 =>
          (Res 200 "Attachment deleted successfully" NoData,
           with_attachments
             (Model.findByIdAndDelete id (db_attachments s1)) s1)
      end
  end.

Definition getAttachments (s : Store) (parent_type : option string)
    (parent_id : option nat) : Response * Store :=
  (Res 200 "Attachments retrieved successfully"
       (AttachmentsData
          (Model.find_sorted Attachment.createdAt
             (λ _ a,
                (if Js.truthy parent_type
                 then bool_decide (Some (Attachment.parent_type a) = parent_type)
                 else true)
                && match parent_id with
                   | Some p => bool_decide (Attachment.parent_id a = p)
                   | None => true
                   end)
             (db_attachments s))),
   s).

End AttachmentController.

(** ** controllers/authController.js *)

Module AuthController.

(** The [roles] value of a signup body. *)
Inductive RolesValue :=
| RolesUndefined
| RolesNotArray
| RolesArray (l : list string).

(** The [phone] value of a signup body. *)
Inductive PhoneValue :=
| PhoneUndefined
| PhoneString (p : string)
| PhoneArray (l : list string).

Record SignupBody := {
  user_name : option string;
  first_name : option string;
  last_name : option string;
  email : option string;
  password : option string;
  phone : PhoneValue;
  institution : option string;
  roles : RolesValue
}.

Module Login.
Record Body := {
  email : Js.value;
  password : Js.value
}.
End Login.

(** [roles && Array.isArray(roles) ? roles : ['Contributor']]. *)
Definition roles_or_default (v : RolesValue) : list string :=
  match v with
  | RolesArray l => l
  | _ => ["Contributor"]
  end.

(** [phone ? (Array.isArray(phone) ? phone : [phone]) : []]. *)
Definition phone_list (v : PhoneValue) : list string :=
  match v with
  | PhoneUndefined => []
  | PhoneString p => if bool_decide (p = "") then [] else [p]
  | PhoneArray l => l
  end.

(** Casting of the [roles] array against the schema [enum]. *)
Definition cast_roles (l : list string) : option (list Role) :=
  mapM role_of_string l.

(** The validators of [userSchema], on the document after its setters. *)
Definition user_valid (u : User.t) : bool :=
  required (User.user_id u)
  && required (User.user_name u)
  && bool_decide (3 ≤ String.length (User.user_name u))%nat
  && required (User.first_name u)
  && required (User.last_name u)
  && required (User.email u)
  && required (User.password u)
  && bool_decide (6 ≤ String.length (User.password u))%nat.

(** The unique indexes of [userSchema]. *)
Definition user_index_free (u : User.t) (m : gmap nat User.t) : bool :=
  index_free User.user_id (User.user_id u) m
  && index_free User.user_name (User.user_name u) m
  && index_free User.email (User.email u) m.

(** The fields of the user returned to the caller (no password). *)
Definition public_fields (u : User.t) : User.t :=
  User.mk (User.user_id u) (User.user_name u) (User.first_name u)
          (User.last_name u) (User.email u) (User.phone u)
          (User.institution u) "" (User.roles u).

(** The filter of [signup]'s lookup: [{ $or: [{ email }, { user_name }] }],
    each value cast through the setters of its path. *)
Definition existing_user (body : SignupBody) (_ : nat) (u : User.t) : bool :=
  bool_decide (Some (User.email u) = User.cast_email <$> email body)
  || bool_decide (Some (User.user_name u)
                  = User.cast_user_name <$> user_name body).

(** The document [signup] hands to [save], after the schema setters. *)
Definition new_user (body : SignupBody) (f : Gen) (rs : list Role) : User.t :=
  User.mk (business_key "USER" f)
          (Js.trim (Js.or_else (user_name body) ""))
          (Js.trim (Js.or_else (first_name body) ""))
          (Js.trim (Js.or_else (last_name body) ""))
          (Js.trim (Js.toLowerCase (Js.or_else (email body) "")))
          (Js.trim <$> phone_list (phone body))
          (Js.trim (Js.or_else (institution body) ""))
          (Js.or_else (password body) "")
          rs.

(** What [signup] requires of a request besides its [roles]: the required
    fields are present, no stored user has the email or the user name, the
    document passes validation, and the unique indexes accept it. *)
Definition acceptable (s : Store) (body : SignupBody) (f : Gen) : Prop :=
  Js.truthy (user_name body) = true
  ∧ Js.truthy (first_name body) = true
  ∧ Js.truthy (last_name body) = true
  ∧ Js.truthy (email body) = true
  ∧ Js.truthy (password body) = true
  ∧ Model.findOne (existing_user body) (db_users s) = None
  ∧ user_valid (new_user body f []) = true
  ∧ user_index_free (new_user body f []) (db_users s) = true
  ∧ db_users s !! oid f = None.

(** The names of the role [enum]. *)
Definition role_names : list string :=
  role_name <$> [Admin; LeadEditor; Editor; Contributor].

(** The answer of [login] to failed credentials. *)
Definition bad_credentials : Response :=
  Res 401 "Invalid email or password" NoData.

Section handlers.

(** The password-hashing and token libraries.  [bcrypt_compare] is
    [bcrypt.compare] on two strings; [jwt_sign id t] is the token
    [jwt.sign] makes for the identity [id] when its clock reads [t]. *)
Variable bcrypt_hash : string → nat → string.
Variable bcrypt_compare : string → string → bool.
Variable jwt_sign : nat → N → string.

(** The [pre('save')] hook: the password is hashed once validation passed. *)
Definition hash_password (u : User.t) : User.t :=
  User.mk (User.user_id u) (User.user_name u) (User.first_name u)
          (User.last_name u) (User.email u) (User.phone u)
          (User.institution u) (bcrypt_hash (User.password u) 10)
          (User.roles u).

Definition signup (s : Store) (body : SignupBody) (f : Gen)
    : Response * Store :=
  if negb (Js.truthy (user_name body)) || negb (Js.truthy (first_name body))
     || negb (Js.truthy (last_name body)) || negb (Js.truthy (email body))
     || negb (Js.truthy (password body)) then
    (Res 400
         "Please provide all required fields: user_name, first_name, last_name, email, password"
         NoData, s)
  else
    match Model.findOne (existing_user body) (db_users s) with
    | Some _ =>
        (Res 400 "User with this email or username already exists" NoData, s)
    | None =>
        match cast_roles (roles_or_default (roles body)) with
        | None => (Res 500 "Error creating user account"
                       (ErrorData ValidationError), s)
        | Some rs =>
            let user := new_user body f rs in
            match save_new (user_valid user)
                           (user_index_free user (db_users s))
                           (oid f) (hash_password user) (db_users s) with
            | inl e =>
                (Res 500 "Error creating user account" (ErrorData e), s)
            | inr users' =>
                (Res 201 "User created successfully"
                     (AuthData (jwt_sign (oid f) (iat f)) (oid f)
                               (public_fields (hash_password user))),
                 with_users users' s)
            end
        end
    end.

(** [login], with the clock [jwt.sign] reads.  A truthy [email] that is
    not a string has no [toLowerCase]; the lookup value is cast through
    the setters of [email]; a truthy [password] that is not a string makes
    [bcrypt.compare] throw once a user has been found. *)
Definition login (s : Store) (body : Login.Body) (clock : N)
    : Response * Store :=
  if negb (Js.truthy_value (Login.email body))
     || negb (Js.truthy_value (Login.password body)) then
    (Res 400 "Please provide email and password" NoData, s)
  else
    match Login.email body with
    | Js.str email =>
        match Model.findOne
                (λ _ u, bool_decide
                          (User.email u
                           = User.cast_email (Js.toLowerCase email)))
                (db_users s) with
        | None => (Res 401 "Invalid email or password" NoData, s)
        | Some (id, user) =>
            match Login.password body with
            | Js.str password =>
                if negb (bcrypt_compare password (User.password user)) then
                  (Res 401 "Invalid email or password" NoData, s)
                else
                  (Res 200 "Login successful"
                       (AuthData (jwt_sign id clock) id (public_fields user)),
                   s)
            | _ =>
                (Res 500 "Error during login" (ErrorData IllegalArguments), s)
            end
        end
    | _ => (Res 500 "Error during login" (ErrorData TypeError), s)
    end.

End handlers.


(** [User.findById(req.userId).select('-password')]; the body of the
    success answer is [{ user }], without a message. *)
Definition getCurrentUser (s : Store) (req : Requester)
    : Answer (option User.t) * Store :=
  match Model.findById (userId req) (db_users s) with
  | None => (Ans 404 "User not found" None, s)
  | Some user => (Ans 200 "" (Some (public_fields user)), s)
  end.

End AuthController.

(** ** The two-sided relationships

    Each many-to-many relationship is written on both sides.  The link
    reading compares the two sets of links (a link needs its holder to be
    stored); the stored reading only compares the two arrays of a tag and
    a note (a group and a notebook) that are both stored, so it does not
    see an identity left behind in an array after its document is gone. *)

Definition note_lists_tag (s : Store) (n t : nat) : Prop :=
  ∃ x, db_notes s !! n = Some x ∧ t ∈ Note.tags x.

Definition tag_lists_note (s : Store) (t n : nat) : Prop :=
  ∃ x, db_tags s !! t = Some x ∧ n ∈ Tag.notes x.

Definition tags_notes_agree (s : Store) : Prop :=
  ∀ t n, note_lists_tag s n t ↔ tag_lists_note s t n.

Definition tags_notes_agree_stored (s : Store) : Prop :=
  ∀ t n x y,
    db_tags s !! t = Some x → db_notes s !! n = Some y →
    (t ∈ Note.tags y ↔ n ∈ Tag.notes x).

Definition notebook_lists_group (s : Store) (b g : nat) : Prop :=
  ∃ x, db_notebooks s !! b = Some x ∧ g ∈ Notebook.accessible_groups x.

Definition group_lists_notebook (s : Store) (g b : nat) : Prop :=
  ∃ x, db_groups s !! g = Some x ∧ b ∈ Group.accessible_notebooks x.

Definition groups_notebooks_agree (s : Store) : Prop :=
  ∀ g b, notebook_lists_group s b g ↔ group_lists_notebook s g b.

Definition groups_notebooks_agree_stored (s : Store) : Prop :=
  ∀ g b x y,
    db_groups s !! g = Some x → db_notebooks s !! b = Some y →
    (g ∈ Notebook.accessible_groups y ↔ b ∈ Group.accessible_notebooks x).

(** ** Runs of the service

    The stores the service can be in: those the writing handlers produce
    from the empty store.  A handler behind the authentication middleware
    runs for a requester that is a stored user with that user's roles. *)

Definition authenticated (s : Store) (req : Requester) : Prop :=
  ∃ u, db_users s !! userId req = Some u ∧ userRoles req = User.roles u.

Inductive step (s : Store) : Store → Prop :=
| step_signup hash sign body f :
    step s (snd (AuthController.signup hash sign s body f))
| step_createNote req body f :
    authenticated s req →
    step s (snd (NoteController.createNote s req body f))
| step_updateNote req id body :
    authenticated s req →
    step s (snd (NoteController.updateNote s req id body))
| step_deleteNote req id :
    authenticated s req →
    step s (snd (NoteController.deleteNote s req id))
| step_addTagToNote id tag_id :
    step s (snd (NoteController.addTagToNote s id tag_id))
| step_createTag name f :
    step s (snd (TagController.createTag s name f))
| step_deleteTag id :
    step s (snd (TagController.deleteTag s id))
| step_createNotebook req body f :
    authenticated s req →
    step s (snd (NotebookController.createNotebook s req body f))
| step_updateNotebook req id body :
    authenticated s req →
    step s (snd (NotebookController.updateNotebook s req id body))
| step_deleteNotebook req id :
    authenticated s req →
    step s (snd (NotebookController.deleteNotebook s req id))
| step_addNoteToNotebook id note_id :
    step s (snd (NotebookController.addNoteToNotebook s id note_id))
| step_createGroup req body f :
    authenticated s req →
    step s (snd (GroupController.createGroup s req body f))
| step_updateGroup req id body :
    authenticated s req →
    step s (snd (GroupController.updateGroup s req id body))
| step_deleteGroup req id :
    authenticated s req →
    step s (snd (GroupController.deleteGroup s req id))
| step_addMemberToGroup req id user_id :
    authenticated s req →
    step s (snd (GroupController.addMemberToGroup s req id user_id))
| step_createComment req body f :
    authenticated s req →
    step s (snd (CommentController.createComment s req body f))
| step_deleteComment req id :
    authenticated s req →
    step s (snd (CommentController.deleteComment s req id))
| step_createAttachment body f :
    step s (snd (AttachmentController.createAttachment s body f))
| step_deleteAttachment id :
    step s (snd (AttachmentController.deleteAttachment s id)).

Definition empty_store : Store := Build_Store ∅ ∅ ∅ ∅ ∅ ∅ ∅.

Definition reachable (s : Store) : Prop := rtc step empty_store s.

(** Every stored note's [UID] is a stored user. *)
Definition owners_resolve (s : Store) : Prop :=
  ∀ n x, db_notes s !! n = Some x → is_Some (db_users s !! Note.UID x).

(** What one request may do to users and notes: stored users stay, and
    a note of the new store either was there with the same [UID] or has a
    stored user as its [UID]. *)
Definition keeps_owners (s s' : Store) : Prop :=
  (∀ i, is_Some (db_users s !! i) → is_Some (db_users s' !! i))
  ∧ (∀ n y, db_notes s' !! n = Some y →
            (∃ x, db_notes s !! n = Some x ∧ Note.UID y = Note.UID x)
            ∨ is_Some (db_users s !! Note.UID y)).

(** ** A sample store

    Three users (a Contributor who owns a private note, a second
    Contributor, a Lead Editor who owns a group), one note with a comment
    and an attachment, one tag, one notebook, one group; no links between
    tags and notes or between groups and notebooks yet. *)

Module Sample.

Definition alice : User.t :=
  User.mk "USER_1" "alice" "Alice" "Liddell" "alice@example.org" [] ""
          "$2a$10$alice" [Contributor].
Definition bob : User.t :=
  User.mk "USER_2" "bob" "Bob" "Builder" "bob@example.org" [] ""
          "$2a$10$bob" [Contributor].
Definition carol : User.t :=
  User.mk "USER_3" "carol" "Carol" "Danvers" "carol@example.org" [] ""
          "$2a$10$carol" [LeadEditor].

Definition diary : Note.t :=
  Note.mk "NOTE_1" 1 "Diary" "" "text" 5%N [] [] [] [60] [50] "private".
Definition work : Tag.t := Tag.mk "TAG_1" "work" [].
Definition plans : Notebook.t :=
  Notebook.mk "NOTEBOOK_1" "Plans" None 1 [] [] 7%N.
Definition team : Group.t := Group.mk "GROUP_1" "Team" 3 [2] [] [] 8%N.
Definition remark : Comment.t := Comment.mk "COMMENT_1" 2 10 "Nice" 9%N [].
Definition scan : Attachment.t :=
  Attachment.mk "ATTACH_1" "scan.png" "image/png" "/files/scan.png"
                "Note" 10 2048 9%N.

Definition store : Store :=
  Build_Store {[1 := alice; 2 := bob; 3 := carol]} {[10 := diary]}
              {[20 := work]} {[30 := plans]} {[40 := team]}
              {[50 := remark]} {[60 := scan]}.

Definition as_alice : Requester := Build_Requester 1 [Contributor].
Definition as_bob : Requester := Build_Requester 2 [Contributor].
Definition as_carol : Requester := Build_Requester 3 [LeadEditor].
Definition as_admin : Requester := Build_Requester 4 [Admin].

(** Stand-ins for the hashing and token libraries. *)
Definition hash (p : string) (rounds : nat) : string := "$2a$10$" ++ p.
Definition compare (p h : string) : bool := bool_decide (h = "$2a$10$" ++ p).
Definition sign (id : nat) (clock : N) : string :=
  "jwt." ++ pretty id ++ "." ++ pretty clock.

Definition gen : Gen :=
  Build_Gen 70 1700000000000%N "k3v9q2m1x" 1700000000002%N 1700000000%N.

Definition signup_as_admin : AuthController.SignupBody :=
  AuthController.Build_SignupBody
    (Some "mallory") (Some "Mallory") (Some "Archer")
    (Some "Mallory@Example.org") (Some "hunter22")
    AuthController.PhoneUndefined None (AuthController.RolesArray ["Admin"]).



Definition login_unknown : AuthController.Login.Body :=
  AuthController.Login.Build_Body (Js.str "nobody@example.org")
                                  (Js.str "guess1").
Definition login_wrong_password : AuthController.Login.Body :=
  AuthController.Login.Build_Body (Js.str "alice@example.org")
                                  (Js.str "guess1").

(** Logins whose [password] is the JSON number [12345]. *)
Definition login_numeric_password : AuthController.Login.Body :=
  AuthController.Login.Build_Body (Js.str "alice@example.org")
                                  (Js.other true).
Definition login_numeric_unknown : AuthController.Login.Body :=
  AuthController.Login.Build_Body (Js.str "nobody@example.org")
                                  (Js.other true).
Definition login_numeric_mallory : AuthController.Login.Body :=
  AuthController.Login.Build_Body (Js.str "mallory@example.org")
                                  (Js.other true).

(** Note bodies that set [tags] to the one stored tag. *)
Definition retag : NoteController.Body :=
  NoteController.Build_Body None None None (Some [20]) None None None.
Definition tagged_note : NoteController.Body :=
  NoteController.Build_Body (Some "Minutes") None None (Some [20]) None None
                            None.

(** Group bodies that set [notebook_ids] to the one stored notebook, the
    second together with an empty name. *)
Definition share_plans : GroupController.Body :=
  GroupController.Build_Body None None (Some [30]).
Definition share_plans_unnamed : GroupController.Body :=
  GroupController.Build_Body (Some "") None (Some [30]).

(** The owner makes the note public. *)
Definition publish : NoteController.Body :=
  NoteController.Build_Body None None None None None None (Some "public").

(** A new group with one member and the stored notebook. *)
Definition readers : GroupController.Body :=
  GroupController.Build_Body (Some "Readers") (Some [1]) (Some [30]).

Definition no_query : NoteController.Query :=
  NoteController.Build_Query None None None.
Definition empty_note_body : NoteController.Body :=
  NoteController.Build_Body None None None None None None None.


(** A title of blanks only, and a view type outside the enum. *)
Definition blank_title : NoteController.Body :=
  NoteController.Build_Body (Some "   ") None None None None None None.
Definition secret_view : NoteController.Body :=
  NoteController.Build_Body None None None None None None (Some "secret").
Definition minutes : NoteController.Body :=
  NoteController.Build_Body (Some " Minutes ") (Some "Agenda") None None None
                            None None.


(** A short run from the empty store: a signup, a note by the new user,
    and a tag. *)
Definition gen2 : Gen :=
  Build_Gen 71 1700000000100%N "p0o9i8u7y" 1700000000102%N 1700000000%N.
Definition gen3 : Gen :=
  Build_Gen 72 1700000000200%N "z1x2c3v4b" 1700000000202%N 1700000000%N.
Definition as_mallory : Requester := Build_Requester 70 [Admin].
Definition after_signup : Store :=
  snd (AuthController.signup hash sign empty_store signup_as_admin gen).
Definition after_note : Store :=
  snd (NoteController.createNote after_signup as_mallory minutes gen2).
Definition run : Store :=
  snd (TagController.createTag after_note (Some "Work") gen3).

End Sample.

(** ** Well-formed stores

    What the schemas guarantee of the documents the handlers saved: every
    stored note passed validation, and the unique indexes on the email and
    the user name of users and on the name of tags hold. *)

Definition notes_valid (s : Store) : Prop :=
  ∀ n x, db_notes s !! n = Some x → Note.valid x = true.

Definition unique_on {A} (path : A → string) (m : gmap nat A) : Prop :=
  ∀ i j x y, m !! i = Some x → m !! j = Some y → path x = path y → i = j.

Definition names_unique (s : Store) : Prop :=
  unique_on User.email (db_users s)
  ∧ unique_on User.user_name (db_users s)
  ∧ unique_on Tag.tag_name (db_tags s).

(** The email and the user name of every stored user are as the setters
    leave them. *)
Definition users_normalised (s : Store) : Prop :=
  ∀ i u, db_users s !! i = Some u →
         User.cast_email (User.email u) = User.email u
         ∧ User.cast_user_name (User.user_name u) = User.user_name u.

(** What one request may do to a collection with a unique index on
    [path]: keep the documents' values of [path] (possibly dropping
    documents), or insert one document whose value no stored one has. *)
Definition keeps_unique {A} (path : A → string) (m m' : gmap nat A) : Prop :=
  (∀ i y, m' !! i = Some y → ∃ x, m !! i = Some x ∧ path x = path y)
  ∨ (∃ k d, m !! k = None
            ∧ (∀ j x, m !! j = Some x → path x ≠ path d)
            ∧ m' = <[k := d]> m).

(** The same for the three unique indexes of [names_unique]. *)
Definition keeps_names (s s' : Store) : Prop :=
  keeps_unique User.email (db_users s) (db_users s')
  ∧ keeps_unique User.user_name (db_users s) (db_users s')
  ∧ keeps_unique Tag.tag_name (db_tags s) (db_tags s').

(** What one request may do to the notes: a note of the new store either
    was there with the same validated paths, or passed validation. *)
Definition keeps_valid (s s' : Store) : Prop :=
  ∀ n y, db_notes s' !! n = Some y →
         (∃ x, db_notes s !! n = Some x
               ∧ (Note.valid x = true → Note.valid y = true))
         ∨ Note.valid y = true.

(** * Properties *)

(** ** Collection operations *)

Section model_facts.
Context {A : Type}.
Implicit Types (m : gmap nat A) (q : nat → A → bool).

Lemma elem_of_find q m i d :
  (i, d) ∈ Model.find q m ↔ m !! i = Some d ∧ q i d = true.
Proof.
  unfold Model.find. rewrite list_elem_of_filter, elem_of_map_to_list.
  simpl. tauto.
Qed.

Lemma elem_of_find_sorted key q m i d :
  (i, d) ∈ Model.find_sorted key q m ↔ m !! i = Some d ∧ q i d = true.
Proof.
  unfold Model.find_sorted.
  rewrite (merge_sort_Permutation (Model.descending key)).
  apply elem_of_find.
Qed.

Lemma find_sorted_nil key q m :
  (∀ i d, m !! i = Some d → q i d = false) →
  Model.find_sorted key q m = [].
Proof.
  intros Hq. destruct (Model.find_sorted key q m) as [|[i d] l] eqn:E; [done|].
  assert (Hin : (i, d) ∈ Model.find_sorted key q m)
    by (rewrite E; apply list_elem_of_here).
  apply elem_of_find_sorted in Hin as [Hm Hqd].
  rewrite (Hq _ _ Hm) in Hqd. discriminate.
Qed.

Lemma findOne_None q m :
  Model.findOne q m = None ↔ ∀ i d, m !! i = Some d → q i d = false.
Proof.
  unfold Model.findOne. rewrite head_None. split.
  - intros E i d Hm. destruct (q i d) eqn:Hq; [|done].
    assert (Hin : (i, d) ∈ Model.find q m) by (by apply elem_of_find).
    rewrite E in Hin. by apply elem_of_nil in Hin.
  - intros Hq. destruct (Model.find q m) as [|[i d] l] eqn:E; [done|].
    assert (Hin : (i, d) ∈ Model.find q m)
      by (rewrite E; apply list_elem_of_here).
    apply elem_of_find in Hin as [Hm Hqd].
    rewrite (Hq _ _ Hm) in Hqd. discriminate.
Qed.

Lemma findOne_Some q m i d :
  Model.findOne q m = Some (i, d) → m !! i = Some d ∧ q i d = true.
Proof.
  unfold Model.findOne. intros E. apply elem_of_find.
  destruct (Model.find q m) as [|p l]; [done|].
  simpl in E. injection E as ->. apply list_elem_of_here.
Qed.

Lemma findOne_is_Some q m i d :
  m !! i = Some d → q i d = true → is_Some (Model.findOne q m).
Proof.
  intros Hm Hq. destruct (Model.findOne q m) eqn:E; [by eexists|].
  rewrite findOne_None in E. rewrite (E _ _ Hm) in Hq. discriminate.
Qed.

Lemma lookup_updateMany q (u : A → A) m i :
  Model.updateMany q u m !! i = (λ d, if q i d then u d else d) <$> m !! i.
Proof.
  unfold Model.updateMany. rewrite map_lookup_imap.
  by destruct (m !! i).
Qed.

Lemma lookup_deleteMany_Some q m i d :
  Model.deleteMany q m !! i = Some d ↔ m !! i = Some d ∧ q i d = false.
Proof. unfold Model.deleteMany. by rewrite map_lookup_filter_Some. Qed.

End model_facts.

Lemma elem_of_pull x y l : y ∈ Model.pull x l ↔ y ∈ l ∧ y ≠ x.
Proof. unfold Model.pull. rewrite list_elem_of_filter. tauto. Qed.

Lemma pull_id x l : x ∉ l → Model.pull x l = l.
Proof.
  intros Hx. unfold Model.pull. induction l as [|y l IH]; [done|].
  rewrite not_elem_of_cons in Hx. destruct Hx as [Hne Hx].
  rewrite filter_cons_True by done. by rewrite IH.
Qed.

Lemma elem_of_addToSet x y l : y ∈ Model.addToSet x l ↔ y = x ∨ y ∈ l.
Proof.
  unfold Model.addToSet, Js.includes. case_bool_decide.
  - split; [tauto|]. intros [->|]; done.
  - rewrite elem_of_app, list_elem_of_singleton. tauto.
Qed.

Lemma array_in_nil field : Model.array_in [] field = false.
Proof.
  unfold Model.array_in. apply bool_decide_eq_false.
  rewrite Exists_exists. intros (y & _ & Hy). by apply elem_of_nil in Hy.
Qed.

Lemma includes_true `{EqDecision B} (x : B) l :
  Js.includes x l = true ↔ x ∈ l.
Proof. unfold Js.includes. apply bool_decide_eq_true. Qed.

Lemma includes_false `{EqDecision B} (x : B) l :
  Js.includes x l = false ↔ x ∉ l.
Proof. unfold Js.includes. apply bool_decide_eq_false. Qed.

(** ** Reading and writing notes *)

Lemma only_contributor_includes req r :
  only_contributor req → r ≠ Contributor →
  Js.includes r (userRoles req) = false.
Proof.
  unfold only_contributor. rewrite Forall_forall.
  intros Hc Hr. apply includes_false. intros Hin. by apply Hr, Hc.
Qed.

Lemma canEdit_contributor req note :
  only_contributor req → Note.UID note ≠ userId req →
  NoteController.canEdit req note = false.
Proof.
  intros Hc Hne. unfold NoteController.canEdit.
  rewrite !(only_contributor_includes req) by done.
  by rewrite bool_decide_eq_false_2.
Qed.

Lemma listed_getNotes s req q id :
  id ∈ listed_ids (fst (NoteController.getNotes s req q)) ↔
  ∃ n, db_notes s !! id = Some n ∧ NoteController.notes_query req q id n = true.
Proof.
  unfold NoteController.getNotes, listed_ids. simpl.
  rewrite list_elem_of_fmap. split.
  - intros ([i n] & -> & Hin). apply elem_of_find_sorted in Hin. eauto.
  - intros (n & Hn & Hq). exists (id, n). split; [done|].
    by apply elem_of_find_sorted.
Qed.

(** C1. A requester whose only role is Contributor, facing a private note
    of another user (whose owner reference resolves): the single-item
    fetch answers 403, the note is in no list result whatever the query
    string, and update and delete answer 403 and leave the store as it
    was. *)
Theorem contributor_private_note_denied
    (s : Store) (req : Requester) (id : nat) (note : Note.t) (owner : User.t)
    (q : NoteController.Query) (body : NoteController.Body) :
  only_contributor req →
  db_notes s !! id = Some note →
  Note.view_type note = "private" →
  Note.UID note ≠ userId req →
  db_users s !! Note.UID note = Some owner →
  status (fst (NoteController.getNoteById s req id)) = 403
  ∧ (id ∉ listed_ids (fst (NoteController.getNotes s req q)))
  ∧ status (fst (NoteController.updateNote s req id body)) = 403
  ∧ (snd (NoteController.updateNote s req id body)) = s
  ∧ status (fst (NoteController.deleteNote s req id)) = 403
  ∧ (snd (NoteController.deleteNote s req id)) = s.
Proof.
  intros Hc Hn Hpriv Hne Hown.
  assert (Hadm : Js.includes Admin (userRoles req) = false)
    by (by apply only_contributor_includes).
  pose proof (canEdit_contributor req note Hc Hne) as Hedit.
  split; [|split].
  - unfold NoteController.getNoteById, Model.findById,
      NoteController.populate_UID.
    rewrite Hn, Hadm, Hown, Hpriv. by rewrite bool_decide_eq_false_2.
  - rewrite listed_getNotes. intros (n & Hn' & Hq).
    rewrite Hn in Hn'. injection Hn' as <-.
    unfold NoteController.notes_query in Hq.
    rewrite Hadm, Hpriv in Hq.
    rewrite (bool_decide_eq_false_2 _ Hne) in Hq. simpl in Hq. discriminate.
  - unfold NoteController.updateNote, NoteController.deleteNote,
      Model.findById.
    rewrite Hn, Hedit. done.
Qed.

Lemma contributor_private_note_denied_witness :
  status (fst (NoteController.getNoteById Sample.store Sample.as_bob 10)) = 403
  ∧ (10 ∉ listed_ids
            (fst (NoteController.getNotes Sample.store Sample.as_bob
                                          Sample.no_query)))
  ∧ status (fst (NoteController.updateNote Sample.store Sample.as_bob 10
                                           Sample.empty_note_body)) = 403
  ∧ snd (NoteController.updateNote Sample.store Sample.as_bob 10
                                   Sample.empty_note_body) = Sample.store
  ∧ status (fst (NoteController.deleteNote Sample.store Sample.as_bob 10))
    = 403
  ∧ snd (NoteController.deleteNote Sample.store Sample.as_bob 10)
    = Sample.store.
Proof.
  apply (contributor_private_note_denied Sample.store Sample.as_bob 10
           Sample.diary Sample.alice).
  - apply (bool_decide_unpack _). vm_compute. exact I.
  - reflexivity.
  - reflexivity.
  - simpl. lia.
  - reflexivity.
Defined.

(** When the owner reference of a note no longer resolves, the fetch by a
    requester without the Admin role fails before the access test is
    decided. *)
Lemma getNoteById_unresolved_owner s req id note :
  db_notes s !! id = Some note →
  Js.includes Admin (userRoles req) = false →
  db_users s !! Note.UID note = None →
  fst (NoteController.getNoteById s req id)
  = Res 500 "Error fetching note" (ErrorData TypeError).
Proof.
  intros Hn Hadm Hown.
  unfold NoteController.getNoteById, Model.findById,
    NoteController.populate_UID.
  by rewrite Hn, Hadm, Hown.
Qed.

(** ** Cascade on deleting a note *)

(** C3. When the note exists and the requester may delete it, [deleteNote]
    answers 200 and removes the note, exactly the comments whose [note] is
    the deleted id, and exactly the attachments with parent ("Note", id);
    afterwards the fetch of the note answers 404 for every requester, and
    the comment and attachment queries for it return the empty list. *)
Theorem deleteNote_cascade
    (s : Store) (req : Requester) (id : nat) (note : Note.t) :
  db_notes s !! id = Some note →
  NoteController.canEdit req note = true →
  let r := fst (NoteController.deleteNote s req id) in
  let s' := snd (NoteController.deleteNote s req id) in
  status r = 200
  ∧ db_notes s' !! id = None
  ∧ (∀ c x, db_comments s' !! c = Some x ↔
            db_comments s !! c = Some x ∧ Comment.note x ≠ id)
  ∧ (∀ a x, db_attachments s' !! a = Some x ↔
            db_attachments s !! a = Some x
            ∧ ¬ (Attachment.parent_type x = "Note"
                 ∧ Attachment.parent_id x = id))
  ∧ (∀ req', status (fst (NoteController.getNoteById s' req' id)) = 404)
  ∧ data (fst (CommentController.getComments s' (Some id))) = CommentsData []
  ∧ data (fst (AttachmentController.getAttachments s' (Some "Note")
                                                   (Some id)))
    = AttachmentsData [].
Proof.
  intros Hn Hedit r s'. subst r s'.
  unfold NoteController.deleteNote, Model.findById.
  rewrite Hn, Hedit. simpl.
  assert (Hc : ∀ c x,
    Model.deleteMany (λ _ c0, bool_decide (Comment.note c0 = id))
                     (db_comments s) !! c = Some x
    ↔ db_comments s !! c = Some x ∧ Comment.note x ≠ id).
  { intros c x. rewrite lookup_deleteMany_Some.
    by rewrite bool_decide_eq_false. }
  assert (Ha : ∀ a x,
    Model.deleteMany
      (λ _ a0, bool_decide (Attachment.parent_type a0 = "Note")
               && bool_decide (Attachment.parent_id a0 = id))
      (db_attachments s) !! a = Some x
    ↔ db_attachments s !! a = Some x
      ∧ ¬ (Attachment.parent_type x = "Note" ∧ Attachment.parent_id x = id)).
  { intros a x. rewrite lookup_deleteMany_Some.
    rewrite andb_false_iff, !bool_decide_eq_false.
    split; intros [H1 H2]; (split; [done|]).
    - intros [? ?]. destruct H2; done.
    - destruct (decide (Attachment.parent_type x = "Note")); [|by left].
      right. intros ?. by apply H2. }
  split; [done|]. split; [|split; [done|split; [done|]]].
  - unfold Model.findByIdAndDelete. apply lookup_delete_eq.
  - split; [|split].
    + intros req'. unfold NoteController.getNoteById, Model.findById. simpl.
      unfold Model.findByIdAndDelete. by rewrite lookup_delete_eq.
    + unfold CommentController.getComments. simpl. f_equal.
      apply find_sorted_nil. intros c x Hx. apply Hc in Hx as [_ Hx].
      by apply bool_decide_eq_false.
    + unfold AttachmentController.getAttachments. simpl. f_equal.
      apply find_sorted_nil. intros a x Hx. apply Ha in Hx as [_ Hx].
      rewrite andb_false_iff, !bool_decide_eq_false.
      destruct (decide (Attachment.parent_type x = "Note")) as [E|E].
      * right. intros ?. by apply Hx.
      * left. intros [= E']. done.
Qed.

Lemma deleteNote_cascade_witness :
  let r := fst (NoteController.deleteNote Sample.store Sample.as_alice 10) in
  let s' := snd (NoteController.deleteNote Sample.store Sample.as_alice 10) in
  status r = 200
  ∧ db_notes s' !! 10 = None
  ∧ (∀ c x, db_comments s' !! c = Some x ↔
            db_comments Sample.store !! c = Some x ∧ Comment.note x ≠ 10)
  ∧ (∀ a x, db_attachments s' !! a = Some x ↔
            db_attachments Sample.store !! a = Some x
            ∧ ¬ (Attachment.parent_type x = "Note"
                 ∧ Attachment.parent_id x = 10))
  ∧ (∀ req', status (fst (NoteController.getNoteById s' req' 10)) = 404)
  ∧ data (fst (CommentController.getComments s' (Some 10))) = CommentsData []
  ∧ data (fst (AttachmentController.getAttachments s' (Some "Note")
                                                   (Some 10)))
    = AttachmentsData [].
Proof.
  apply (deleteNote_cascade Sample.store Sample.as_alice 10 Sample.diary).
  - reflexivity.
  - reflexivity.
Defined.

(** ** Who may update or delete a note or a comment *)

Lemma note_canEdit_spec req note :
  NoteController.canEdit req note = true
  ↔ privileged_or_owner req (Note.UID note).
Proof.
  unfold NoteController.canEdit, privileged_or_owner.
  rewrite !orb_true_iff, !includes_true, bool_decide_eq_true. tauto.
Qed.

Lemma comment_canDelete_spec req c :
  CommentController.canDelete req c = true
  ↔ privileged_or_owner req (Comment.user c).
Proof.
  unfold CommentController.canDelete, privileged_or_owner.
  rewrite !orb_true_iff, !includes_true, bool_decide_eq_true. tauto.
Qed.

Lemma updateNote_permitted s req id note body :
  db_notes s !! id = Some note →
  (permitted (NoteController.updateNote s req id body)
   ↔ NoteController.canEdit req note = true)
  ∧ (NoteController.canEdit req note = false →
     NoteController.updateNote s req id body
     = (Res 403 "You do not have permission to edit this note" NoData, s)).
Proof.
  intros Hn. unfold permitted, NoteController.updateNote, Model.findById.
  rewrite Hn. destruct (NoteController.canEdit req note); simpl.
  - split; [|done]. split; [done|]. intros _.
    unfold save_existing. by destruct (negb _).
  - split; [|done]. split; [|done]. intros H. by destruct H.
Qed.

Lemma deleteNote_permitted s req id note :
  db_notes s !! id = Some note →
  (permitted (NoteController.deleteNote s req id)
   ↔ NoteController.canEdit req note = true)
  ∧ (NoteController.canEdit req note = false →
     NoteController.deleteNote s req id
     = (Res 403 "You do not have permission to delete this note" NoData, s)).
Proof.
  intros Hn. unfold permitted, NoteController.deleteNote, Model.findById.
  rewrite Hn. destruct (NoteController.canEdit req note); simpl.
  - split; [|done]. split; done.
  - split; [|done]. split; [|done]. intros H. by destruct H.
Qed.

Lemma deleteComment_permitted s req id c :
  db_comments s !! id = Some c →
  (permitted (CommentController.deleteComment s req id)
   ↔ CommentController.canDelete req c = true)
  ∧ (CommentController.canDelete req c = false →
     CommentController.deleteComment s req id
     = (Res 403 "You do not have permission to delete this comment" NoData,
        s)).
Proof.
  intros Hc. unfold permitted, CommentController.deleteComment,
    Model.findById.
  rewrite Hc. destruct (CommentController.canDelete req c); simpl.
  - split; [|done]. split; done.
  - split; [|done]. split; [|done]. intros H. by destruct H.
Qed.

(** C5. For a stored note, update and delete are permitted exactly when
    the requester holds Admin, Editor or Lead Editor or is the note's
    [UID]; for a stored comment, delete is permitted exactly when the
    requester holds one of those roles or is the comment's [user].
    Otherwise the handler answers 403 and the store is unchanged.  (The
    comment controller has no update handler.) *)
Theorem note_comment_write_permission (s : Store) (req : Requester) :
  (∀ id note body,
     db_notes s !! id = Some note →
     (permitted (NoteController.updateNote s req id body)
      ↔ privileged_or_owner req (Note.UID note))
     ∧ (permitted (NoteController.deleteNote s req id)
        ↔ privileged_or_owner req (Note.UID note))
     ∧ (¬ privileged_or_owner req (Note.UID note) →
        status (fst (NoteController.updateNote s req id body)) = 403
        ∧ snd (NoteController.updateNote s req id body) = s
        ∧ status (fst (NoteController.deleteNote s req id)) = 403
        ∧ snd (NoteController.deleteNote s req id) = s))
  ∧ (∀ id c,
       db_comments s !! id = Some c →
       (permitted (CommentController.deleteComment s req id)
        ↔ privileged_or_owner req (Comment.user c))
       ∧ (¬ privileged_or_owner req (Comment.user c) →
          status (fst (CommentController.deleteComment s req id)) = 403
          ∧ snd (CommentController.deleteComment s req id) = s)).
Proof.
  split.
  - intros id note body Hn.
    destruct (updateNote_permitted s req id note body Hn) as [Hu Hu'].
    destruct (deleteNote_permitted s req id note Hn) as [Hd Hd'].
    rewrite <- note_canEdit_spec.
    split; [done|]. split; [done|].
    intros Hno. apply not_true_is_false in Hno.
    by rewrite (Hu' Hno), (Hd' Hno).
  - intros id c Hc.
    destruct (deleteComment_permitted s req id c Hc) as [Hd Hd'].
    rewrite <- comment_canDelete_spec.
    split; [done|].
    intros Hno. apply not_true_is_false in Hno.
    by rewrite (Hd' Hno).
Qed.

Lemma note_comment_write_permission_witness :
  db_notes Sample.store !! 10 = Some Sample.diary
  ∧ db_comments Sample.store !! 50 = Some Sample.remark
  ∧ (permitted (NoteController.updateNote Sample.store Sample.as_bob 10
                                          Sample.empty_note_body)
     ↔ privileged_or_owner Sample.as_bob (Note.UID Sample.diary))
  ∧ (permitted (CommentController.deleteComment Sample.store Sample.as_bob 50)
     ↔ privileged_or_owner Sample.as_bob (Comment.user Sample.remark)).
Proof.
  split; [reflexivity|]. split; [reflexivity|].
  destruct (note_comment_write_permission Sample.store Sample.as_bob)
    as [Hnote Hcomment].
  split.
  - exact (proj1 (Hnote 10 Sample.diary Sample.empty_note_body eq_refl)).
  - exact (proj1 (Hcomment 50 Sample.remark eq_refl)).
Defined.

(** ** Who may create, update or delete a group *)

Lemma group_canEdit_spec req g :
  GroupController.canEdit req g = true
  ↔ admin_or_owning_lead req (Group.lead_editor g).
Proof.
  unfold GroupController.canEdit, admin_or_owning_lead.
  rewrite orb_true_iff, andb_true_iff, !includes_true, bool_decide_eq_true.
  tauto.
Qed.

Lemma createGroup_permitted s req body f :
  permitted (GroupController.createGroup s req body f)
  ↔ LeadEditor ∈ userRoles req ∨ Admin ∈ userRoles req.
Proof.
  unfold permitted, GroupController.createGroup.
  rewrite <- !includes_true.
  destruct (Js.includes LeadEditor (userRoles req)),
    (Js.includes Admin (userRoles req)); simpl;
    try (split; [intros H; by destruct H | intros [?|?]; discriminate]);
    (split; [auto|intros _]);
    destruct (negb (Js.truthy _)); simpl; try done;
    unfold save_new; repeat (destruct (_ : bool); simpl; try done).
Qed.

Lemma updateGroup_permitted s req id g body :
  db_groups s !! id = Some g →
  (permitted (GroupController.updateGroup s req id body)
   ↔ GroupController.canEdit req g = true)
  ∧ (GroupController.canEdit req g = false →
     GroupController.updateGroup s req id body
     = (Res 403 "You do not have permission to edit this group" NoData, s)).
Proof.
  intros Hg. unfold permitted, GroupController.updateGroup, Model.findById.
  rewrite Hg. destruct (GroupController.canEdit req g); simpl.
  - split; [|done]. split; [done|]. intros _.
    unfold save_existing. by destruct (negb _).
  - split; [|done]. split; [|done]. intros H. by destruct H.
Qed.

Lemma deleteGroup_permitted s req id g :
  db_groups s !! id = Some g →
  (permitted (GroupController.deleteGroup s req id)
   ↔ GroupController.canEdit req g = true)
  ∧ (GroupController.canEdit req g = false →
     GroupController.deleteGroup s req id
     = (Res 403 "You do not have permission to delete this group" NoData,
        s)).
Proof.
  intros Hg. unfold permitted, GroupController.deleteGroup, Model.findById.
  rewrite Hg. destruct (GroupController.canEdit req g); simpl.
  - split; [|done]. split; done.
  - split; [|done]. split; [|done]. intros H. by destruct H.
Qed.

(** C6. Creating a group is permitted exactly for requesters holding Lead
    Editor or Admin; updating and deleting a stored group exactly for
    requesters holding Admin, or holding Lead Editor and being the group's
    [lead_editor]; every other requester is answered 403. *)
Theorem group_write_permission (s : Store) (req : Requester) :
  (∀ body f,
     (permitted (GroupController.createGroup s req body f)
      ↔ LeadEditor ∈ userRoles req ∨ Admin ∈ userRoles req)
     ∧ (¬ (LeadEditor ∈ userRoles req ∨ Admin ∈ userRoles req) →
        status (fst (GroupController.createGroup s req body f)) = 403))
  ∧ (∀ id g body,
       db_groups s !! id = Some g →
       (permitted (GroupController.updateGroup s req id body)
        ↔ admin_or_owning_lead req (Group.lead_editor g))
       ∧ (permitted (GroupController.deleteGroup s req id)
          ↔ admin_or_owning_lead req (Group.lead_editor g))
       ∧ (¬ admin_or_owning_lead req (Group.lead_editor g) →
          status (fst (GroupController.updateGroup s req id body)) = 403
          ∧ status (fst (GroupController.deleteGroup s req id)) = 403)).
Proof.
  split.
  - intros body f. split; [apply createGroup_permitted|].
    intros Hno. rewrite <- createGroup_permitted in Hno.
    unfold permitted in Hno.
    destruct (decide (status (fst (GroupController.createGroup s req body f))
                      = 403)); [done|by destruct Hno].
  - intros id g body Hg.
    destruct (updateGroup_permitted s req id g body Hg) as [Hu Hu'].
    destruct (deleteGroup_permitted s req id g Hg) as [Hd Hd'].
    rewrite <- group_canEdit_spec.
    split; [done|]. split; [done|].
    intros Hno. apply not_true_is_false in Hno.
    by rewrite (Hu' Hno), (Hd' Hno).
Qed.

Lemma group_write_permission_witness :
  db_groups Sample.store !! 40 = Some Sample.team
  ∧ (permitted (GroupController.updateGroup Sample.store Sample.as_carol 40
                  (GroupController.Build_Body None None None))
     ↔ admin_or_owning_lead Sample.as_carol (Group.lead_editor Sample.team))
  ∧ (permitted (GroupController.deleteGroup Sample.store Sample.as_bob 40)
     ↔ admin_or_owning_lead Sample.as_bob (Group.lead_editor Sample.team)).
Proof.
  split; [reflexivity|].
  destruct (group_write_permission Sample.store Sample.as_carol)
    as [_ Hcarol].
  destruct (group_write_permission Sample.store Sample.as_bob) as [_ Hbob].
  split.
  - exact (proj1 (Hcarol 40 Sample.team
                    (GroupController.Build_Body None None None) eq_refl)).
  - exact (proj1 (proj2 (Hbob 40 Sample.team
                    (GroupController.Build_Body None None None) eq_refl))).
Defined.

(** ** Listing notebooks *)

Lemma find_sorted_NoDup {A} key (q : nat → A → bool) (m : gmap nat A) :
  NoDup (Model.find_sorted key q m).*1.
Proof.
  unfold Model.find_sorted.
  rewrite (merge_sort_Permutation (Model.descending key)).
  unfold Model.find.
  eapply sublist_NoDup; [apply (NoDup_fst_map_to_list m)|].
  apply fmap_sublist, sublist_filter.
Qed.

(** C7. For a requester without the Admin role, [getNotebooks] answers 200
    with each notebook owned by the requester exactly once and nothing
    else: the clause [accessible_groups: {$in: []}] holds of no notebook,
    whatever groups it lists. *)
Theorem getNotebooks_non_admin_owner_only (s : Store) (req : Requester) :
  Admin ∉ userRoles req →
  ∃ l,
    NotebookController.getNotebooks s req
    = (Res 200 "Notebooks retrieved successfully" (NotebooksData l), s)
    ∧ NoDup l.*1
    ∧ (∀ id b, (id, b) ∈ l ↔
               db_notebooks s !! id = Some b
               ∧ Notebook.owner b = userId req)
    ∧ (∀ b : Notebook.t,
         Model.array_in [] (Notebook.accessible_groups b) = false).
Proof.
  intros Hadm. apply includes_false in Hadm.
  eexists. split; [reflexivity|]. split; [apply find_sorted_NoDup|].
  split; [|intros b; apply array_in_nil].
  intros id b. rewrite elem_of_find_sorted.
  unfold NotebookController.notebooks_query.
  rewrite Hadm, array_in_nil, orb_false_r, bool_decide_eq_true. done.
Qed.

Lemma getNotebooks_non_admin_owner_only_witness :
  (Admin ∉ userRoles Sample.as_carol)
  ∧ ∃ l,
      NotebookController.getNotebooks Sample.store Sample.as_carol
      = (Res 200 "Notebooks retrieved successfully" (NotebooksData l),
         Sample.store)
      ∧ NoDup l.*1
      ∧ (∀ id b, (id, b) ∈ l ↔
                 db_notebooks Sample.store !! id = Some b
                 ∧ Notebook.owner b = userId Sample.as_carol)
      ∧ (∀ b : Notebook.t,
           Model.array_in [] (Notebook.accessible_groups b) = false).
Proof.
  assert (H : Admin ∉ userRoles Sample.as_carol).
  { apply (bool_decide_unpack _). vm_compute. exact I. }
  split; [exact H|].
  exact (getNotebooks_non_admin_owner_only Sample.store Sample.as_carol H).
Defined.


(** ** The schema setters *)

Lemma is_space_lower a : Js.is_space (Js.lower_ascii a) = Js.is_space a.
Proof. destruct a as [[] [] [] [] [] [] [] []]; vm_compute; reflexivity. Qed.

Lemma lower_ascii_idem a :
  Js.lower_ascii (Js.lower_ascii a) = Js.lower_ascii a.
Proof. destruct a as [[] [] [] [] [] [] [] []]; vm_compute; reflexivity. Qed.

Lemma toLowerCase_idem s : Js.toLowerCase (Js.toLowerCase s) = Js.toLowerCase s.
Proof.
  induction s as [|a s IH]; [reflexivity|].
  cbn [Js.toLowerCase]. by rewrite lower_ascii_idem, IH.
Qed.

Lemma toLowerCase_trimStart s :
  Js.toLowerCase (Js.trimStart s) = Js.trimStart (Js.toLowerCase s).
Proof.
  induction s as [|a s IH]; [reflexivity|].
  cbn [Js.toLowerCase Js.trimStart]. rewrite is_space_lower.
  destruct (Js.is_space a); [exact IH|reflexivity].
Qed.

Lemma toLowerCase_trimEnd s :
  Js.toLowerCase (Js.trimEnd s) = Js.trimEnd (Js.toLowerCase s).
Proof.
  induction s as [|a s IH]; [reflexivity|].
  cbn [Js.toLowerCase Js.trimEnd]. rewrite <- IH, is_space_lower.
  destruct (Js.trimEnd s) as [|b t]; [|reflexivity].
  cbn [Js.toLowerCase]. by destruct (Js.is_space a).
Qed.

Lemma toLowerCase_trim s :
  Js.toLowerCase (Js.trim s) = Js.trim (Js.toLowerCase s).
Proof.
  unfold Js.trim. by rewrite toLowerCase_trimEnd, toLowerCase_trimStart.
Qed.

Lemma trimEnd_idem s : Js.trimEnd (Js.trimEnd s) = Js.trimEnd s.
Proof.
  induction s as [|a s IH]; [reflexivity|].
  cbn [Js.trimEnd]. destruct (Js.trimEnd s) as [|b t] eqn:E.
  - destruct (Js.is_space a) eqn:Ha; [reflexivity|].
    cbn [Js.trimEnd]. by rewrite Ha.
  - change (Js.trimEnd (String a (String b t)))
      with (match Js.trimEnd (String b t) with
            | EmptyString =>
                if Js.is_space a then EmptyString else String a EmptyString
            | String c r => String a (String c r)
            end).
    by rewrite IH.
Qed.

Lemma trimStart_head s :
  match Js.trimStart s with
  | EmptyString => True
  | String a _ => Js.is_space a = false
  end.
Proof.
  induction s as [|a s IH]; [exact I|].
  cbn [Js.trimStart]. by destruct (Js.is_space a) eqn:Ha.
Qed.

Lemma trimEnd_head a s :
  Js.is_space a = false → ∃ t, Js.trimEnd (String a s) = String a t.
Proof.
  intros Ha. cbn [Js.trimEnd]. destruct (Js.trimEnd s) as [|b t].
  - rewrite Ha. by eexists.
  - by eexists.
Qed.

Lemma trim_idem s : Js.trim (Js.trim s) = Js.trim s.
Proof.
  unfold Js.trim. pose proof (trimStart_head s) as Hhead.
  destruct (Js.trimStart s) as [|a y]; [reflexivity|].
  destruct (trimEnd_head a y Hhead) as [t Ht]. rewrite Ht.
  cbn [Js.trimStart]. rewrite Hhead, <- Ht. apply trimEnd_idem.
Qed.

Lemma cast_email_idem e : User.cast_email (User.cast_email e) = User.cast_email e.
Proof.
  unfold User.cast_email.
  by rewrite toLowerCase_trim, toLowerCase_idem, trim_idem.
Qed.

Lemma cast_email_toLowerCase e :
  User.cast_email (Js.toLowerCase e) = User.cast_email e.
Proof. unfold User.cast_email. by rewrite toLowerCase_idem. Qed.

Lemma cast_tag_name_toLowerCase n :
  Tag.cast_tag_name (Js.toLowerCase n) = Js.trim (Js.toLowerCase n).
Proof. unfold Tag.cast_tag_name. by rewrite toLowerCase_idem. Qed.


(** ** Signup and login *)

Lemma role_of_string_name x r : role_of_string x = Some r → role_name r = x.
Proof.
  unfold role_of_string.
  repeat case_bool_decide; intros [= <-]; subst; reflexivity.
Qed.

Lemma cast_roles_names l rs :
  AuthController.cast_roles l = Some rs → role_name <$> rs = l.
Proof.
  unfold AuthController.cast_roles. rewrite mapM_Some.
  induction 1 as [|x r l rs Hx _ IH]; [reflexivity|].
  rewrite fmap_cons, IH. f_equal. by apply role_of_string_name.
Qed.

Lemma cast_roles_enum l :
  Forall (λ x, x ∈ AuthController.role_names) l →
  is_Some (AuthController.cast_roles l).
Proof.
  intros Hl. unfold AuthController.cast_roles. apply mapM_is_Some.
  eapply Forall_impl; [exact Hl|].
  intros x Hx. cbv [AuthController.role_names fmap list_fmap role_name] in Hx.
  repeat (apply elem_of_cons in Hx as [->|Hx]; [by eexists|]).
  by apply elem_of_nil in Hx.
Qed.

Section auth_facts.
Variable bcrypt_hash : string → nat → string.
Variable bcrypt_compare : string → string → bool.
Variable jwt_sign : nat → N → string.

Local Abbreviation signup := (AuthController.signup bcrypt_hash jwt_sign).
Local Abbreviation login := (AuthController.login bcrypt_compare jwt_sign).


(** For a login whose email and password are non-empty strings: if no
    user is found for the email, or one is found but the password does
    not verify, the answer is the same 401 response and the store is
    untouched.  And for every login body whose password is not a truthy
    value of another type than string, any two answers that are not the
    success answer coincide, whatever the two stores hold. *)
Lemma login_failure_uniform :
  (∀ (s : Store) (e p : string) (clock : N),
     e ≠ "" → p ≠ "" →
     let found :=
       Model.findOne
         (λ _ u, bool_decide
                   (User.email u = User.cast_email (Js.toLowerCase e)))
         (db_users s) in
     found = None
     ∨ (∃ id u, found = Some (id, u)
                ∧ bcrypt_compare p (User.password u) = false) →
     login s (AuthController.Login.Build_Body (Js.str e) (Js.str p)) clock
     = (AuthController.bad_credentials, s))
  ∧ (∀ (s1 s2 : Store) (body : AuthController.Login.Body) (c1 c2 : N),
       AuthController.Login.password body ≠ Js.other true →
       status (fst (login s1 body c1)) ≠ 200 →
       status (fst (login s2 body c2)) ≠ 200 →
       fst (login s1 body c1) = fst (login s2 body c2)).
Proof.
  split.
  - intros s e p clock He Hp found Hcase. subst found.
    unfold AuthController.login.
    cbn [AuthController.Login.email AuthController.Login.password
         Js.truthy_value].
    rewrite (bool_decide_eq_false_2 (e = "")) by done.
    rewrite (bool_decide_eq_false_2 (p = "")) by done.
    cbn [negb orb].
    destruct Hcase as [->|(id & u & -> & Hcmp)]; [reflexivity|].
    rewrite Hcmp. reflexivity.
  - intros s1 s2 [email password] c1 c2 Hpw. unfold AuthController.login.
    cbn [AuthController.Login.email AuthController.Login.password] in *.
    destruct (_ || _ : bool) eqn:Hreq; [reflexivity|].
    destruct email as [|e|b]; [reflexivity| |reflexivity].
    destruct password as [|p|[]]; [| |done|].
    + cbn [Js.truthy_value negb orb] in Hreq.
      rewrite orb_true_r in Hreq. discriminate.
    + destruct (Model.findOne _ (db_users s1)) as [[i1 u1]|];
        destruct (Model.findOne _ (db_users s2)) as [[i2 u2]|].
      all: try (destruct (bcrypt_compare p (User.password u1)) eqn:E1).
      all: try (destruct (bcrypt_compare p (User.password u2)) eqn:E2).
      all: cbn [negb fst status].
      all: intros H1 H2.
      all: first [ reflexivity
                 | exfalso; apply H1; reflexivity
                 | exfalso; apply H2; reflexivity ].
    + cbn [Js.truthy_value negb orb] in Hreq.
      rewrite orb_true_r in Hreq. discriminate.
Qed.

(** C9 (the code at the failing input). A login whose [password] is a
    JSON number is answered 500 when the email is that of a stored user,
    because [bcrypt.compare] throws on it, and 401 when no user has the
    email: on the sample store for a registered and an unregistered
    email, and for one request before and after the signup of its email.
    The answer to a failed login so tells whether the email is
    registered. *)
Theorem login_reveals_registered_email (clock : N) :
  login Sample.store Sample.login_numeric_password clock
  = (Res 500 "Error during login" (ErrorData IllegalArguments), Sample.store)
  ∧ login Sample.store Sample.login_numeric_unknown clock
    = (AuthController.bad_credentials, Sample.store)
  ∧ login empty_store Sample.login_numeric_mallory clock
    = (AuthController.bad_credentials, empty_store)
  ∧ login Sample.after_signup Sample.login_numeric_mallory clock
    = (Res 500 "Error during login" (ErrorData IllegalArguments),
       Sample.after_signup).
Proof.
  repeat split; vm_compute; reflexivity.
Qed.

(** C10. A signup that succeeds stores the caller's [roles] array as it
    was sent (the names of the stored roles are the array), and the
    default [Contributor] when [roles] is absent or not an array; and any
    array of role names, [Admin] included, succeeds whenever the rest of
    the request is acceptable.  No requester takes part in [signup]. *)
Theorem signup_roles_verbatim
    (s : Store) (body : AuthController.SignupBody) (f : Gen) :
  (status (fst (signup s body f)) = 201 →
   ∃ u, db_users s !! oid f = None
        ∧ db_users (snd (signup s body f)) = <[oid f := u]> (db_users s)
        ∧ role_name <$> User.roles u
          = match AuthController.roles body with
            | AuthController.RolesArray l => l
            | _ => ["Contributor"]
            end)
  ∧ (AuthController.acceptable s body f →
     Forall (λ x, x ∈ AuthController.role_names)
            (AuthController.roles_or_default (AuthController.roles body)) →
     status (fst (signup s body f)) = 201).
Proof.
  split.
  - unfold AuthController.signup.
    destruct (_ || _ : bool); [intros [=]|].
    destruct (Model.findOne _ _); [intros [=]|].
    destruct (AuthController.cast_roles _) as [rs|] eqn:Hrs; [|intros [=]].
    apply cast_roles_names in Hrs.
    unfold save_new.
    destruct (negb (AuthController.user_valid _)); [intros [=]|].
    destruct (bool_decide (is_Some (db_users s !! oid f))) eqn:Hfresh;
      [intros [=]|].
    destruct (negb (AuthController.user_index_free _ _)); [intros [=]|].
    intros _. cbn [orb snd db_users with_users].
    eexists. split; [|split; [reflexivity|]].
    + apply bool_decide_eq_false in Hfresh.
      by apply eq_None_not_Some.
    + cbn [AuthController.hash_password AuthController.new_user User.roles].
      rewrite Hrs. by destruct (AuthController.roles body).
  - intros (Hu & Hf & Hl & He & Hp & Hnone & Hvalid & Hfree & Hfresh) Hroles.
    unfold AuthController.signup.
    rewrite Hu, Hf, Hl, He, Hp, Hnone. cbn [negb orb].
    destruct (cast_roles_enum _ Hroles) as [rs ->].
    unfold save_new.
    replace (AuthController.user_valid (AuthController.new_user body f rs))
      with true by (rewrite <- Hvalid; reflexivity).
    replace (AuthController.user_index_free
               (AuthController.new_user body f rs) (db_users s))
      with true by (rewrite <- Hfree; reflexivity).
    rewrite Hfresh. reflexivity.
Qed.

End auth_facts.


Lemma login_failure_uniform_witness :
  AuthController.login Sample.compare Sample.sign Sample.store
                       Sample.login_unknown 1700000100%N
  = (AuthController.bad_credentials, Sample.store)
  ∧ AuthController.login Sample.compare Sample.sign Sample.store
                         Sample.login_wrong_password 1700000100%N
    = (AuthController.bad_credentials, Sample.store).
Proof.
  split.
  - apply (proj1 (login_failure_uniform Sample.compare Sample.sign)).
    + discriminate.
    + discriminate.
    + left. vm_compute. reflexivity.
  - apply (proj1 (login_failure_uniform Sample.compare Sample.sign)).
    + discriminate.
    + discriminate.
    + right. exists 1, Sample.alice. split; vm_compute; reflexivity.
Defined.

Lemma signup_roles_verbatim_witness :
  status (fst (AuthController.signup Sample.hash Sample.sign Sample.store
                 Sample.signup_as_admin Sample.gen)) = 201
  ∧ ∃ u, db_users Sample.store !! oid Sample.gen = None
         ∧ db_users (snd (AuthController.signup Sample.hash Sample.sign
                            Sample.store Sample.signup_as_admin Sample.gen))
           = <[oid Sample.gen := u]> (db_users Sample.store)
         ∧ role_name <$> User.roles u = ["Admin"].
Proof.
  assert (H201 : status (fst (AuthController.signup Sample.hash Sample.sign
                   Sample.store Sample.signup_as_admin Sample.gen)) = 201).
  { apply (proj2 (signup_roles_verbatim Sample.hash Sample.sign Sample.store
                    Sample.signup_as_admin Sample.gen)).
    - repeat split; vm_compute; reflexivity.
    - apply (bool_decide_unpack _). vm_compute. exact I. }
  split; [exact H201|].
  exact (proj1 (signup_roles_verbatim Sample.hash Sample.sign Sample.store
                  Sample.signup_as_admin Sample.gen) H201).
Defined.

(** ** Tags and notes *)

Lemma tags_notes_agree_weaken s :
  tags_notes_agree s → tags_notes_agree_stored s.
Proof.
  intros H t n x y Ht Hn. specialize (H t n).
  unfold note_lists_tag, tag_lists_note in H. split.
  - intros Hin. destruct (proj1 H) as (x' & Hx' & ?); [by eauto|]. congruence.
  - intros Hin. destruct (proj2 H) as (y' & Hy' & ?); [by eauto|]. congruence.
Qed.

Lemma sample_tags_notes_agree : tags_notes_agree Sample.store.
Proof.
  intros t n. unfold note_lists_tag, tag_lists_note. simpl.
  split; intros (x & Hx & Hin);
    apply lookup_singleton_Some in Hx as [_ <-]; simpl in Hin;
    by apply elem_of_nil in Hin.
Qed.

(** C2 (the code at the failing inputs). The sample store has no link on
    either side.  Setting [tags] through [updateNote], or creating a note
    with [tags], succeeds and leaves a stored note listing a stored tag
    that does not list the note.  After [addTagToNote] linked both sides,
    [deleteNote] succeeds and leaves the tag listing a note that is gone. *)
Theorem tag_note_agreement_broken :
  tags_notes_agree Sample.store
  ∧ (let r := NoteController.updateNote Sample.store Sample.as_alice 10
                                        Sample.retag in
     status (fst r) = 200 ∧ ¬ tags_notes_agree_stored (snd r))
  ∧ (let r := NoteController.createNote Sample.store Sample.as_alice
                                        Sample.tagged_note Sample.gen in
     status (fst r) = 201 ∧ ¬ tags_notes_agree_stored (snd r))
  ∧ (let r1 := NoteController.addTagToNote Sample.store 10 (Some 20) in
     let r2 := NoteController.deleteNote (snd r1) Sample.as_alice 10 in
     status (fst r1) = 200 ∧ tags_notes_agree (snd r1)
     ∧ status (fst r2) = 200 ∧ tag_lists_note (snd r2) 20 10
     ∧ ¬ note_lists_tag (snd r2) 10 20
     ∧ ¬ tags_notes_agree (snd r2)).
Proof.
  split; [apply sample_tags_notes_agree|]. split; [|split].
  - split; [vm_compute; reflexivity|]. intros H.
    set (s' := snd _) in H.
    assert (Ht : db_tags s' !! 20 = Some Sample.work)
      by (vm_compute; reflexivity).
    assert (Hn : db_notes s' !! 10
                 = Some (Note.set_tags [20] Sample.diary))
      by (vm_compute; reflexivity).
    apply (H 20 10 _ _ Ht) in Hn. simpl in Hn.
    assert (Hin : 10 ∈ @nil nat) by (apply Hn; apply list_elem_of_here).
    by apply elem_of_nil in Hin.
  - split; [vm_compute; reflexivity|]. intros H.
    set (s' := snd _) in H.
    assert (Ht : db_tags s' !! 20 = Some Sample.work)
      by (vm_compute; reflexivity).
    destruct (db_notes s' !! 70) as [y|] eqn:Hn; [|vm_compute in Hn; discriminate].
    assert (Hy : Note.tags y = [20])
      by (vm_compute in Hn; injection Hn as <-; reflexivity).
    apply (H 20 70 _ _ Ht) in Hn. rewrite Hy in Hn. simpl in Hn.
    assert (Hin : 70 ∈ @nil nat) by (apply Hn; apply list_elem_of_here).
    by apply elem_of_nil in Hin.
  - cbv zeta.
    set (s1 := snd (NoteController.addTagToNote Sample.store 10 (Some 20))).
    set (s2 := snd (NoteController.deleteNote s1 Sample.as_alice 10)).
    assert (Hn1 : db_notes s1 = {[10 := Note.set_tags [20] Sample.diary]})
      by (vm_compute; reflexivity).
    assert (Ht1 : db_tags s1 = {[20 := Tag.set_notes [10] Sample.work]})
      by (vm_compute; reflexivity).
    assert (Hn2 : db_notes s2 !! 10 = None) by (vm_compute; reflexivity).
    assert (Ht2 : db_tags s2 !! 20 = Some (Tag.set_notes [10] Sample.work))
      by (vm_compute; reflexivity).
    assert (Hlists : tag_lists_note s2 20 10).
    { eexists. split; [exact Ht2|]. apply list_elem_of_here. }
    assert (Hnot : ¬ note_lists_tag s2 10 20).
    { intros (y & Hy & _). rewrite Hn2 in Hy. discriminate. }
    split; [vm_compute; reflexivity|]. split.
    { intros t n. unfold note_lists_tag, tag_lists_note.
      rewrite Hn1, Ht1. split; intros (x & Hx & Hin);
        apply lookup_singleton_Some in Hx as [<- <-]; simpl in Hin;
        apply list_elem_of_singleton in Hin as ->;
        eexists; (split; [apply lookup_singleton_eq|]); simpl;
        apply list_elem_of_here. }
    split; [vm_compute; reflexivity|].
    split; [exact Hlists|]. split; [exact Hnot|].
    intros H. apply Hnot, H, Hlists.
Qed.

(** X9. [addTagToNote] keeps the two sides in agreement (a failed [save] is
    the only way it could write one side alone). *)
Lemma addTagToNote_agree s id tag_id :
  tags_notes_agree s →
  status (fst (NoteController.addTagToNote s id tag_id)) ≠ 500 →
  tags_notes_agree (snd (NoteController.addTagToNote s id tag_id)).
Proof.
  intros Hagree. unfold NoteController.addTagToNote, Model.findById.
  destruct tag_id as [t0|]; [|done].
  destruct (db_notes s !! id) as [note|] eqn:Hn; [|done].
  destruct (db_tags s !! t0) as [tag|] eqn:Ht; [|done].
  destruct (Js.includes t0 (Note.tags note)) eqn:Hinc; [done|].
  cbn [negb]. unfold save_existing.
  destruct (Note.valid _); [|intros H; by destruct H].
  cbn [negb]. apply includes_false in Hinc.
  assert (Hback : id ∉ Tag.notes tag).
  { intros Hin. apply Hinc.
    destruct (proj2 (Hagree t0 id)) as (y & Hy & Hy'); [by eexists|].
    rewrite Hn in Hy. by injection Hy as <-. }
  apply includes_false in Hback. rewrite Hback. cbn [negb].
  destruct (Tag.valid _); [|intros H; by destruct H].
  cbn [negb snd]. intros _ t n.
  unfold note_lists_tag, tag_lists_note. simpl.
  specialize (Hagree t n). unfold note_lists_tag, tag_lists_note in Hagree.
  split.
  - intros (x & Hx & Hin). apply lookup_insert_Some in Hx as [[<- <-]|[Hne Hx]].
    + simpl in Hin. apply elem_of_app in Hin as [Hin|Hin].
      * destruct (proj1 Hagree) as (y & Hy & Hy'); [by eauto|].
        destruct (decide (t0 = t)) as [<-|Hne].
        -- eexists. rewrite lookup_insert_eq. split; [done|]. simpl.
           apply elem_of_app. left. congruence.
        -- exists y. rewrite lookup_insert_ne by done. done.
      * apply list_elem_of_singleton in Hin as ->.
        eexists. rewrite lookup_insert_eq. split; [done|]. simpl.
        apply elem_of_app. right. apply list_elem_of_here.
    + destruct (proj1 Hagree) as (y & Hy & Hy'); [by eauto|].
      destruct (decide (t0 = t)) as [<-|Hne'].
      * eexists. rewrite lookup_insert_eq. split; [done|]. simpl.
        apply elem_of_app. left. congruence.
      * exists y. rewrite lookup_insert_ne by done. done.
  - intros (x & Hx & Hin). apply lookup_insert_Some in Hx as [[<- <-]|[Hne Hx]].
    + simpl in Hin. apply elem_of_app in Hin as [Hin|Hin].
      * destruct (proj2 Hagree) as (y & Hy & Hy'); [by eauto|].
        destruct (decide (id = n)) as [<-|Hne].
        -- eexists. rewrite lookup_insert_eq. split; [done|]. simpl.
           apply elem_of_app. left. congruence.
        -- exists y. rewrite lookup_insert_ne by done. done.
      * apply list_elem_of_singleton in Hin as ->.
        eexists. rewrite lookup_insert_eq. split; [done|]. simpl.
        apply elem_of_app. right. apply list_elem_of_here.
    + destruct (proj2 Hagree) as (y & Hy & Hy'); [by eauto|].
      destruct (decide (id = n)) as [<-|Hne'].
      * eexists. rewrite lookup_insert_eq. split; [done|]. simpl.
        apply elem_of_app. left. congruence.
      * exists y. rewrite lookup_insert_ne by done. done.
Qed.

(** [deleteTag] pulls the tag from every note before it removes the tag,
    so no link to it remains on either side. *)
Lemma deleteTag_agree s id :
  tags_notes_agree s →
  tags_notes_agree (snd (TagController.deleteTag s id)).
Proof.
  intros Hagree. unfold TagController.deleteTag, Model.findById.
  destruct (db_tags s !! id) as [tag|] eqn:Ht; [|done].
  cbn [snd]. intros t n.
  specialize (Hagree t n). unfold note_lists_tag, tag_lists_note in *.
  simpl. unfold Model.findByIdAndDelete.
  split.
  - intros (x & Hx & Hin). rewrite lookup_updateMany in Hx.
    destruct (db_notes s !! n) as [y|] eqn:Hy; [|done].
    simpl in Hx. injection Hx as <-.
    assert (Hin' : t ∈ Note.tags y ∧ t ≠ id).
    { destruct (Model.array_has id (Note.tags y)) eqn:Hhas.
      - simpl in Hin. by apply elem_of_pull in Hin.
      - split; [done|]. intros ->. by apply includes_false in Hhas. }
    destruct Hin' as [Hin' Hne].
    destruct (proj1 Hagree) as (z & Hz & Hz'); [by eauto|].
    exists z. by rewrite lookup_delete_ne.
  - intros (x & Hx & Hin). apply lookup_delete_Some in Hx as [Hne Hx].
    destruct (proj2 Hagree) as (y & Hy & Hy'); [by eauto|].
    eexists. rewrite lookup_updateMany, Hy. split; [reflexivity|].
    destruct (Model.array_has id (Note.tags y)); simpl; [|done].
    apply elem_of_pull. done.
Qed.

(** [deleteNote] leaves the arrays of the remaining notes and of all tags
    as they were. *)
Lemma deleteNote_agree_stored s req id :
  tags_notes_agree_stored s →
  tags_notes_agree_stored (snd (NoteController.deleteNote s req id)).
Proof.
  intros Hagree. unfold NoteController.deleteNote, Model.findById.
  destruct (db_notes s !! id) as [note|] eqn:Hn; [|done].
  destruct (negb _); [done|].
  cbn [snd]. intros t n x y Hx Hy. simpl in Hx, Hy.
  unfold Model.findByIdAndDelete in Hy.
  apply lookup_delete_Some in Hy as [_ Hy]. by apply Hagree.
Qed.

(** ** Groups and notebooks *)

Lemma groups_notebooks_agree_weaken s :
  groups_notebooks_agree s → groups_notebooks_agree_stored s.
Proof.
  intros H g b x y Hg Hb. specialize (H g b).
  unfold notebook_lists_group, group_lists_notebook in H. split.
  - intros Hin. destruct (proj1 H) as (x' & Hx' & ?); [by eauto|]. congruence.
  - intros Hin. destruct (proj2 H) as (y' & Hy' & ?); [by eauto|]. congruence.
Qed.

Lemma sample_groups_notebooks_agree : groups_notebooks_agree Sample.store.
Proof.
  intros g b. unfold notebook_lists_group, group_lists_notebook. simpl.
  split; intros (x & Hx & Hin);
    apply lookup_singleton_Some in Hx as [_ <-]; simpl in Hin;
    by apply elem_of_nil in Hin.
Qed.

(** C4 (the code at the failing inputs). The sample store has no link on
    either side.  An [updateGroup] that sets [notebook_ids] together with
    an empty [group_name] writes the notebooks, then fails to save the
    group: it answers 500 and leaves a stored notebook listing a stored
    group that does not list the notebook.  After a successful
    [updateGroup] linked both sides, [deleteNotebook] succeeds and leaves
    the group listing a notebook that is gone. *)
Theorem group_notebook_agreement_broken :
  groups_notebooks_agree Sample.store
  ∧ (let r := GroupController.updateGroup Sample.store Sample.as_carol 40
                                          Sample.share_plans_unnamed in
     status (fst r) = 500 ∧ ¬ groups_notebooks_agree_stored (snd r))
  ∧ (let r1 := GroupController.updateGroup Sample.store Sample.as_carol 40
                                           Sample.share_plans in
     let r2 := NotebookController.deleteNotebook (snd r1) Sample.as_alice 30 in
     status (fst r1) = 200 ∧ groups_notebooks_agree (snd r1)
     ∧ status (fst r2) = 200 ∧ group_lists_notebook (snd r2) 40 30
     ∧ ¬ notebook_lists_group (snd r2) 30 40
     ∧ ¬ groups_notebooks_agree (snd r2)).
Proof.
  split; [apply sample_groups_notebooks_agree|]. split.
  - split; [vm_compute; reflexivity|]. intros H.
    set (s' := snd _) in H.
    assert (Hg : db_groups s' !! 40 = Some Sample.team)
      by (vm_compute; reflexivity).
    assert (Hb : db_notebooks s' !! 30
                 = Some (Notebook.set_accessible_groups [40] Sample.plans))
      by (vm_compute; reflexivity).
    apply (H 40 30 _ _ Hg) in Hb. simpl in Hb.
    assert (Hin : 30 ∈ @nil nat) by (apply Hb; apply list_elem_of_here).
    by apply elem_of_nil in Hin.
  - cbv zeta.
    set (s1 := snd (GroupController.updateGroup Sample.store Sample.as_carol
                      40 Sample.share_plans)).
    set (s2 := snd (NotebookController.deleteNotebook s1 Sample.as_alice 30)).
    assert (Hb1 : db_notebooks s1
                  = {[30 := Notebook.set_accessible_groups [40] Sample.plans]})
      by (vm_compute; reflexivity).
    assert (Hg1 : db_groups s1
                  = {[40 := Group.mk "GROUP_1" "Team" 3 [2] [30] [] 8%N]})
      by (vm_compute; reflexivity).
    assert (Hb2 : db_notebooks s2 !! 30 = None) by (vm_compute; reflexivity).
    assert (Hg2 : db_groups s2 !! 40
                  = Some (Group.mk "GROUP_1" "Team" 3 [2] [30] [] 8%N))
      by (vm_compute; reflexivity).
    assert (Hlists : group_lists_notebook s2 40 30).
    { eexists. split; [exact Hg2|]. apply list_elem_of_here. }
    assert (Hnot : ¬ notebook_lists_group s2 30 40).
    { intros (y & Hy & _). rewrite Hb2 in Hy. discriminate. }
    split; [vm_compute; reflexivity|]. split.
    { intros g b. unfold notebook_lists_group, group_lists_notebook.
      rewrite Hb1, Hg1. split; intros (x & Hx & Hin);
        apply lookup_singleton_Some in Hx as [<- <-]; simpl in Hin;
        apply list_elem_of_singleton in Hin as ->;
        eexists; (split; [apply lookup_singleton_eq|]); simpl;
        apply list_elem_of_here. }
    split; [vm_compute; reflexivity|].
    split; [exact Hlists|]. split; [exact Hnot|].
    intros H. apply Hnot, H, Hlists.
Qed.

Lemma lookup_unlink_group id m b :
  GroupController.unlink_group id m !! b
  = (λ x, Notebook.set_accessible_groups
            (Model.pull id (Notebook.accessible_groups x)) x) <$> m !! b.
Proof.
  unfold GroupController.unlink_group. rewrite lookup_updateMany.
  destruct (m !! b) as [x|]; [|done]. simpl. f_equal.
  destruct (Model.array_has id (Notebook.accessible_groups x)) eqn:Hhas;
    [done|].
  apply includes_false in Hhas. rewrite pull_id by done. by destruct x.
Qed.

Lemma lookup_link_group id l m b :
  GroupController.link_group id l m !! b
  = (λ x, if bool_decide (b ∈ l)
          then Notebook.set_accessible_groups
                 (Model.addToSet id (Notebook.accessible_groups x)) x
          else x) <$> m !! b.
Proof. unfold GroupController.link_group. apply lookup_updateMany. Qed.

(** The notebooks after [updateGroup] replaced the notebook set of group
    [id] by [l]: the group is listed exactly by the stored notebooks of
    [l], and every other listing is as before. *)
Lemma relink_lists id l (m : gmap nat Notebook.t) b y g :
  match l with
  | [] => GroupController.unlink_group id m
  | _ :: _ => GroupController.link_group id l
                (GroupController.unlink_group id m)
  end !! b = Some y →
  ∃ x, m !! b = Some x
       ∧ (g ∈ Notebook.accessible_groups y
          ↔ if decide (g = id) then b ∈ l
            else g ∈ Notebook.accessible_groups x).
Proof.
  intros Hy.
  assert (Hy' : GroupController.link_group id l
                  (GroupController.unlink_group id m) !! b = Some y).
  { destruct l; [|done]. rewrite lookup_link_group.
    rewrite bool_decide_eq_false_2 by apply not_elem_of_nil.
    rewrite Hy. done. }
  clear Hy. rewrite lookup_link_group, lookup_unlink_group in Hy'.
  destruct (m !! b) as [x|]; [|done]. simpl in Hy'. injection Hy' as <-.
  exists x. split; [done|].
  case_bool_decide as Hbl; simpl.
  - rewrite elem_of_addToSet, elem_of_pull.
    destruct (decide (g = id)) as [->|Hne]; tauto.
  - rewrite elem_of_pull.
    destruct (decide (g = id)) as [->|Hne]; tauto.
Qed.

(** X20. A successful [updateGroup] keeps the arrays of stored groups and
    stored notebooks in agreement. *)
Lemma updateGroup_agree_stored s req id body :
  groups_notebooks_agree_stored s →
  status (fst (GroupController.updateGroup s req id body)) = 200 →
  groups_notebooks_agree_stored
    (snd (GroupController.updateGroup s req id body)).
Proof.
  intros Hagree. unfold GroupController.updateGroup, Model.findById.
  destruct (db_groups s !! id) as [group|] eqn:Hg; [|intros [=]].
  destruct (negb (GroupController.canEdit _ _)); [intros [=]|].
  unfold save_existing. destruct (negb (Group.valid _)); [intros [=]|].
  intros _. cbn [snd].
  destruct (GroupController.notebook_ids body) as [l|] eqn:Hl.
  - intros g b x y Hx Hy. simpl in Hx, Hy.
    apply (relink_lists id l _ b y g) in Hy as (y0 & Hy0 & ->).
    apply lookup_insert_Some in Hx as [[<- <-]|[Hne Hx]].
    + rewrite decide_True by done. simpl. done.
    + rewrite decide_False by done. by apply Hagree.
  - intros g b x y Hx Hy. simpl in Hx, Hy.
    apply lookup_insert_Some in Hx as [[<- <-]|[Hne Hx]].
    + simpl. by apply Hagree.
    + by apply Hagree.
Qed.

(** [deleteGroup] pulls the group from every notebook before it removes
    the group, so no link to it remains on either side. *)
Lemma deleteGroup_agree s req id :
  groups_notebooks_agree s →
  groups_notebooks_agree (snd (GroupController.deleteGroup s req id)).
Proof.
  intros Hagree. unfold GroupController.deleteGroup, Model.findById.
  destruct (db_groups s !! id) as [group|] eqn:Hg; [|done].
  destruct (negb _); [done|].
  cbn [snd]. intros g b.
  specialize (Hagree g b).
  unfold notebook_lists_group, group_lists_notebook in *.
  simpl. unfold Model.findByIdAndDelete. split.
  - intros (x & Hx & Hin). rewrite lookup_unlink_group in Hx.
    destruct (db_notebooks s !! b) as [y|] eqn:Hy; [|done].
    simpl in Hx. injection Hx as <-. simpl in Hin.
    apply elem_of_pull in Hin as [Hin Hne].
    destruct (proj1 Hagree) as (z & Hz & Hz'); [by eauto|].
    exists z. by rewrite lookup_delete_ne.
  - intros (x & Hx & Hin). apply lookup_delete_Some in Hx as [Hne Hx].
    destruct (proj2 Hagree) as (y & Hy & Hy'); [by eauto|].
    eexists. rewrite lookup_unlink_group, Hy. split; [reflexivity|].
    simpl. by apply elem_of_pull.
Qed.

Lemma lookup_link_if_any id ids m b :
  GroupController.link_if_any id ids m !! b
  = (λ x, if bool_decide (b ∈ Js.arr_or_else ids [])
          then Notebook.set_accessible_groups
                 (Model.addToSet id (Notebook.accessible_groups x)) x
          else x) <$> m !! b.
Proof.
  unfold GroupController.link_if_any, Js.arr_or_else.
  destruct ids as [[|b0 l0]|].
  - rewrite bool_decide_eq_false_2 by apply not_elem_of_nil.
    by destruct (m !! b).
  - apply lookup_link_group.
  - rewrite bool_decide_eq_false_2 by apply not_elem_of_nil.
    by destruct (m !! b).
Qed.

(** X22. [createGroup] links both sides when every notebook it is given is
    stored. *)
Lemma createGroup_agree s req body f :
  groups_notebooks_agree s →
  Forall (λ b, is_Some (db_notebooks s !! b))
         (Js.arr_or_else (GroupController.notebook_ids body) []) →
  groups_notebooks_agree (snd (GroupController.createGroup s req body f)).
Proof.
  intros Hagree Hstored. unfold GroupController.createGroup.
  destruct (_ && _ : bool); [done|].
  destruct (negb (Js.truthy _)); [done|].
  unfold save_new. destruct (negb (Group.valid _)); [done|].
  destruct (bool_decide (is_Some (db_groups s !! oid f))) eqn:Hfresh; [done|].
  destruct (negb (GroupController.group_index_free _ _ _)); [done|].
  cbn [orb snd].
  apply bool_decide_eq_false in Hfresh. apply eq_None_not_Some in Hfresh.
  set (l := Js.arr_or_else (GroupController.notebook_ids body) []) in *.
  intros g b. unfold notebook_lists_group, group_lists_notebook.
  cbn [db_notebooks db_groups with_notebooks with_groups].
  rewrite lookup_link_if_any. fold l.
  specialize (Hagree g b).
  unfold notebook_lists_group, group_lists_notebook in Hagree.
  rewrite Forall_forall in Hstored.
  split.
  - intros (y & Hy & Hin).
    destruct (db_notebooks s !! b) as [x|] eqn:Hx; [|done].
    simpl in Hy. injection Hy as <-.
    assert (Hcase : (g = oid f ∧ b ∈ l) ∨ g ∈ Notebook.accessible_groups x).
    { case_bool_decide; simpl in Hin; [|by right].
      apply elem_of_addToSet in Hin as [->|Hin]; [by left|by right]. }
    destruct Hcase as [[-> Hbl]|Hin'].
    + eexists. rewrite lookup_insert_eq. split; [done|]. done.
    + destruct (proj1 Hagree) as (z & Hz & Hz'); [by eexists|].
      exists z. rewrite lookup_insert_ne by congruence. done.
  - intros (x & Hx & Hin).
    apply lookup_insert_Some in Hx as [[<- <-]|[Hne Hx]].
    + simpl in Hin. destruct (Hstored b Hin) as [y Hy]. rewrite Hy. simpl.
      eexists. split; [done|]. rewrite bool_decide_eq_true_2 by done.
      simpl. apply elem_of_addToSet. by left.
    + destruct (proj2 Hagree) as (y & Hy & Hy'); [by eexists|].
      rewrite Hy. simpl. eexists. split; [done|].
      case_bool_decide; simpl; [|done].
      apply elem_of_addToSet. by right.
Qed.

(** [deleteNotebook] leaves the arrays of the remaining notebooks and of
    all groups as they were. *)
Lemma deleteNotebook_agree_stored s req id :
  groups_notebooks_agree_stored s →
  groups_notebooks_agree_stored
    (snd (NotebookController.deleteNotebook s req id)).
Proof.
  intros Hagree. unfold NotebookController.deleteNotebook, Model.findById.
  destruct (db_notebooks s !! id) as [nb|] eqn:Hn; [|done].
  destruct (negb _); [done|].
  cbn [snd]. intros g b x y Hx Hy. simpl in Hx, Hy.
  unfold Model.findByIdAndDelete in Hy.
  apply lookup_delete_Some in Hy as [_ Hy]. by apply Hagree.
Qed.

(** ** Owner references in the stores the service reaches *)

Lemma keeps_owners_resolve s s' :
  owners_resolve s → keeps_owners s s' → owners_resolve s'.
Proof.
  intros Hs [Hu Hn] n y Hy. apply Hu.
  destruct (Hn n y Hy) as [(x & Hx & ->)|H]; [by eapply Hs|done].
Qed.

Lemma keeps_owners_same s s' :
  db_users s' = db_users s → db_notes s' = db_notes s → keeps_owners s s'.
Proof.
  intros Hu Hn. split.
  - intros i. by rewrite Hu.
  - intros n y. rewrite Hn. intros Hy. left. by exists y.
Qed.

Lemma keeps_owners_rewrite s s' (u : Note.t → Note.t) :
  db_users s' = db_users s →
  (∀ x, Note.UID (u x) = Note.UID x) →
  (∀ n y, db_notes s' !! n = Some y →
          ∃ x, db_notes s !! n = Some x ∧ (y = x ∨ y = u x)) →
  keeps_owners s s'.
Proof.
  intros Hu Huid Hn. split.
  - intros i. by rewrite Hu.
  - intros n y Hy. left. destruct (Hn n y Hy) as (x & Hx & [->| ->]).
    + by exists x.
    + exists x. by rewrite Huid.
Qed.

(** Unfolds a handler and splits on every test it makes. *)
Ltac split_handler :=
  repeat first
    [ progress cbn [fst snd db_users db_notes with_users with_notes with_tags
                    with_notebooks with_groups with_comments with_attachments]
    | match goal with
      | |- context [match ?x with _ => _ end] =>
          lazymatch x with
          | context [match _ with _ => _ end] => fail
          | _ => destruct x eqn:?
          end
      end ].

Ltac unchanged_note :=
  left; eexists; split; [eassumption|reflexivity].

(** Closes [keeps_owners s s'] when the users are the users of [s] and
    every note of [s'] is found by one of the usual lookups. *)
Ltac keeps_owners_by_lookup :=
  let Hy := fresh "Hy" in
  split;
  [ intros ? Hy; exact Hy
  | intros ? ? Hy;
    cbn [fst snd db_users db_notes with_users with_notes with_tags
         with_notebooks with_groups with_comments with_attachments] in Hy;
    first
      [ unchanged_note
      | apply lookup_insert_Some in Hy as [[<- <-]|[_ Hy]];
        [left; eexists; split; [eassumption|reflexivity] | unchanged_note]
      | apply lookup_delete_Some in Hy as [_ Hy]; unchanged_note
      | rewrite lookup_updateMany in Hy;
        match type of Hy with
        | _ <$> ?o = _ =>
            let x := fresh "x" in
            destruct o as [x|]; [|discriminate];
            injection Hy as <-; left; exists x; split; [reflexivity|];
            match goal with
            | |- context [if ?b then _ else _] => destruct b
            end; reflexivity
        end
      | apply lookup_alter_Some in Hy as [(_ & ? & ? & ->)|[_ Hy]];
        [left; eexists; split; [eassumption|reflexivity] | unchanged_note] ] ].

Lemma signup_keeps_owners hash sign s body f :
  keeps_owners s (snd (AuthController.signup hash sign s body f)).
Proof.
  unfold AuthController.signup, save_new. split_handler;
    try (apply keeps_owners_same; reflexivity).
  split.
  - intros i Hi. cbn [db_users with_users].
    destruct (decide (oid f = i)) as [<-|Hne].
    + rewrite lookup_insert_eq. by eexists.
    + by rewrite lookup_insert_ne.
  - intros n y Hy. unchanged_note.
Qed.

Lemma createNote_keeps_owners s req body f :
  authenticated s req →
  keeps_owners s (snd (NoteController.createNote s req body f)).
Proof.
  intros (u & Hu & _).
  unfold NoteController.createNote, save_new. split_handler;
    try (apply keeps_owners_same; reflexivity).
  split; [intros i Hi; exact Hi|].
  intros n y Hy. cbn [db_notes with_notes] in Hy.
  apply lookup_insert_Some in Hy as [[_ <-]|[_ Hy]]; [|unchanged_note].
  right. cbn [Note.UID]. by eexists.
Qed.

Lemma updateNote_keeps_owners s req id body :
  keeps_owners s (snd (NoteController.updateNote s req id body)).
Proof.
  unfold NoteController.updateNote, Model.findById, save_existing.
  split_handler; keeps_owners_by_lookup.
Qed.

Lemma deleteNote_keeps_owners s req id :
  keeps_owners s (snd (NoteController.deleteNote s req id)).
Proof.
  unfold NoteController.deleteNote, Model.findById, Model.findByIdAndDelete.
  split_handler; keeps_owners_by_lookup.
Qed.

Lemma addTagToNote_keeps_owners s id tag_id :
  keeps_owners s (snd (NoteController.addTagToNote s id tag_id)).
Proof.
  unfold NoteController.addTagToNote, Model.findById, save_existing.
  split_handler; keeps_owners_by_lookup.
Qed.

Lemma createTag_keeps_owners s name f :
  keeps_owners s (snd (TagController.createTag s name f)).
Proof.
  unfold TagController.createTag, save_new.
  split_handler; apply keeps_owners_same; reflexivity.
Qed.

Lemma deleteTag_keeps_owners s id :
  keeps_owners s (snd (TagController.deleteTag s id)).
Proof.
  unfold TagController.deleteTag, Model.findById.
  split_handler; keeps_owners_by_lookup.
Qed.

Lemma createNotebook_keeps_owners s req body f :
  keeps_owners s (snd (NotebookController.createNotebook s req body f)).
Proof.
  unfold NotebookController.createNotebook, save_new.
  split_handler; apply keeps_owners_same; reflexivity.
Qed.

Lemma updateNotebook_keeps_owners s req id body :
  keeps_owners s (snd (NotebookController.updateNotebook s req id body)).
Proof.
  unfold NotebookController.updateNotebook, save_existing.
  split_handler; apply keeps_owners_same; reflexivity.
Qed.

Lemma deleteNotebook_keeps_owners s req id :
  keeps_owners s (snd (NotebookController.deleteNotebook s req id)).
Proof.
  unfold NotebookController.deleteNotebook, Model.findById.
  split_handler; keeps_owners_by_lookup.
Qed.

Lemma addNoteToNotebook_keeps_owners s id note_id :
  keeps_owners s (snd (NotebookController.addNoteToNotebook s id note_id)).
Proof.
  unfold NotebookController.addNoteToNotebook, Model.findById, save_existing.
  split_handler; keeps_owners_by_lookup.
Qed.

Lemma createGroup_keeps_owners s req body f :
  keeps_owners s (snd (GroupController.createGroup s req body f)).
Proof.
  unfold GroupController.createGroup, save_new.
  split_handler; apply keeps_owners_same; reflexivity.
Qed.

Lemma updateGroup_keeps_owners s req id body :
  keeps_owners s (snd (GroupController.updateGroup s req id body)).
Proof.
  unfold GroupController.updateGroup, save_existing.
  split_handler; apply keeps_owners_same; reflexivity.
Qed.

Lemma deleteGroup_keeps_owners s req id :
  keeps_owners s (snd (GroupController.deleteGroup s req id)).
Proof.
  unfold GroupController.deleteGroup.
  split_handler; apply keeps_owners_same; reflexivity.
Qed.

Lemma addMemberToGroup_keeps_owners s req id user_id :
  keeps_owners s (snd (GroupController.addMemberToGroup s req id user_id)).
Proof.
  unfold GroupController.addMemberToGroup, save_existing.
  split_handler; apply keeps_owners_same; reflexivity.
Qed.

Lemma createComment_keeps_owners s req body f :
  keeps_owners s (snd (CommentController.createComment s req body f)).
Proof.
  unfold CommentController.createComment, Model.findById, save_new,
    save_existing.
  split_handler; keeps_owners_by_lookup.
Qed.

Lemma deleteComment_keeps_owners s req id :
  keeps_owners s (snd (CommentController.deleteComment s req id)).
Proof.
  unfold CommentController.deleteComment, Model.findById.
  split_handler; keeps_owners_by_lookup.
Qed.

Lemma save_parent_keeps_owners s parent pid update s' :
  (∀ n, parent = AttachmentController.NoteParent n →
        db_notes s !! pid = Some n) →
  AttachmentController.save_parent s parent pid update = inr s' →
  keeps_owners s s'.
Proof.
  intros Hparent. unfold AttachmentController.save_parent, save_existing.
  destruct parent as [n|c|g]; split_handler; intros [= <-];
    try (apply keeps_owners_same; reflexivity).
  specialize (Hparent n eq_refl). keeps_owners_by_lookup.
Qed.

Lemma find_parent_note s ptype pid n :
  AttachmentController.find_parent s ptype pid
  = Some (AttachmentController.NoteParent n) →
  db_notes s !! pid = Some n.
Proof.
  unfold AttachmentController.find_parent, Model.findById.
  repeat case_bool_decide; try discriminate;
    match goal with
    | |- _ <$> ?o = _ → _ => destruct o; intros [=]; by subst
    end.
Qed.

Lemma createAttachment_keeps_owners s body f :
  keeps_owners s (snd (AttachmentController.createAttachment s body f)).
Proof.
  unfold AttachmentController.createAttachment, save_new.
  destruct (AttachmentController.parent_id body) as [pid|];
    [|apply keeps_owners_same; reflexivity].
  destruct (_ || _ : bool); [apply keeps_owners_same; reflexivity|].
  destruct (AttachmentController.find_parent s _ pid) as [parent|] eqn:Hp;
    [|apply keeps_owners_same; reflexivity].
  destruct (negb (Attachment.valid _));
    [apply keeps_owners_same; reflexivity|].
  destruct (_ || _ : bool); [apply keeps_owners_same; reflexivity|].
  destruct (AttachmentController.save_parent _ _ _ _) as [e|s2] eqn:Hs;
    [apply keeps_owners_same; reflexivity|].
  cbn [snd]. apply save_parent_keeps_owners in Hs.
  - destruct Hs as [Hu Hn]. split; [exact Hu|exact Hn].
  - intros n ->. cbn [db_notes with_attachments].
    by eapply find_parent_note.
Qed.

Lemma deleteAttachment_keeps_owners s id :
  keeps_owners s (snd (AttachmentController.deleteAttachment s id)).
Proof.
  unfold AttachmentController.deleteAttachment, Model.findById.
  destruct (db_attachments s !! id) as [a|];
    [|apply keeps_owners_same; reflexivity].
  destruct (AttachmentController.find_parent s _ _) as [parent|] eqn:Hp.
  - destruct (AttachmentController.save_parent _ _ _ _) as [e|s1] eqn:Hs;
      [apply keeps_owners_same; reflexivity|].
    cbn [snd]. apply save_parent_keeps_owners in Hs.
    + destruct Hs as [Hu Hn]. split; [exact Hu|exact Hn].
    + intros n ->. by eapply find_parent_note.
  - apply keeps_owners_same; reflexivity.
Qed.

Lemma step_keeps_owners s s' : step s s' → keeps_owners s s'.
Proof.
  destruct 1;
    eauto using signup_keeps_owners, createNote_keeps_owners,
      updateNote_keeps_owners, deleteNote_keeps_owners,
      addTagToNote_keeps_owners, createTag_keeps_owners,
      deleteTag_keeps_owners, createNotebook_keeps_owners,
      updateNotebook_keeps_owners, deleteNotebook_keeps_owners,
      addNoteToNotebook_keeps_owners, createGroup_keeps_owners,
      updateGroup_keeps_owners, deleteGroup_keeps_owners,
      addMemberToGroup_keeps_owners, createComment_keeps_owners,
      deleteComment_keeps_owners, createAttachment_keeps_owners,
      deleteAttachment_keeps_owners.
Qed.

(** X27. In every store the service reaches, the owner reference of every
    note resolves: the handlers never remove a user, and a note is created for
    the authenticated requester and keeps its [UID]. *)
Lemma reachable_owners_resolve s : reachable s → owners_resolve s.
Proof.
  unfold reachable. intros Hrun.
  eapply (rtc_ind_r (λ s, owners_resolve s) empty_store); [| |exact Hrun].
  - intros n x Hx. simpl in Hx. by rewrite lookup_empty in Hx.
  - intros s1 s2 _ Hstep IH.
    eapply keeps_owners_resolve; [exact IH|]. by apply step_keeps_owners.
Qed.

(** ** The two scenarios of the specification, run on the sample store *)

(** A Contributor is refused another user's private note and served once
    the owner made it public. *)
Example scenario_private_then_public :
  let s1 := snd (NoteController.updateNote Sample.store Sample.as_alice 10
                                           Sample.publish) in
  status (fst (NoteController.getNoteById Sample.store Sample.as_bob 10)) = 403
  ∧ status (fst (NoteController.updateNote Sample.store Sample.as_alice 10
                                           Sample.publish)) = 200
  ∧ status (fst (NoteController.getNoteById s1 Sample.as_bob 10)) = 200.
Proof. vm_compute. repeat split; reflexivity. Qed.

(** A Lead Editor creates a group over a notebook, which then lists the
    group; after the Lead Editor deleted the group it no longer does. *)
Example scenario_group_over_notebook :
  let r1 := GroupController.createGroup Sample.store Sample.as_carol
                                        Sample.readers Sample.gen in
  let r2 := GroupController.deleteGroup (snd r1) Sample.as_carol 70 in
  status (fst r1) = 201
  ∧ Notebook.accessible_groups <$> db_notebooks (snd r1) !! 30 = Some [70]
  ∧ status (fst r2) = 200
  ∧ Notebook.accessible_groups <$> db_notebooks (snd r2) !! 30 = Some []
  ∧ db_groups (snd r2) !! 70 = None.
Proof. vm_compute. repeat split; reflexivity. Qed.

(** * Further properties of the handlers *)

(** ** Reading notes *)

(** X1. The single-item fetch of a stored note decides access as follows:
    200 with the note for an Admin, and for any other requester whose
    target has a resolving owner and is their own or not private; 403 for
    a non-Admin on another user's private note with a resolving owner; 500
    for a non-Admin when the owner reference does not resolve.  The store
    is never changed. *)
Theorem getNoteById_access
    (s : Store) (req : Requester) (id : nat) (note : Note.t) :
  db_notes s !! id = Some note →
  let r := fst (NoteController.getNoteById s req id) in
  (status r = 200 ↔
     Admin ∈ userRoles req
     ∨ (is_Some (db_users s !! Note.UID note)
        ∧ (Note.UID note = userId req ∨ Note.view_type note ≠ "private")))
  ∧ (status r = 403 ↔
       (Admin ∉ userRoles req)
       ∧ is_Some (db_users s !! Note.UID note)
       ∧ Note.UID note ≠ userId req ∧ Note.view_type note = "private")
  ∧ (status r = 500 ↔
       (Admin ∉ userRoles req) ∧ db_users s !! Note.UID note = None)
  ∧ (status r = 200 → data r = NoteData id note)
  ∧ snd (NoteController.getNoteById s req id) = s.
Proof.
  intros Hn r. subst r.
  unfold NoteController.getNoteById, Model.findById,
    NoteController.populate_UID.
  rewrite Hn.
  destruct (Js.includes Admin (userRoles req)) eqn:Hadm;
    [apply includes_true in Hadm|apply includes_false in Hadm].
  { cbn [fst snd status data].
    repeat split; try (intros; discriminate); try done; try tauto.
    all: intros H; exfalso; tauto. }
  destruct (db_users s !! Note.UID note) as [owner|] eqn:Hown.
  - assert (Hsome : is_Some (Some owner)) by (by eexists).
    destruct (decide (Note.UID note = userId req)) as [Hme|Hme];
      [rewrite (bool_decide_eq_true_2 _ Hme)
      |rewrite (bool_decide_eq_false_2 _ Hme)];
      destruct (decide (Note.view_type note = "private")) as [Hp|Hp];
      try rewrite (bool_decide_eq_true_2 _ Hp);
      try rewrite (bool_decide_eq_false_2 _ Hp);
      cbn [negb andb fst snd status data];
      repeat split; try (intros; discriminate); try done; try tauto;
      intros H; exfalso; try tauto;
      destruct H as [_ H]; discriminate.
  - assert (Hnone : ¬ is_Some (@None User.t)) by (intros [? ?]; done).
    cbn [fst snd status data].
    repeat split; try (intros; discriminate); try done; try tauto.
Qed.

Lemma getNoteById_access_witness :
  db_notes Sample.store !! 10 = Some Sample.diary
  ∧ (status (fst (NoteController.getNoteById Sample.store Sample.as_admin 10))
     = 200 ↔
     Admin ∈ userRoles Sample.as_admin
     ∨ (is_Some (db_users Sample.store !! Note.UID Sample.diary)
        ∧ (Note.UID Sample.diary = userId Sample.as_admin
           ∨ Note.view_type Sample.diary ≠ "private"))).
Proof.
  split; [reflexivity|].
  exact (proj1 (getNoteById_access Sample.store Sample.as_admin 10
                  Sample.diary eq_refl)).
Defined.

(** X2. In a store whose owner references resolve and whose notes passed
    validation, the list with an empty query string and the single-item
    fetch agree for every requester: a note is listed exactly when its
    fetch answers 200. *)
Theorem listed_iff_fetchable (s : Store) (req : Requester) (id : nat) :
  owners_resolve s → notes_valid s →
  id ∈ listed_ids
         (fst (NoteController.getNotes s req
                 (NoteController.Build_Query None None None)))
  ↔ status (fst (NoteController.getNoteById s req id)) = 200.
Proof.
  intros Hres Hval. rewrite listed_getNotes.
  unfold NoteController.getNoteById, Model.findById,
    NoteController.populate_UID, NoteController.notes_query.
  cbn [NoteController.notebook_id NoteController.tag_id
       NoteController.user_id].
  destruct (db_notes s !! id) as [note|] eqn:Hn.
  - destruct (Hres id note Hn) as [owner Hown]. rewrite Hown.
    destruct (Js.includes Admin (userRoles req)).
    + cbn [orb andb fst status]. split; [done|]. intros _. by exists note.
    + destruct (decide (Note.UID note = userId req)) as [Hme|Hme];
        [rewrite (bool_decide_eq_true_2 _ Hme)
        |rewrite (bool_decide_eq_false_2 _ Hme)].
      * cbn [orb andb negb fst status]. split; [done|]. intros _.
        exists note. split; [done|].
        by rewrite (bool_decide_eq_true_2 _ Hme).
      * cbn [orb andb negb].
        destruct (decide (Note.view_type note = "private")) as [Hp|Hp].
        -- rewrite (bool_decide_eq_true_2 _ Hp). cbn [fst status].
           split; [|discriminate].
           intros (n & [= <-] & Hq).
           rewrite (bool_decide_eq_false_2 _ Hme), Hp in Hq.
           cbn in Hq. discriminate.
        -- rewrite (bool_decide_eq_false_2 _ Hp). cbn [fst status].
           split; [done|]. intros _. exists note. split; [done|].
           rewrite (bool_decide_eq_false_2 _ Hme). cbn [orb].
           rewrite !andb_true_r. apply orb_true_iff.
           rewrite !bool_decide_eq_true.
           specialize (Hval id note Hn). unfold Note.valid in Hval.
           apply andb_true_iff in Hval as [_ Hview].
           apply includes_true in Hview. unfold Note.view_types in Hview.
           apply elem_of_cons in Hview as [?|Hview]; [by left|].
           apply elem_of_cons in Hview as [?|Hview]; [done|].
           apply list_elem_of_singleton in Hview. by right.
  - cbn [fst status]. split; [|discriminate].
    intros (n & Hn' & _). discriminate.
Qed.

Lemma listed_iff_fetchable_witness :
  10 ∈ listed_ids
         (fst (NoteController.getNotes Sample.store Sample.as_alice
                 (NoteController.Build_Query None None None)))
  ↔ status (fst (NoteController.getNoteById Sample.store Sample.as_alice 10))
    = 200.
Proof.
  apply (listed_iff_fetchable Sample.store Sample.as_alice 10).
  - intros n x Hx. simpl in Hx.
    apply lookup_singleton_Some in Hx as [_ <-]. by eexists.
  - intros n x Hx. simpl in Hx.
    by apply lookup_singleton_Some in Hx as [_ <-].
Defined.

Lemma find_sorted_ext {A} key (q1 q2 : nat → A → bool) (m : gmap nat A) :
  (∀ i d, q1 i d = q2 i d) →
  Model.find_sorted key q1 m = Model.find_sorted key q2 m.
Proof.
  intros Hq. unfold Model.find_sorted, Model.find. f_equal.
  apply list_filter_iff. intros [i d]. simpl. by rewrite Hq.
Qed.

(** X3. The [user_id] filter of the note list only takes effect for an
    Admin: for any other requester the answer is the one the same query
    gives without [user_id]. *)
Theorem getNotes_user_id_ignored
    (s : Store) (req : Requester) (q : NoteController.Query) :
  Admin ∉ userRoles req →
  NoteController.getNotes s req q
  = NoteController.getNotes s req
      (NoteController.Build_Query (NoteController.notebook_id q)
                                  (NoteController.tag_id q) None).
Proof.
  intros Hadm. apply includes_false in Hadm.
  unfold NoteController.getNotes. do 3 f_equal.
  apply find_sorted_ext. intros i n. unfold NoteController.notes_query.
  cbn [NoteController.notebook_id NoteController.tag_id
       NoteController.user_id].
  rewrite Hadm. by destruct (NoteController.user_id q).
Qed.

Lemma getNotes_user_id_ignored_witness :
  NoteController.getNotes Sample.store Sample.as_bob
    (NoteController.Build_Query None None (Some 1))
  = NoteController.getNotes Sample.store Sample.as_bob
      (NoteController.Build_Query None None None).
Proof.
  apply (getNotes_user_id_ignored Sample.store Sample.as_bob
           (NoteController.Build_Query None None (Some 1))).
  apply (bool_decide_unpack _). vm_compute. exact I.
Defined.

(** ** Creating and updating notes *)

(** X4. A note that [createNote] stored is new, belongs to the requester,
    is private and has a non-empty trimmed title and no comments or
    attachments.  Its creator, when a stored user, fetches it with 200 and
    finds it listed; another requester whose roles are all Contributor is
    answered 403. *)
Theorem createNote_then_fetch
    (s : Store) (req : Requester) (body : NoteController.Body) (f : Gen) :
  status (fst (NoteController.createNote s req body f)) = 201 →
  let s' := snd (NoteController.createNote s req body f) in
  ∃ note,
    db_notes s !! oid f = None
    ∧ db_notes s' = <[oid f := note]> (db_notes s)
    ∧ Note.UID note = userId req
    ∧ Note.view_type note = "private"
    ∧ Note.title note = Js.trim (Js.or_else (NoteController.title body) "")
    ∧ Note.title note ≠ ""
    ∧ Note.comments note = [] ∧ Note.attachments note = []
    ∧ (is_Some (db_users s !! userId req) →
       fst (NoteController.getNoteById s' req (oid f))
       = Res 200 "Note retrieved successfully" (NoteData (oid f) note)
       ∧ oid f ∈ listed_ids
                   (fst (NoteController.getNotes s' req
                           (NoteController.Build_Query None None None)))
       ∧ ∀ other,
           only_contributor other → userId other ≠ userId req →
           status (fst (NoteController.getNoteById s' other (oid f))) = 403).
Proof.
  unfold NoteController.createNote.
  destruct (negb (Js.truthy (NoteController.title body))); [intros [=]|].
  unfold save_new.
  destruct (negb (Note.valid _)) eqn:Hvalid; [intros [=]|].
  destruct (bool_decide (is_Some (db_notes s !! oid f))) eqn:Hfresh;
    [intros [=]|].
  destruct (negb (index_free _ _ _)); [intros [=]|].
  intros _. cbn [orb snd].
  apply negb_false_iff in Hvalid. unfold Note.valid in Hvalid.
  cbn [Note.note_id Note.title Note.type Note.view_type] in Hvalid.
  apply andb_true_iff in Hvalid as [Hvalid _].
  apply andb_true_iff in Hvalid as [Hvalid _].
  apply andb_true_iff in Hvalid as [_ Htitle].
  apply negb_true_iff, bool_decide_eq_false in Htitle.
  apply bool_decide_eq_false in Hfresh. apply eq_None_not_Some in Hfresh.
  set (note := Note.mk _ _ _ _ _ _ _ _ _ _ _ _).
  exists note. split; [exact Hfresh|]. split; [reflexivity|].
  do 6 (split; [done|]).
  intros [u Hu].
  assert (Hfetch : db_notes (with_notes (<[oid f := note]> (db_notes s)) s)
                   !! oid f = Some note).
  { cbn [db_notes with_notes]. apply lookup_insert_eq. }
  split; [|split].
  - unfold NoteController.getNoteById, Model.findById,
      NoteController.populate_UID.
    rewrite Hfetch. cbn [db_users with_notes].
    replace (Note.UID note) with (userId req) by reflexivity. rewrite Hu.
    rewrite (bool_decide_eq_true_2 (userId req = userId req)) by done.
    cbn [negb andb]. by destruct (Js.includes Admin (userRoles req)).
  - rewrite listed_getNotes. exists note. split; [exact Hfetch|].
    unfold NoteController.notes_query.
    cbn [NoteController.notebook_id NoteController.tag_id
         NoteController.user_id].
    replace (Note.UID note) with (userId req) by reflexivity.
    rewrite (bool_decide_eq_true_2 (userId req = userId req)) by done.
    by rewrite orb_true_r.
  - intros other Hc Hne.
    unfold NoteController.getNoteById, Model.findById,
      NoteController.populate_UID.
    rewrite Hfetch. cbn [db_users with_notes].
    replace (Note.UID note) with (userId req) by reflexivity.
    replace (Note.view_type note) with "private" by reflexivity.
    rewrite Hu.
    rewrite (only_contributor_includes other Admin Hc) by done.
    rewrite (bool_decide_eq_false_2 (userId req = userId other))
      by (intros E; by apply Hne).
    reflexivity.
Qed.

Lemma createNote_then_fetch_witness :
  status (fst (NoteController.createNote Sample.store Sample.as_bob
                 Sample.minutes Sample.gen)) = 201
  ∧ ∃ note,
      db_notes Sample.store !! 70 = None
      ∧ db_notes (snd (NoteController.createNote Sample.store Sample.as_bob
                         Sample.minutes Sample.gen))
        = <[70 := note]> (db_notes Sample.store)
      ∧ Note.UID note = 2
      ∧ Note.view_type note = "private"
      ∧ Note.title note = "Minutes".
Proof.
  assert (H : status (fst (NoteController.createNote Sample.store
                Sample.as_bob Sample.minutes Sample.gen)) = 201)
    by (vm_compute; reflexivity).
  split; [exact H|].
  destruct (createNote_then_fetch Sample.store Sample.as_bob Sample.minutes
              Sample.gen H) as (note & H1 & H2 & H3 & H4 & H5 & _).
  exists note. repeat split; assumption.
Defined.

(** X5. A title that has characters but only white space passes the
    presence test of [createNote] and is then rejected when the note is
    saved: the answer is 500, not 400, and nothing is stored. *)
Theorem createNote_blank_title
    (s : Store) (req : Requester) (body : NoteController.Body) (f : Gen)
    (t : string) :
  NoteController.title body = Some t → t ≠ "" → Js.trim t = "" →
  NoteController.createNote s req body f
  = (Res 500 "Error creating note" (ErrorData ValidationError), s).
Proof.
  intros Ht Hne Htrim. unfold NoteController.createNote.
  rewrite Ht. cbn [Js.truthy Js.or_else].
  rewrite (bool_decide_eq_false_2 (t = "")) by done. cbn [negb].
  rewrite Htrim. unfold save_new, Note.valid.
  cbn [Note.note_id Note.title Note.type Note.view_type].
  replace (required "") with false by reflexivity.
  rewrite andb_false_r. reflexivity.
Qed.

Lemma createNote_blank_title_witness :
  NoteController.createNote Sample.store Sample.as_alice Sample.blank_title
                            Sample.gen
  = (Res 500 "Error creating note" (ErrorData ValidationError), Sample.store).
Proof.
  apply (createNote_blank_title Sample.store Sample.as_alice
           Sample.blank_title Sample.gen "   ").
  - reflexivity.
  - discriminate.
  - reflexivity.
Defined.

(** X6. Whatever the body and the outcome, [updateNote] changes no note
    but the addressed one, adds and removes none, and keeps the addressed
    note's owner, business key, creation time, connections, comments and
    attachments; every other collection is left as it was.  (So a tag
    named in [tags] is not told about the note.) *)
Theorem updateNote_keeps_identity
    (s : Store) (req : Requester) (id : nat) (body : NoteController.Body) :
  let s' := snd (NoteController.updateNote s req id body) in
  (∀ n, db_notes s' !! n = None ↔ db_notes s !! n = None)
  ∧ (∀ n x y,
       db_notes s !! n = Some x → db_notes s' !! n = Some y →
       Note.UID y = Note.UID x
       ∧ Note.note_id y = Note.note_id x
       ∧ Note.creation_time y = Note.creation_time x
       ∧ Note.connected_notes y = Note.connected_notes x
       ∧ Note.comments y = Note.comments x
       ∧ Note.attachments y = Note.attachments x
       ∧ (n ≠ id → y = x))
  ∧ db_users s' = db_users s ∧ db_tags s' = db_tags s
  ∧ db_notebooks s' = db_notebooks s ∧ db_groups s' = db_groups s
  ∧ db_comments s' = db_comments s ∧ db_attachments s' = db_attachments s.
Proof.
  assert (Hsame : ∀ s0 : Store,
    (∀ n, db_notes s0 !! n = None ↔ db_notes s0 !! n = None)
    ∧ (∀ n x y,
         db_notes s0 !! n = Some x → db_notes s0 !! n = Some y →
         Note.UID y = Note.UID x
         ∧ Note.note_id y = Note.note_id x
         ∧ Note.creation_time y = Note.creation_time x
         ∧ Note.connected_notes y = Note.connected_notes x
         ∧ Note.comments y = Note.comments x
         ∧ Note.attachments y = Note.attachments x
         ∧ (n ≠ id → y = x))).
  { intros s0. split; [done|]. intros n x y Hx Hy.
    rewrite Hx in Hy. injection Hy as <-. done. }
  unfold NoteController.updateNote, Model.findById.
  destruct (db_notes s !! id) as [note|] eqn:Hn;
    [|cbn [snd]; destruct (Hsame s); done].
  destruct (negb (NoteController.canEdit req note));
    [cbn [snd]; destruct (Hsame s); done|].
  unfold save_existing.
  destruct (negb (Note.valid _));
    [cbn [snd]; destruct (Hsame s); done|].
  cbn [snd db_notes db_users db_tags db_notebooks db_groups db_comments
       db_attachments with_notes].
  split; [|split; [|done]].
  - intros n. destruct (decide (id = n)) as [<-|Hne].
    + rewrite lookup_insert_eq, Hn. done.
    + by rewrite lookup_insert_ne.
  - intros n x y Hx Hy. destruct (decide (id = n)) as [<-|Hne].
    + rewrite lookup_insert_eq in Hy. injection Hy as <-.
      rewrite Hn in Hx. injection Hx as <-. done.
    + rewrite lookup_insert_ne in Hy by done.
      rewrite Hx in Hy. injection Hy as <-. done.
Qed.

(** X7. An [updateNote] by a permitted requester that sets [view_type] or
    [type] to a new value outside the schema's enum is answered 500 and
    changes nothing. *)
Theorem updateNote_unknown_enum
    (s : Store) (req : Requester) (id : nat) (note : Note.t)
    (body : NoteController.Body) (v : string) :
  db_notes s !! id = Some note →
  NoteController.canEdit req note = true →
  (NoteController.view_type body = Some v
   ∧ (v ∉ Note.view_types) ∧ v ≠ Note.view_type note)
  ∨ (NoteController.type body = Some v
     ∧ (v ∉ Note.types) ∧ v ≠ Note.type note) →
  NoteController.updateNote s req id body
  = (Res 500 "Error updating note" (ErrorData ValidationError), s).
Proof.
  intros Hn Hedit Hcase.
  unfold NoteController.updateNote, Model.findById.
  rewrite Hn, Hedit. cbn [negb].
  unfold save_existing.
  match goal with
  | |- context [negb ?b] => replace b with false; [reflexivity|]
  end.
  symmetry. unfold Note.valid.
  cbn [Note.note_id Note.title Note.type Note.view_type].
  destruct Hcase as [(-> & Hout & Hnew)|(-> & Hout & Hnew)];
    cbn [Js.if_defined].
  - apply includes_false in Hout. rewrite Hout. apply andb_false_r.
  - apply includes_false in Hout. rewrite Hout.
    rewrite andb_false_r. reflexivity.
Qed.

Lemma updateNote_unknown_enum_witness :
  NoteController.updateNote Sample.store Sample.as_alice 10
                            Sample.secret_view
  = (Res 500 "Error updating note" (ErrorData ValidationError),
     Sample.store).
Proof.
  apply (updateNote_unknown_enum Sample.store Sample.as_alice 10
           Sample.diary Sample.secret_view "secret").
  - reflexivity.
  - reflexivity.
  - left. split; [reflexivity|]. split.
    + apply (bool_decide_unpack _). vm_compute. exact I.
    + discriminate.
Defined.

(** ** Tags *)

(** X8. When [addTagToNote] answers 200, the note was stored, the tag was
    stored, and the note's tags afterwards are the former ones with the
    tag appended if it was missing; if the note already listed the tag,
    nothing at all is written (a tag that does not list the note back is
    not repaired).  Asking again changes nothing more. *)
Theorem addTagToNote_idempotent (s : Store) (id : nat) (tag_id : option nat) :
  status (fst (NoteController.addTagToNote s id tag_id)) = 200 →
  let s1 := snd (NoteController.addTagToNote s id tag_id) in
  ∃ t note,
    tag_id = Some t
    ∧ db_notes s !! id = Some note
    ∧ is_Some (db_tags s !! t)
    ∧ Note.tags <$> db_notes s1 !! id
      = Some (if decide (t ∈ Note.tags note) then Note.tags note
              else (Note.tags note ++ [t])%list)
    ∧ (t ∈ Note.tags note → s1 = s)
    ∧ status (fst (NoteController.addTagToNote s1 id tag_id)) = 200
    ∧ snd (NoteController.addTagToNote s1 id tag_id) = s1.
Proof.
  unfold NoteController.addTagToNote, Model.findById.
  destruct tag_id as [t|]; [|intros [=]].
  destruct (db_notes s !! id) as [note|] eqn:Hn; [|intros [=]].
  destruct (db_tags s !! t) as [tag|] eqn:Ht; [|intros [=]].
  destruct (Js.includes t (Note.tags note)) eqn:Hinc.
  - intros _. cbn [negb snd]. exists t, note.
    apply includes_true in Hinc.
    rewrite Hn, Ht, (proj2 (includes_true t (Note.tags note)) Hinc).
    rewrite decide_True by done. cbn [negb fst snd status].
    repeat split; try done; by eexists.
  - cbn [negb]. unfold save_existing.
    destruct (negb (Note.valid _)); [intros [=]|].
    apply includes_false in Hinc.
    assert (Hnew : Js.includes t (Note.tags note ++ [t])%list = true).
    { apply includes_true, elem_of_app. right. apply list_elem_of_here. }
    destruct (Js.includes id (Tag.notes tag)) eqn:Hback; cbn [negb].
    + intros _. cbn [snd db_notes db_tags with_notes].
      exists t, note. rewrite lookup_insert_eq, Ht.
      cbn [Note.set_tags Note.tags]. rewrite Hnew.
      rewrite decide_False by done. cbn [negb fst snd status fmap option_fmap option_map].
      repeat split; try done; by eexists.
    + destruct (negb (Tag.valid _)); [intros [=]|].
      intros _. cbn [snd db_notes db_tags with_notes with_tags].
      exists t, note. rewrite !lookup_insert_eq.
      cbn [Note.set_tags Note.tags]. rewrite Hnew.
      rewrite decide_False by done. cbn [negb fst snd status fmap option_fmap option_map].
      repeat split; try done; by eexists.
Qed.

Lemma addTagToNote_idempotent_witness :
  status (fst (NoteController.addTagToNote Sample.store 10 (Some 20))) = 200
  ∧ ∃ t note,
      Some 20 = Some t
      ∧ db_notes Sample.store !! 10 = Some note
      ∧ snd (NoteController.addTagToNote
               (snd (NoteController.addTagToNote Sample.store 10 (Some 20)))
               10 (Some 20))
        = snd (NoteController.addTagToNote Sample.store 10 (Some 20)).
Proof.
  assert (H : status (fst (NoteController.addTagToNote Sample.store 10
                             (Some 20))) = 200) by (vm_compute; reflexivity).
  split; [exact H|].
  destruct (addTagToNote_idempotent Sample.store 10 (Some 20) H)
    as (t & note & H1 & H2 & _ & _ & _ & _ & H7).
  exists t, note. repeat split; assumption.
Defined.

Lemma addTagToNote_agree_witness :
  tags_notes_agree
    (snd (NoteController.addTagToNote Sample.store 10 (Some 20))).
Proof.
  apply (addTagToNote_agree Sample.store 10 (Some 20)).
  - intros t n. unfold note_lists_tag, tag_lists_note. simpl.
    split; intros (x & Hx & Hin);
      apply lookup_singleton_Some in Hx as [_ <-]; simpl in Hin;
      by apply elem_of_nil in Hin.
  - vm_compute. discriminate.
Defined.

(** X10. Deleting a stored tag answers 200, removes the tag, and pulls it
    from the tags of every note, leaving each note otherwise as it was;
    a second delete answers 404. *)
Theorem deleteTag_unlinks (s : Store) (id : nat) (tag : Tag.t) :
  db_tags s !! id = Some tag →
  let r := TagController.deleteTag s id in
  status (fst r) = 200
  ∧ db_tags (snd r) = delete id (db_tags s)
  ∧ (∀ n, db_notes (snd r) !! n
          = (λ x, Note.set_tags (filter (λ t, t ≠ id) (Note.tags x)) x)
            <$> db_notes s !! n)
  ∧ (∀ n y, db_notes (snd r) !! n = Some y → ¬ id ∈ Note.tags y)
  ∧ status (fst (TagController.deleteTag (snd r) id)) = 404.
Proof.
  intros Ht r. subst r. unfold TagController.deleteTag, Model.findById.
  rewrite Ht. cbn [fst snd status db_tags db_notes with_tags with_notes].
  assert (Hlook : ∀ n,
    Model.updateMany (λ _ x, Model.array_has id (Note.tags x))
      (λ x, Note.set_tags (Model.pull id (Note.tags x)) x) (db_notes s) !! n
    = (λ x, Note.set_tags (filter (λ t, t ≠ id) (Note.tags x)) x)
      <$> db_notes s !! n).
  { intros n. rewrite lookup_updateMany.
    destruct (db_notes s !! n) as [x|]; [|done]. simpl. f_equal.
    destruct (Model.array_has id (Note.tags x)) eqn:Hhas; [done|].
    apply includes_false in Hhas.
    fold (Model.pull id (Note.tags x)). rewrite pull_id by done.
    by destruct x. }
  split; [done|]. split; [done|]. split; [exact Hlook|]. split.
  - intros n y. rewrite Hlook.
    destruct (db_notes s !! n) as [x|]; [|done]. simpl. intros [= <-].
    simpl. rewrite list_elem_of_filter. tauto.
  - unfold Model.findByIdAndDelete. by rewrite lookup_delete_eq.
Qed.

Lemma deleteTag_unlinks_witness :
  status (fst (TagController.deleteTag Sample.store 20)) = 200
  ∧ db_tags (snd (TagController.deleteTag Sample.store 20))
    = delete 20 (db_tags Sample.store)
  ∧ status (fst (TagController.deleteTag
                   (snd (TagController.deleteTag Sample.store 20)) 20)) = 404.
Proof.
  destruct (deleteTag_unlinks Sample.store 20 Sample.work eq_refl)
    as (H1 & H2 & _ & _ & H5).
  repeat split; assumption.
Defined.

(** X11. [createTag] looks the name up in lower case and, through the
    setters of [tag_name], trimmed: a name whose trimmed lower-case form
    is the name of a stored tag is answered 400 and nothing is stored. *)
Theorem createTag_duplicate
    (s : Store) (name : option string) (f : Gen) (i : nat) (t : Tag.t) :
  Js.truthy name = true →
  db_tags s !! i = Some t →
  Tag.tag_name t = Js.trim (Js.toLowerCase (Js.or_else name "")) →
  TagController.createTag s name f
  = (Res 400 "Tag already exists" NoData, s).
Proof.
  intros Hname Ht Heq. unfold TagController.createTag.
  rewrite Hname. cbn [negb].
  match goal with
  | |- context [Model.findOne ?q ?m] =>
      destruct (findOne_is_Some q m i t Ht) as [x ->]; [|reflexivity]
  end.
  apply bool_decide_eq_true. by rewrite cast_tag_name_toLowerCase.
Qed.

Lemma createTag_duplicate_witness :
  TagController.createTag Sample.store (Some " WORK ") Sample.gen
  = (Res 400 "Tag already exists" NoData, Sample.store).
Proof.
  apply (createTag_duplicate Sample.store (Some " WORK ") Sample.gen 20
           Sample.work).
  - reflexivity.
  - reflexivity.
  - vm_compute. reflexivity.
Defined.

(** ** Notebooks *)

Lemma notebook_canDelete_spec req b :
  NotebookController.canDelete req b = true
  ↔ Admin ∈ userRoles req ∨ LeadEditor ∈ userRoles req
    ∨ Notebook.owner b = userId req.
Proof.
  unfold NotebookController.canDelete.
  rewrite !orb_true_iff, !includes_true, bool_decide_eq_true. tauto.
Qed.

(** X12. Updating and deleting a stored notebook are permitted exactly for
    a requester holding Admin or Lead Editor or owning the notebook (the
    Editor role alone is not enough, unlike for notes); every other
    requester is answered 403 and the store is unchanged. *)
Theorem notebook_write_permission
    (s : Store) (req : Requester) (id : nat) (b : Notebook.t)
    (body : NotebookController.Body) :
  db_notebooks s !! id = Some b →
  let allowed := Admin ∈ userRoles req ∨ LeadEditor ∈ userRoles req
                 ∨ Notebook.owner b = userId req in
  (permitted (NotebookController.updateNotebook s req id body) ↔ allowed)
  ∧ (permitted (NotebookController.deleteNotebook s req id) ↔ allowed)
  ∧ (¬ allowed →
     status (fst (NotebookController.updateNotebook s req id body)) = 403
     ∧ snd (NotebookController.updateNotebook s req id body) = s
     ∧ status (fst (NotebookController.deleteNotebook s req id)) = 403
     ∧ snd (NotebookController.deleteNotebook s req id) = s).
Proof.
  intros Hb allowed. subst allowed. rewrite <- notebook_canDelete_spec.
  unfold permitted, NotebookController.updateNotebook,
    NotebookController.deleteNotebook, NotebookController.canEdit,
    Model.findById.
  fold (NotebookController.canDelete req b). rewrite Hb.
  unfold NotebookController.canDelete at 1 2 4 5.
  fold (NotebookController.canDelete req b).
  destruct (NotebookController.canDelete req b); cbn [negb].
  - split; [|split].
    + split; [done|]. intros _. unfold save_existing.
      by destruct (negb (Notebook.valid _)).
    + split; [done|]. intros _. cbn [fst status]. discriminate.
    + intros H. by destruct H.
  - cbn [fst snd status]. split; [|split].
    + split; [intros H; by destruct H|discriminate].
    + split; [intros H; by destruct H|discriminate].
    + done.
Qed.

Lemma notebook_write_permission_witness :
  db_notebooks Sample.store !! 30 = Some Sample.plans
  ∧ (permitted (NotebookController.deleteNotebook Sample.store Sample.as_bob
                  30)
     ↔ Admin ∈ userRoles Sample.as_bob ∨ LeadEditor ∈ userRoles Sample.as_bob
       ∨ Notebook.owner Sample.plans = userId Sample.as_bob).
Proof.
  split; [reflexivity|].
  exact (proj1 (proj2 (notebook_write_permission Sample.store Sample.as_bob 30
                         Sample.plans
                         (NotebookController.Build_Body None None) eq_refl))).
Defined.

(** X13. A permitted delete of a stored notebook answers 200, removes the
    notebook and pulls it from the notebooks of every note, leaving each
    note otherwise as it was and every group untouched (a group that was
    given the notebook keeps listing it); a second delete answers 404. *)
Theorem deleteNotebook_unlinks
    (s : Store) (req : Requester) (id : nat) (b : Notebook.t) :
  db_notebooks s !! id = Some b →
  NotebookController.canDelete req b = true →
  let r := NotebookController.deleteNotebook s req id in
  status (fst r) = 200
  ∧ db_notebooks (snd r) = delete id (db_notebooks s)
  ∧ (∀ n, db_notes (snd r) !! n
          = (λ x, Note.set_notebooks
                    (filter (λ k, k ≠ id) (Note.notebooks x)) x)
            <$> db_notes s !! n)
  ∧ db_groups (snd r) = db_groups s
  ∧ status (fst (NotebookController.deleteNotebook (snd r) req id)) = 404.
Proof.
  intros Hb Hcan r. subst r.
  unfold NotebookController.deleteNotebook, Model.findById.
  rewrite Hb, Hcan.
  cbn [negb fst snd status db_notebooks db_notes db_groups with_notebooks
       with_notes].
  split; [done|]. split; [done|]. split; [|split; [done|]].
  - intros n. rewrite lookup_updateMany.
    destruct (db_notes s !! n) as [x|]; [|done]. simpl. f_equal.
    destruct (Model.array_has id (Note.notebooks x)) eqn:Hhas; [done|].
    apply includes_false in Hhas.
    fold (Model.pull id (Note.notebooks x)). rewrite pull_id by done.
    by destruct x.
  - unfold Model.findByIdAndDelete. by rewrite lookup_delete_eq.
Qed.

Lemma deleteNotebook_unlinks_witness :
  status (fst (NotebookController.deleteNotebook Sample.store Sample.as_alice
                 30)) = 200
  ∧ db_notebooks (snd (NotebookController.deleteNotebook Sample.store
                         Sample.as_alice 30))
    = delete 30 (db_notebooks Sample.store).
Proof.
  destruct (deleteNotebook_unlinks Sample.store Sample.as_alice 30
              Sample.plans eq_refl eq_refl) as (H1 & H2 & _).
  split; assumption.
Defined.

Lemma addNoteToNotebook_present s id n b note :
  db_notebooks s !! id = Some b → db_notes s !! n = Some note →
  n ∈ Notebook.notes b → id ∈ Note.notebooks note →
  NotebookController.addNoteToNotebook s id (Some n)
  = (Res 200 "Note added to notebook successfully" (NotebookData id b),
     with_notebooks (db_notebooks s) s).
Proof.
  intros Hb Hn Hin Hin'.
  unfold NotebookController.addNoteToNotebook, Model.findById.
  rewrite Hb, Hn.
  rewrite (proj2 (includes_true n (Notebook.notes b)) Hin),
    (proj2 (includes_true id (Note.notebooks note)) Hin').
  reflexivity.
Qed.

(** X14. When [addNoteToNotebook] answers 200, the notebook lists the note
    and the note lists the notebook, whichever side was missing before
    (each side is tested and written on its own, so a one-sided link is
    completed); nothing is listed twice because of it, and asking again
    changes nothing. *)
Theorem addNoteToNotebook_links_both
    (s : Store) (id : nat) (note_id : option nat) :
  status (fst (NotebookController.addNoteToNotebook s id note_id)) = 200 →
  let s1 := snd (NotebookController.addNoteToNotebook s id note_id) in
  ∃ n b note b1 note1,
    note_id = Some n
    ∧ db_notebooks s !! id = Some b ∧ db_notes s !! n = Some note
    ∧ db_notebooks s1 !! id = Some b1 ∧ db_notes s1 !! n = Some note1
    ∧ Notebook.notes b1
      = (if decide (n ∈ Notebook.notes b) then Notebook.notes b
         else (Notebook.notes b ++ [n])%list)
    ∧ Note.notebooks note1
      = (if decide (id ∈ Note.notebooks note) then Note.notebooks note
         else (Note.notebooks note ++ [id])%list)
    ∧ n ∈ Notebook.notes b1 ∧ id ∈ Note.notebooks note1
    ∧ snd (NotebookController.addNoteToNotebook s1 id note_id) = s1.
Proof.
  unfold NotebookController.addNoteToNotebook at 1 2, Model.findById.
  destruct note_id as [n|]; [|intros [=]].
  destruct (db_notebooks s !! id) as [b|] eqn:Hb; [|intros [=]].
  destruct (db_notes s !! n) as [note|] eqn:Hn; [|intros [=]].
  unfold save_existing.
  assert (Hlast : ∀ l (x : nat), x ∈ (l ++ [x])%list).
  { intros l x. apply elem_of_app. right. apply list_elem_of_here. }
  destruct (decide (n ∈ Notebook.notes b)) as [Hin|Hin];
    [rewrite (proj2 (includes_true n (Notebook.notes b)) Hin)
    |rewrite (proj2 (includes_false n (Notebook.notes b)) Hin)];
    cbn [negb];
    [|destruct (negb (Notebook.valid _)); [intros [=]|]];
    (destruct (decide (id ∈ Note.notebooks note)) as [Hin'|Hin'];
     [rewrite (proj2 (includes_true id (Note.notebooks note)) Hin')
     |rewrite (proj2 (includes_false id (Note.notebooks note)) Hin')];
     cbn [negb];
     [|destruct (negb (Note.valid _)); [intros [=]|]]);
    intros _; cbn [snd];
    match goal with
    | |- ∃ _ _ _ _ _, _ ∧ _ ∧ _ ∧ db_notebooks ?s1 !! _ = _ ∧ _ =>
        assert (∃ b1 note1,
                  db_notebooks s1 !! id = Some b1
                  ∧ db_notes s1 !! n = Some note1
                  ∧ Notebook.notes b1
                    = (if decide (n ∈ Notebook.notes b) then Notebook.notes b
                       else (Notebook.notes b ++ [n])%list)
                  ∧ Note.notebooks note1
                    = (if decide (id ∈ Note.notebooks note)
                       then Note.notebooks note
                       else (Note.notebooks note ++ [id])%list)
                  ∧ n ∈ Notebook.notes b1 ∧ id ∈ Note.notebooks note1)
          as (b1 & note1 & Hb1 & Hn1 & Eb & En & Hnb & Hbn);
        [ cbn [db_notebooks db_notes with_notebooks with_notes];
          rewrite ?lookup_insert_eq, ?Hb, ?Hn;
          eexists _, _; (split; [reflexivity|]); (split; [reflexivity|]);
          cbn [Notebook.set_notes Notebook.notes Note.set_notebooks
               Note.notebooks];
          try rewrite (decide_True _ _ Hin);
          try rewrite (decide_False _ _ Hin);
          try rewrite (decide_True _ _ Hin');
          try rewrite (decide_False _ _ Hin');
          repeat split; first [assumption | apply Hlast]
        | exists n, b, note, b1, note1;
          do 9 (split; [first [reflexivity | assumption]|]);
          rewrite (addNoteToNotebook_present s1 id n b1 note1 Hb1 Hn1 Hnb Hbn);
          reflexivity ]
    end.
Qed.

Lemma addNoteToNotebook_links_both_witness :
  status (fst (NotebookController.addNoteToNotebook Sample.store 30 (Some 10)))
  = 200
  ∧ ∃ b1 note1,
      db_notebooks (snd (NotebookController.addNoteToNotebook Sample.store 30
                           (Some 10))) !! 30 = Some b1
      ∧ db_notes (snd (NotebookController.addNoteToNotebook Sample.store 30
                         (Some 10))) !! 10 = Some note1
      ∧ 10 ∈ Notebook.notes b1 ∧ 30 ∈ Note.notebooks note1.
Proof.
  assert (H : status (fst (NotebookController.addNoteToNotebook Sample.store
                             30 (Some 10))) = 200)
    by (vm_compute; reflexivity).
  split; [exact H|].
  destruct (addNoteToNotebook_links_both Sample.store 30 (Some 10) H)
    as (n & b & note & b1 & note1 & E & _ & _ & H4 & H5 & _ & _ & H8 & H9 & _).
  injection E as <-. exists b1, note1. repeat split; assumption.
Defined.

Lemma listed_getNotebooks s req id :
  id ∈ listed_ids (fst (NotebookController.getNotebooks s req)) ↔
  ∃ b, db_notebooks s !! id = Some b
       ∧ NotebookController.notebooks_query req id b = true.
Proof.
  unfold NotebookController.getNotebooks, listed_ids. simpl.
  rewrite list_elem_of_fmap. split.
  - intros ([i b] & -> & Hin). apply elem_of_find_sorted in Hin. eauto.
  - intros (b & Hb & Hq). exists (id, b). split; [done|].
    by apply elem_of_find_sorted.
Qed.

(** X15. The single-item fetch of a notebook makes no access test: a
    stored notebook that the list hides from a requester (not an Admin,
    not its owner) is still returned to anyone who asks for it by id. *)
Theorem getNotebookById_unrestricted
    (s : Store) (req : Requester) (id : nat) (b : Notebook.t) :
  db_notebooks s !! id = Some b →
  Admin ∉ userRoles req →
  Notebook.owner b ≠ userId req →
  NotebookController.getNotebookById s id
  = (Res 200 "Notebook retrieved successfully" (NotebookData id b), s)
  ∧ ¬ id ∈ listed_ids (fst (NotebookController.getNotebooks s req)).
Proof.
  intros Hb Hadm Hown. split.
  - unfold NotebookController.getNotebookById, Model.findById.
    by rewrite Hb.
  - rewrite listed_getNotebooks. intros (b' & Hb' & Hq).
    rewrite Hb in Hb'. injection Hb' as <-.
    unfold NotebookController.notebooks_query in Hq.
    apply includes_false in Hadm. rewrite Hadm, array_in_nil in Hq.
    rewrite (bool_decide_eq_false_2 _ Hown) in Hq. discriminate.
Qed.

Lemma getNotebookById_unrestricted_witness :
  NotebookController.getNotebookById Sample.store 30
  = (Res 200 "Notebook retrieved successfully" (NotebookData 30 Sample.plans),
     Sample.store)
  ∧ ¬ 30 ∈ listed_ids
             (fst (NotebookController.getNotebooks Sample.store
                     Sample.as_bob)).
Proof.
  apply (getNotebookById_unrestricted Sample.store Sample.as_bob 30
           Sample.plans).
  - reflexivity.
  - apply (bool_decide_unpack _). vm_compute. exact I.
  - simpl. lia.
Defined.

(** X16. A notebook that [createNotebook] stored is new, is owned by the
    requester, holds no notes and is shared with no group, and the
    creator's notebook list shows it. *)
Theorem createNotebook_listed
    (s : Store) (req : Requester) (body : NotebookController.Body) (f : Gen) :
  status (fst (NotebookController.createNotebook s req body f)) = 201 →
  let s' := snd (NotebookController.createNotebook s req body f) in
  ∃ b,
    db_notebooks s !! oid f = None
    ∧ db_notebooks s' = <[oid f := b]> (db_notebooks s)
    ∧ Notebook.owner b = userId req
    ∧ Notebook.notebook_name b
      = Js.trim (Js.or_else (NotebookController.notebook_name body) "")
    ∧ Notebook.notebook_name b ≠ ""
    ∧ Notebook.notes b = [] ∧ Notebook.accessible_groups b = []
    ∧ oid f ∈ listed_ids (fst (NotebookController.getNotebooks s' req)).
Proof.
  unfold NotebookController.createNotebook.
  destruct (negb (Js.truthy _)); [intros [=]|].
  unfold save_new.
  destruct (negb (Notebook.valid _)) eqn:Hvalid; [intros [=]|].
  destruct (bool_decide (is_Some (db_notebooks s !! oid f))) eqn:Hfresh;
    [intros [=]|].
  destruct (negb (index_free _ _ _)); [intros [=]|].
  intros _. cbn [orb snd].
  apply negb_false_iff in Hvalid. unfold Notebook.valid in Hvalid.
  cbn [Notebook.notebook_ID Notebook.notebook_name] in Hvalid.
  apply andb_true_iff in Hvalid as [_ Hname].
  apply negb_true_iff, bool_decide_eq_false in Hname.
  apply bool_decide_eq_false in Hfresh. apply eq_None_not_Some in Hfresh.
  set (b := Notebook.mk _ _ _ _ _ _ _).
  exists b. split; [exact Hfresh|]. split; [reflexivity|].
  do 5 (split; [done|]).
  rewrite listed_getNotebooks. exists b. split.
  - cbn [db_notebooks with_notebooks]. apply lookup_insert_eq.
  - unfold NotebookController.notebooks_query.
    replace (Notebook.owner b) with (userId req) by reflexivity.
    rewrite (bool_decide_eq_true_2 (userId req = userId req)) by done.
    by destruct (Js.includes Admin (userRoles req)).
Qed.

Lemma createNotebook_listed_witness :
  status (fst (NotebookController.createNotebook Sample.store Sample.as_bob
                 (NotebookController.Build_Body (Some "Recipes") None)
                 Sample.gen)) = 201
  ∧ 70 ∈ listed_ids
           (fst (NotebookController.getNotebooks
                   (snd (NotebookController.createNotebook Sample.store
                           Sample.as_bob
                           (NotebookController.Build_Body (Some "Recipes")
                                                          None)
                           Sample.gen))
                   Sample.as_bob)).
Proof.
  assert (H : status (fst (NotebookController.createNotebook Sample.store
                Sample.as_bob
                (NotebookController.Build_Body (Some "Recipes") None)
                Sample.gen)) = 201) by (vm_compute; reflexivity).
  split; [exact H|].
  destruct (createNotebook_listed Sample.store Sample.as_bob
              (NotebookController.Build_Body (Some "Recipes") None)
              Sample.gen H) as (b & _ & _ & _ & _ & _ & _ & _ & H8).
  exact H8.
Defined.

(** ** Groups *)

(** X17. The group list shows every stored group, each once, to an Admin
    or a Lead Editor (whether or not the Lead Editor owns it), and to any
    other requester exactly the groups that list the requester as a member
    or as their lead editor. *)
Theorem getGroups_visibility (s : Store) (req : Requester) :
  ans_status (fst (GroupController.getGroups s req)) = 200
  ∧ snd (GroupController.getGroups s req) = s
  ∧ NoDup (ans_data (fst (GroupController.getGroups s req))).*1
  ∧ ∀ id g,
      (id, g) ∈ ans_data (fst (GroupController.getGroups s req)) ↔
      db_groups s !! id = Some g
      ∧ (Admin ∈ userRoles req ∨ LeadEditor ∈ userRoles req
         ∨ userId req ∈ Group.members g
         ∨ Group.lead_editor g = userId req).
Proof.
  unfold GroupController.getGroups. cbn [fst snd ans_status ans_data].
  split; [done|]. split; [done|]. split; [apply find_sorted_NoDup|].
  intros id g. rewrite elem_of_find_sorted.
  unfold GroupController.groups_query.
  destruct (Js.includes Admin (userRoles req)) eqn:Hadm;
    [apply includes_true in Hadm|apply includes_false in Hadm];
    (destruct (Js.includes LeadEditor (userRoles req)) eqn:Hle;
     [apply includes_true in Hle|apply includes_false in Hle]);
    cbn [negb andb]; try tauto.
  unfold Model.array_has.
  rewrite orb_true_iff, includes_true, bool_decide_eq_true. tauto.
Qed.

(** The single-item fetch of a group makes no access test: a stored
    group that the list hides from a requester (no Admin or Lead Editor
    role, not a member, not its lead editor) is still returned to anyone
    who asks for it by id. *)
Theorem getGroupById_unrestricted
    (s : Store) (req : Requester) (id : nat) (g : Group.t) :
  db_groups s !! id = Some g →
  Admin ∉ userRoles req → LeadEditor ∉ userRoles req →
  userId req ∉ Group.members g → Group.lead_editor g ≠ userId req →
  GroupController.getGroupById s id
  = (Res 200 "Group retrieved successfully" (GroupData id g), s)
  ∧ ¬ (id, g) ∈ ans_data (fst (GroupController.getGroups s req)).
Proof.
  intros Hg Hadm Hle Hmem Hlead. split.
  - unfold GroupController.getGroupById, Model.findById. by rewrite Hg.
  - unfold GroupController.getGroups. cbn [fst ans_data].
    rewrite elem_of_find_sorted. intros [_ Hq].
    unfold GroupController.groups_query, Model.array_has in Hq.
    apply includes_false in Hadm, Hle, Hmem.
    rewrite Hadm, Hle, Hmem, (bool_decide_eq_false_2 _ Hlead) in Hq.
    discriminate.
Qed.

Lemma getGroupById_unrestricted_witness :
  GroupController.getGroupById Sample.store 40
  = (Res 200 "Group retrieved successfully" (GroupData 40 Sample.team),
     Sample.store)
  ∧ ¬ (40, Sample.team)
      ∈ ans_data (fst (GroupController.getGroups Sample.store
                         Sample.as_alice)).
Proof.
  apply (getGroupById_unrestricted Sample.store Sample.as_alice 40
           Sample.team).
  - reflexivity.
  - apply (bool_decide_unpack _). vm_compute. exact I.
  - apply (bool_decide_unpack _). vm_compute. exact I.
  - apply (bool_decide_unpack _). vm_compute. exact I.
  - simpl. lia.
Defined.

(** X18. A group that [createGroup] stored is new and has the requester as
    its lead editor and the given members and notebooks; afterwards a
    stored notebook lists the group exactly when it is one of the given
    notebooks or listed the group's identity before, and every other
    listing of every notebook is as it was. *)
Theorem createGroup_links
    (s : Store) (req : Requester) (body : GroupController.Body) (f : Gen) :
  status (fst (GroupController.createGroup s req body f)) = 201 →
  let s' := snd (GroupController.createGroup s req body f) in
  let ids := Js.arr_or_else (GroupController.notebook_ids body) [] in
  ∃ g,
    db_groups s !! oid f = None
    ∧ db_groups s' = <[oid f := g]> (db_groups s)
    ∧ Group.lead_editor g = userId req
    ∧ Group.members g = Js.arr_or_else (GroupController.member_ids body) []
    ∧ Group.accessible_notebooks g = ids
    ∧ (LeadEditor ∈ userRoles req ∨ Admin ∈ userRoles req)
    ∧ ∀ b,
        (db_notebooks s' !! b = None ↔ db_notebooks s !! b = None)
        ∧ ∀ x y k,
            db_notebooks s !! b = Some x → db_notebooks s' !! b = Some y →
            (k ∈ Notebook.accessible_groups y ↔
             (k = oid f ∧ b ∈ ids) ∨ k ∈ Notebook.accessible_groups x).
Proof.
  intros H201 s' ids.
  assert (Hperm : permitted (GroupController.createGroup s req body f)).
  { unfold permitted. rewrite H201. discriminate. }
  apply createGroup_permitted in Hperm.
  subst s'. revert H201. unfold GroupController.createGroup.
  destruct (_ && _ : bool); [intros [=]|].
  destruct (negb (Js.truthy _)); [intros [=]|].
  unfold save_new. destruct (negb (Group.valid _)); [intros [=]|].
  destruct (bool_decide (is_Some (db_groups s !! oid f))) eqn:Hfresh;
    [intros [=]|].
  destruct (negb (GroupController.group_index_free _ _ _)); [intros [=]|].
  intros _. cbn [orb snd].
  apply bool_decide_eq_false in Hfresh. apply eq_None_not_Some in Hfresh.
  eexists. split; [exact Hfresh|]. split; [reflexivity|].
  cbn [Group.lead_editor Group.members Group.accessible_notebooks].
  do 3 (split; [reflexivity|]). split; [exact Hperm|].
  intros b. cbn [db_notebooks with_notebooks with_groups].
  rewrite lookup_link_if_any. fold ids.
  destruct (db_notebooks s !! b) as [x0|]; [|done].
  split; [done|]. intros x y k [= <-]. simpl. intros [= <-].
  case_bool_decide; simpl; [rewrite elem_of_addToSet|]; tauto.
Qed.

Lemma createGroup_links_witness :
  status (fst (GroupController.createGroup Sample.store Sample.as_carol
                 Sample.readers Sample.gen)) = 201
  ∧ ∃ g,
      db_groups (snd (GroupController.createGroup Sample.store
                        Sample.as_carol Sample.readers Sample.gen))
      = <[70 := g]> (db_groups Sample.store)
      ∧ Group.lead_editor g = 3
      ∧ Group.accessible_notebooks g = [30].
Proof.
  assert (H : status (fst (GroupController.createGroup Sample.store
                Sample.as_carol Sample.readers Sample.gen)) = 201)
    by (vm_compute; reflexivity).
  split; [exact H|].
  destruct (createGroup_links Sample.store Sample.as_carol Sample.readers
              Sample.gen H) as (g & _ & H2 & H3 & _ & H5 & _).
  exists g. repeat split; assumption.
Defined.

(** X19. When [updateGroup] answers 200 with a [notebook_ids] list, the
    group's notebook set is that list and, among the stored notebooks,
    exactly those of the list list the group; no other group's listing is
    touched and no notebook is added or removed.  The lead editor and the
    business key of the group never change. *)
Theorem updateGroup_replaces_notebooks
    (s : Store) (req : Requester) (id : nat) (body : GroupController.Body)
    (l : list nat) :
  GroupController.notebook_ids body = Some l →
  status (fst (GroupController.updateGroup s req id body)) = 200 →
  let s' := snd (GroupController.updateGroup s req id body) in
  ∃ g g',
    db_groups s !! id = Some g
    ∧ db_groups s' = <[id := g']> (db_groups s)
    ∧ Group.accessible_notebooks g' = l
    ∧ Group.lead_editor g' = Group.lead_editor g
    ∧ Group.group_id g' = Group.group_id g
    ∧ ∀ b,
        (db_notebooks s' !! b = None ↔ db_notebooks s !! b = None)
        ∧ ∀ y k,
            db_notebooks s' !! b = Some y →
            ∃ x, db_notebooks s !! b = Some x
                 ∧ (k ∈ Notebook.accessible_groups y ↔
                    if decide (k = id) then b ∈ l
                    else k ∈ Notebook.accessible_groups x).
Proof.
  intros Hl. unfold GroupController.updateGroup, Model.findById.
  destruct (db_groups s !! id) as [g|] eqn:Hg; [|intros [=]].
  destruct (negb (GroupController.canEdit req g)); [intros [=]|].
  unfold save_existing. destruct (negb (Group.valid _)); [intros [=]|].
  intros _. rewrite Hl.
  cbn [snd db_groups db_notebooks with_groups with_notebooks Js.if_defined].
  eexists g, _. split; [reflexivity|]. split; [reflexivity|].
  cbn [Group.accessible_notebooks Group.lead_editor Group.group_id].
  do 3 (split; [reflexivity|]).
  intros b. split.
  - destruct l as [|b0 l0];
      rewrite ?lookup_link_group, lookup_unlink_group;
      by destruct (db_notebooks s !! b).
  - intros y k Hy. by apply (relink_lists id l (db_notebooks s) b y k).
Qed.

Lemma updateGroup_replaces_notebooks_witness :
  status (fst (GroupController.updateGroup Sample.store Sample.as_carol 40
                 Sample.share_plans)) = 200
  ∧ ∃ g',
      db_groups (snd (GroupController.updateGroup Sample.store
                        Sample.as_carol 40 Sample.share_plans))
      = <[40 := g']> (db_groups Sample.store)
      ∧ Group.accessible_notebooks g' = [30].
Proof.
  assert (H : status (fst (GroupController.updateGroup Sample.store
                Sample.as_carol 40 Sample.share_plans)) = 200)
    by (vm_compute; reflexivity).
  split; [exact H|].
  destruct (updateGroup_replaces_notebooks Sample.store Sample.as_carol 40
              Sample.share_plans [30] eq_refl H)
    as (g & g' & _ & H2 & H3 & _).
  exists g'. split; assumption.
Defined.

Lemma updateGroup_agree_stored_witness :
  groups_notebooks_agree_stored
    (snd (GroupController.updateGroup Sample.store Sample.as_carol 40
            Sample.share_plans)).
Proof.
  apply (updateGroup_agree_stored Sample.store Sample.as_carol 40
           Sample.share_plans).
  - intros g b x y Hx Hy. simpl in Hx, Hy.
    apply lookup_singleton_Some in Hx as [_ <-].
    apply lookup_singleton_Some in Hy as [_ <-]. simpl.
    split; intros H; by apply elem_of_nil in H.
  - vm_compute. reflexivity.
Defined.

(** X21. A permitted delete of a stored group answers 200, removes the
    group and pulls it from the accessible groups of every notebook,
    leaving each notebook otherwise as it was; a second delete answers
    404. *)
Theorem deleteGroup_unlinks
    (s : Store) (req : Requester) (id : nat) (g : Group.t) :
  db_groups s !! id = Some g →
  GroupController.canEdit req g = true →
  let r := GroupController.deleteGroup s req id in
  status (fst r) = 200
  ∧ db_groups (snd r) = delete id (db_groups s)
  ∧ (∀ b, db_notebooks (snd r) !! b
          = (λ x, Notebook.set_accessible_groups
                    (filter (λ k, k ≠ id) (Notebook.accessible_groups x)) x)
            <$> db_notebooks s !! b)
  ∧ status (fst (GroupController.deleteGroup (snd r) req id)) = 404.
Proof.
  intros Hg Hcan r. subst r.
  unfold GroupController.deleteGroup, Model.findById.
  rewrite Hg, Hcan.
  cbn [negb fst snd status db_groups db_notebooks with_groups
       with_notebooks].
  split; [done|]. split; [done|]. split.
  - intros b. apply lookup_unlink_group.
  - unfold Model.findByIdAndDelete. by rewrite lookup_delete_eq.
Qed.

Lemma deleteGroup_unlinks_witness :
  status (fst (GroupController.deleteGroup Sample.store Sample.as_carol 40))
  = 200
  ∧ db_groups (snd (GroupController.deleteGroup Sample.store Sample.as_carol
                      40))
    = delete 40 (db_groups Sample.store).
Proof.
  destruct (deleteGroup_unlinks Sample.store Sample.as_carol 40 Sample.team
              eq_refl eq_refl) as (H1 & H2 & _).
  split; assumption.
Defined.

Lemma createGroup_agree_witness :
  groups_notebooks_agree
    (snd (GroupController.createGroup Sample.store Sample.as_carol
            Sample.readers Sample.gen)).
Proof.
  apply (createGroup_agree Sample.store Sample.as_carol Sample.readers
           Sample.gen).
  - intros g b. unfold notebook_lists_group, group_lists_notebook. simpl.
    split; intros (x & Hx & Hin);
      apply lookup_singleton_Some in Hx as [_ <-]; simpl in Hin;
      by apply elem_of_nil in Hin.
  - apply (bool_decide_unpack _). vm_compute. exact I.
Defined.

(** X23. [addMemberToGroup] answers 200 only for a stored group, a stored
    user and a requester who may edit the group; the members afterwards
    are the former ones with the user appended if missing, nothing else
    of the group or the store changes, and asking again changes nothing
    more. *)
Theorem addMemberToGroup_idempotent
    (s : Store) (req : Requester) (id : nat) (user_id : option nat) :
  status (fst (GroupController.addMemberToGroup s req id user_id)) = 200 →
  let s1 := snd (GroupController.addMemberToGroup s req id user_id) in
  ∃ u g,
    user_id = Some u
    ∧ db_groups s !! id = Some g
    ∧ is_Some (db_users s !! u)
    ∧ admin_or_owning_lead req (Group.lead_editor g)
    ∧ s1 = (if decide (u ∈ Group.members g) then s
            else with_groups
                   (<[id := Group.set_members (Group.members g ++ [u])%list g]>
                      (db_groups s)) s)
    ∧ snd (GroupController.addMemberToGroup s1 req id user_id) = s1.
Proof.
  unfold GroupController.addMemberToGroup at 1 2, Model.findById.
  destruct user_id as [u|]; [|intros [=]].
  destruct (db_groups s !! id) as [g|] eqn:Hg; [|intros [=]].
  destruct (db_users s !! u) as [usr|] eqn:Hu; [|intros [=]].
  destruct (GroupController.canEdit req g) eqn:Hcan; [|intros [=]].
  cbn [negb]. apply group_canEdit_spec in Hcan as Hspec.
  destruct (decide (u ∈ Group.members g)) as [Hin|Hin].
  - rewrite (proj2 (includes_true u (Group.members g)) Hin). cbn [negb snd].
    intros _. exists u, g. split; [done|]. split; [done|].
    split; [by eexists|]. split; [exact Hspec|].
    rewrite (decide_True _ _ Hin). split; [reflexivity|].
    unfold GroupController.addMemberToGroup, Model.findById.
    rewrite Hg, Hu, Hcan, (proj2 (includes_true u (Group.members g)) Hin).
    reflexivity.
  - rewrite (proj2 (includes_false u (Group.members g)) Hin). cbn [negb].
    unfold save_existing. destruct (negb (Group.valid _)); [intros [=]|].
    intros _. cbn [snd]. exists u, g. split; [done|]. split; [done|].
    split; [by eexists|]. split; [exact Hspec|].
    rewrite (decide_False _ _ Hin). split; [reflexivity|].
    unfold GroupController.addMemberToGroup, Model.findById.
    cbn [db_groups db_users with_groups]. rewrite lookup_insert_eq, Hu.
    replace (GroupController.canEdit req
               (Group.set_members (Group.members g ++ [u])%list g))
      with true by (rewrite <- Hcan; reflexivity).
    cbn [negb Group.set_members Group.members].
    rewrite (proj2 (includes_true u (Group.members g ++ [u])%list))
      by (apply elem_of_app; right; apply list_elem_of_here).
    reflexivity.
Qed.

Lemma addMemberToGroup_idempotent_witness :
  status (fst (GroupController.addMemberToGroup Sample.store Sample.as_carol
                 40 (Some 1))) = 200
  ∧ snd (GroupController.addMemberToGroup
           (snd (GroupController.addMemberToGroup Sample.store
                   Sample.as_carol 40 (Some 1)))
           Sample.as_carol 40 (Some 1))
    = snd (GroupController.addMemberToGroup Sample.store Sample.as_carol 40
             (Some 1)).
Proof.
  assert (H : status (fst (GroupController.addMemberToGroup Sample.store
                Sample.as_carol 40 (Some 1))) = 200)
    by (vm_compute; reflexivity).
  split; [exact H|].
  destruct (addMemberToGroup_idempotent Sample.store Sample.as_carol 40
              (Some 1) H) as (u & g & _ & _ & _ & _ & _ & H6).
  exact H6.
Defined.

(** ** Comments and attachments *)





(** X25. An attachment needs a stored parent of one of the three kinds:
    with every required field present, a [parent_type] other than Note,
    Comment and Group, or a [parent_id] that is not stored in the named
    collection, is answered 404 with the message naming the given type,
    and nothing is stored. *)
Theorem createAttachment_parent_required
    (s : Store) (body : AttachmentController.Body) (f : Gen)
    (ptype : string) (pid : nat) :
  AttachmentController.parent_type body = Some ptype → ptype ≠ "" →
  AttachmentController.parent_id body = Some pid →
  Js.truthy (AttachmentController.file_name body) = true →
  Js.truthy (AttachmentController.file_type body) = true →
  Js.truthy (AttachmentController.URL body) = true →
  (ptype ∉ Attachment.parent_types)
  ∨ (ptype = "Note" ∧ db_notes s !! pid = None)
  ∨ (ptype = "Comment" ∧ db_comments s !! pid = None)
  ∨ (ptype = "Group" ∧ db_groups s !! pid = None) →
  AttachmentController.createAttachment s body f
  = (Res 404 (ptype ++ " not found") NoData, s).
Proof.
  intros Hpt Hne Hpid Hfn Hft Hurl Hcase.
  unfold AttachmentController.createAttachment.
  rewrite Hpid, Hpt, Hfn, Hft, Hurl.
  cbn [Js.truthy Js.or_else].
  rewrite (bool_decide_eq_false_2 (ptype = "")) by done. cbn [negb orb].
  replace (AttachmentController.find_parent s ptype pid) with (@None AttachmentController.Parent);
    [reflexivity|].
  symmetry. unfold AttachmentController.find_parent, Model.findById.
  destruct Hcase as [Hout|[[-> H]|[[-> H]|[-> H]]]].
  - unfold Attachment.parent_types in Hout.
    rewrite !not_elem_of_cons in Hout. destruct Hout as (H1 & H2 & H3 & _).
    by rewrite !bool_decide_eq_false_2.
  - rewrite bool_decide_eq_true_2 by done. by rewrite H.
  - rewrite bool_decide_eq_false_2 by discriminate.
    rewrite bool_decide_eq_true_2 by done. by rewrite H.
  - rewrite !bool_decide_eq_false_2 by discriminate.
    rewrite bool_decide_eq_true_2 by done. by rewrite H.
Qed.

Lemma createAttachment_parent_required_witness :
  AttachmentController.createAttachment Sample.store
    (AttachmentController.Build_Body (Some "Notebook") (Some 30)
       (Some "a.txt") (Some "text/plain") (Some "/files/a.txt") None)
    Sample.gen
  = (Res 404 "Notebook not found" NoData, Sample.store).
Proof.
  apply (createAttachment_parent_required Sample.store
           (AttachmentController.Build_Body (Some "Notebook") (Some 30)
              (Some "a.txt") (Some "text/plain") (Some "/files/a.txt") None)
           Sample.gen "Notebook" 30).
  - reflexivity.
  - discriminate.
  - reflexivity.
  - reflexivity.
  - reflexivity.
  - reflexivity.
  - left. apply (bool_decide_unpack _). vm_compute. exact I.
Defined.




(** ** Validity of the stored notes *)

Lemma keeps_valid_notes_valid s s' :
  notes_valid s → keeps_valid s s' → notes_valid s'.
Proof.
  intros Hs Hk n y Hy.
  destruct (Hk n y Hy) as [(x & Hx & Hv)|Hv]; [|done].
  apply Hv. by eapply Hs.
Qed.

Lemma keeps_valid_same s s' : db_notes s' = db_notes s → keeps_valid s s'.
Proof. intros Hn n y. rewrite Hn. intros Hy. left. by exists y. Qed.

Ltac old_note :=
  left; eexists; split; [eassumption|intros ?; assumption].

Ltac saved_note :=
  first
    [ left; eexists; split; [eassumption|];
      let Hv := fresh "Hv" in
      intros Hv;
      rewrite <- Hv;
      match goal with
      | |- Note.valid _ = Note.valid ?x => by destruct x
      end
    | right; apply negb_false_iff; eassumption ].

Ltac keeps_valid_by_lookup :=
  let Hy := fresh "Hy" in
  intros ? ? Hy;
  cbn [fst snd db_users db_notes with_users with_notes with_tags
       with_notebooks with_groups with_comments with_attachments] in Hy;
  first
    [ old_note
    | apply lookup_insert_Some in Hy as [[<- <-]|[_ Hy]];
      [saved_note | old_note]
    | apply lookup_delete_Some in Hy as [_ Hy]; old_note
    | rewrite lookup_updateMany in Hy;
      match type of Hy with
      | _ <$> ?o = _ =>
          let x := fresh "x" in
          destruct o as [x|]; [|discriminate];
          injection Hy as <-; left; exists x; split; [reflexivity|];
          match goal with
          | |- context [if ?b then _ else _] => destruct b
          end; [|done]; by destruct x
      end
    | apply lookup_alter_Some in Hy as [(_ & ? & ? & ->)|[_ Hy]];
      [left; eexists; split; [eassumption|];
       match goal with
       | |- Note.valid ?x = true → _ => by destruct x
       end
      | old_note] ].

Lemma signup_keeps_valid hash sign s body f :
  keeps_valid s (snd (AuthController.signup hash sign s body f)).
Proof.
  unfold AuthController.signup, save_new.
  split_handler; apply keeps_valid_same; reflexivity.
Qed.

Lemma createNote_keeps_valid s req body f :
  keeps_valid s (snd (NoteController.createNote s req body f)).
Proof.
  unfold NoteController.createNote, save_new.
  split_handler; keeps_valid_by_lookup.
Qed.

Lemma updateNote_keeps_valid s req id body :
  keeps_valid s (snd (NoteController.updateNote s req id body)).
Proof.
  unfold NoteController.updateNote, Model.findById, save_existing.
  split_handler; keeps_valid_by_lookup.
Qed.

Lemma deleteNote_keeps_valid s req id :
  keeps_valid s (snd (NoteController.deleteNote s req id)).
Proof.
  unfold NoteController.deleteNote, Model.findById, Model.findByIdAndDelete.
  split_handler; keeps_valid_by_lookup.
Qed.

Lemma addTagToNote_keeps_valid s id tag_id :
  keeps_valid s (snd (NoteController.addTagToNote s id tag_id)).
Proof.
  unfold NoteController.addTagToNote, Model.findById, save_existing.
  split_handler; keeps_valid_by_lookup.
Qed.

Lemma createTag_keeps_valid s name f :
  keeps_valid s (snd (TagController.createTag s name f)).
Proof.
  unfold TagController.createTag, save_new.
  split_handler; apply keeps_valid_same; reflexivity.
Qed.

Lemma deleteTag_keeps_valid s id :
  keeps_valid s (snd (TagController.deleteTag s id)).
Proof.
  unfold TagController.deleteTag, Model.findById.
  split_handler; keeps_valid_by_lookup.
Qed.

Lemma createNotebook_keeps_valid s req body f :
  keeps_valid s (snd (NotebookController.createNotebook s req body f)).
Proof.
  unfold NotebookController.createNotebook, save_new.
  split_handler; apply keeps_valid_same; reflexivity.
Qed.

Lemma updateNotebook_keeps_valid s req id body :
  keeps_valid s (snd (NotebookController.updateNotebook s req id body)).
Proof.
  unfold NotebookController.updateNotebook, save_existing.
  split_handler; apply keeps_valid_same; reflexivity.
Qed.

Lemma deleteNotebook_keeps_valid s req id :
  keeps_valid s (snd (NotebookController.deleteNotebook s req id)).
Proof.
  unfold NotebookController.deleteNotebook, Model.findById.
  split_handler; keeps_valid_by_lookup.
Qed.

Lemma addNoteToNotebook_keeps_valid s id note_id :
  keeps_valid s (snd (NotebookController.addNoteToNotebook s id note_id)).
Proof.
  unfold NotebookController.addNoteToNotebook, Model.findById, save_existing.
  split_handler; keeps_valid_by_lookup.
Qed.

Lemma createGroup_keeps_valid s req body f :
  keeps_valid s (snd (GroupController.createGroup s req body f)).
Proof.
  unfold GroupController.createGroup, save_new.
  split_handler; apply keeps_valid_same; reflexivity.
Qed.

Lemma updateGroup_keeps_valid s req id body :
  keeps_valid s (snd (GroupController.updateGroup s req id body)).
Proof.
  unfold GroupController.updateGroup, save_existing.
  split_handler; apply keeps_valid_same; reflexivity.
Qed.

Lemma deleteGroup_keeps_valid s req id :
  keeps_valid s (snd (GroupController.deleteGroup s req id)).
Proof.
  unfold GroupController.deleteGroup.
  split_handler; apply keeps_valid_same; reflexivity.
Qed.

Lemma addMemberToGroup_keeps_valid s req id user_id :
  keeps_valid s (snd (GroupController.addMemberToGroup s req id user_id)).
Proof.
  unfold GroupController.addMemberToGroup, save_existing.
  split_handler; apply keeps_valid_same; reflexivity.
Qed.

Lemma createComment_keeps_valid s req body f :
  keeps_valid s (snd (CommentController.createComment s req body f)).
Proof.
  unfold CommentController.createComment, Model.findById, save_new,
    save_existing.
  split_handler; keeps_valid_by_lookup.
Qed.

Lemma deleteComment_keeps_valid s req id :
  keeps_valid s (snd (CommentController.deleteComment s req id)).
Proof.
  unfold CommentController.deleteComment, Model.findById.
  split_handler; keeps_valid_by_lookup.
Qed.

Lemma save_parent_keeps_valid s parent pid update s' :
  (∀ n, parent = AttachmentController.NoteParent n →
        db_notes s !! pid = Some n) →
  AttachmentController.save_parent s parent pid update = inr s' →
  keeps_valid s s'.
Proof.
  intros Hparent. unfold AttachmentController.save_parent, save_existing.
  destruct parent as [n|c|g]; split_handler; intros [= <-];
    try (apply keeps_valid_same; reflexivity).
  specialize (Hparent n eq_refl). keeps_valid_by_lookup.
Qed.

Lemma createAttachment_keeps_valid s body f :
  keeps_valid s (snd (AttachmentController.createAttachment s body f)).
Proof.
  unfold AttachmentController.createAttachment, save_new.
  destruct (AttachmentController.parent_id body) as [pid|];
    [|apply keeps_valid_same; reflexivity].
  destruct (_ || _ : bool); [apply keeps_valid_same; reflexivity|].
  destruct (AttachmentController.find_parent s _ pid) as [parent|] eqn:Hp;
    [|apply keeps_valid_same; reflexivity].
  destruct (negb (Attachment.valid _));
    [apply keeps_valid_same; reflexivity|].
  destruct (_ || _ : bool); [apply keeps_valid_same; reflexivity|].
  destruct (AttachmentController.save_parent _ _ _ _) as [e|s2] eqn:Hs;
    [apply keeps_valid_same; reflexivity|].
  cbn [snd]. apply save_parent_keeps_valid in Hs; [exact Hs|].
  intros n ->. cbn [db_notes with_attachments].
  by eapply find_parent_note.
Qed.

Lemma deleteAttachment_keeps_valid s id :
  keeps_valid s (snd (AttachmentController.deleteAttachment s id)).
Proof.
  unfold AttachmentController.deleteAttachment, Model.findById.
  destruct (db_attachments s !! id) as [a|];
    [|apply keeps_valid_same; reflexivity].
  destruct (AttachmentController.find_parent s _ _) as [parent|] eqn:Hp.
  - destruct (AttachmentController.save_parent _ _ _ _) as [e|s1] eqn:Hs;
      [apply keeps_valid_same; reflexivity|].
    cbn [snd]. apply save_parent_keeps_valid in Hs; [exact Hs|].
    intros n ->. by eapply find_parent_note.
  - apply keeps_valid_same; reflexivity.
Qed.

Lemma step_keeps_valid s s' : step s s' → keeps_valid s s'.
Proof.
  destruct 1;
    eauto using signup_keeps_valid, createNote_keeps_valid,
      updateNote_keeps_valid, deleteNote_keeps_valid,
      addTagToNote_keeps_valid, createTag_keeps_valid,
      deleteTag_keeps_valid, createNotebook_keeps_valid,
      updateNotebook_keeps_valid, deleteNotebook_keeps_valid,
      addNoteToNotebook_keeps_valid, createGroup_keeps_valid,
      updateGroup_keeps_valid, deleteGroup_keeps_valid,
      addMemberToGroup_keeps_valid, createComment_keeps_valid,
      deleteComment_keeps_valid, createAttachment_keeps_valid,
      deleteAttachment_keeps_valid.
Qed.

(** X28. In every store the service reaches, every stored note passes the
    validators of the note schema: its identifier and title are not empty,
    and its type and its visibility are values of their enumerations. *)
Theorem reachable_notes_valid (s : Store) : reachable s → notes_valid s.
Proof.
  unfold reachable. intros Hrun.
  eapply (rtc_ind_r (λ s, notes_valid s) empty_store); [| |exact Hrun].
  - intros n x Hx. simpl in Hx. by rewrite lookup_empty in Hx.
  - intros s1 s2 _ Hstep IH.
    eapply keeps_valid_notes_valid; [exact IH|]. by apply step_keeps_valid.
Qed.

(** ** The unique indexes in the stores the service reaches *)

Lemma keeps_unique_unique {A} (path : A → string) (m m' : gmap nat A) :
  unique_on path m → keeps_unique path m m' → unique_on path m'.
Proof.
  intros Hm [Hsame|(k & d & Hk & Hfree & ->)] i j x y Hx Hy Hp.
  - destruct (Hsame i x Hx) as (x0 & Hx0 & Hpx).
    destruct (Hsame j y Hy) as (y0 & Hy0 & Hpy).
    apply (Hm i j x0 y0 Hx0 Hy0). congruence.
  - apply lookup_insert_Some in Hx as [[<- <-]|[Hik Hx]];
      apply lookup_insert_Some in Hy as [[<- <-]|[Hjk Hy]].
    + done.
    + destruct (Hfree j y Hy). done.
    + destruct (Hfree i x Hx). done.
    + by apply (Hm i j x y).
Qed.

Lemma keeps_unique_same {A} (path : A → string) (m : gmap nat A) :
  keeps_unique path m m.
Proof. left. intros i y Hy. by exists y. Qed.

Lemma keeps_unique_insert {A} (path : A → string) (m : gmap nat A) k d :
  bool_decide (is_Some (m !! k)) = false →
  index_free path (path d) m = true →
  keeps_unique path m (<[k := d]> m).
Proof.
  intros Hk Hfree. right. exists k, d.
  apply bool_decide_eq_false in Hk. apply eq_None_not_Some in Hk.
  split; [exact Hk|]. split; [|done].
  apply bool_decide_eq_true in Hfree. intros j x Hx. by apply (Hfree j x).
Qed.

Lemma keeps_names_unique s s' :
  names_unique s → keeps_names s s' → names_unique s'.
Proof.
  intros (H1 & H2 & H3) (K1 & K2 & K3).
  repeat split; by eapply keeps_unique_unique.
Qed.

Lemma keeps_names_same s s' :
  db_users s' = db_users s → db_tags s' = db_tags s → keeps_names s s'.
Proof.
  intros Hu Ht. unfold keeps_names. rewrite Hu, Ht.
  repeat split; apply keeps_unique_same.
Qed.

Lemma signup_keeps_names hash sign s body f :
  keeps_names s (snd (AuthController.signup hash sign s body f)).
Proof.
  unfold AuthController.signup, save_new.
  destruct (_ || _ : bool); [apply keeps_names_same; reflexivity|].
  destruct (Model.findOne _ _); [apply keeps_names_same; reflexivity|].
  destruct (AuthController.cast_roles _) as [rs|];
    [|apply keeps_names_same; reflexivity].
  cbv zeta.
  destruct (negb (AuthController.user_valid _));
    [apply keeps_names_same; reflexivity|].
  destruct (bool_decide (is_Some (db_users s !! oid f))) eqn:Hk;
    [apply keeps_names_same; reflexivity|].
  destruct (AuthController.user_index_free _ _) eqn:Hfree;
    [|apply keeps_names_same; reflexivity].
  cbn [orb negb snd]. unfold AuthController.user_index_free in Hfree.
  apply andb_true_iff in Hfree as [Hfree Hemail].
  apply andb_true_iff in Hfree as [_ Hname].
  repeat split; cbn [db_users db_tags with_users].
  - by apply keeps_unique_insert.
  - by apply keeps_unique_insert.
  - apply keeps_unique_same.
Qed.

Lemma createTag_keeps_names s name f :
  keeps_names s (snd (TagController.createTag s name f)).
Proof.
  unfold TagController.createTag, save_new.
  destruct (negb (Js.truthy name)); [apply keeps_names_same; reflexivity|].
  destruct (Model.findOne _ _); [apply keeps_names_same; reflexivity|].
  cbv zeta.
  destruct (negb (Tag.valid _)); [apply keeps_names_same; reflexivity|].
  destruct (bool_decide (is_Some (db_tags s !! oid f))) eqn:Hk;
    [apply keeps_names_same; reflexivity|].
  destruct (index_free Tag.tag_id _ _);
    [|apply keeps_names_same; reflexivity].
  destruct (index_free Tag.tag_name _ _) eqn:Hfree;
    [|apply keeps_names_same; reflexivity].
  cbn [orb andb negb snd].
  repeat split; cbn [db_users db_tags with_tags];
    try apply keeps_unique_same.
  by apply keeps_unique_insert.
Qed.

Lemma deleteTag_keeps_names s id :
  keeps_names s (snd (TagController.deleteTag s id)).
Proof.
  unfold TagController.deleteTag, Model.findById, Model.findByIdAndDelete.
  destruct (db_tags s !! id) as [tag|];
    [|apply keeps_names_same; reflexivity].
  repeat split; cbn [snd db_users db_tags with_tags with_notes];
    try apply keeps_unique_same.
  left. intros i y Hy. apply lookup_delete_Some in Hy as [_ Hy].
  by exists y.
Qed.

Lemma addTagToNote_keeps_names s id tag_id :
  keeps_names s (snd (NoteController.addTagToNote s id tag_id)).
Proof.
  unfold NoteController.addTagToNote, Model.findById, save_existing.
  split_handler; try (apply keeps_names_same; reflexivity).
  all: repeat split; cbn [snd db_users db_tags with_tags with_notes];
    try apply keeps_unique_same.
  all: left; intros i y Hy.
  all: apply lookup_insert_Some in Hy as [[<- <-]|[_ Hy]];
    [eexists; split; [eassumption|reflexivity]|by exists y].
Qed.

Lemma step_keeps_names s s' : step s s' → keeps_names s s'.
Proof.
  destruct 1;
    eauto using signup_keeps_names, createTag_keeps_names,
      deleteTag_keeps_names, addTagToNote_keeps_names.
  all: first
    [ progress unfold NoteController.createNote, save_new
    | progress unfold NoteController.updateNote, Model.findById, save_existing
    | progress unfold NoteController.deleteNote, Model.findById,
        Model.findByIdAndDelete
    | progress unfold NotebookController.createNotebook, save_new
    | progress unfold NotebookController.updateNotebook, save_existing
    | progress unfold NotebookController.deleteNotebook, Model.findById
    | progress unfold NotebookController.addNoteToNotebook, Model.findById,
        save_existing
    | progress unfold GroupController.createGroup, save_new
    | progress unfold GroupController.updateGroup, save_existing
    | progress unfold GroupController.deleteGroup
    | progress unfold GroupController.addMemberToGroup, save_existing
    | progress unfold CommentController.createComment, Model.findById, save_new,
        save_existing
    | progress unfold CommentController.deleteComment, Model.findById
    | progress unfold AttachmentController.createAttachment,
        AttachmentController.save_parent, save_new, save_existing
    | progress unfold AttachmentController.deleteAttachment,
        AttachmentController.save_parent, Model.findById, save_existing ].
  all: split_handler; apply keeps_names_same; reflexivity.
Qed.

(** X29. In every store the service reaches, no two stored users share an
    email or a user name, and no two stored tags share a name. *)
Theorem reachable_names_unique (s : Store) : reachable s → names_unique s.
Proof.
  unfold reachable. intros Hrun.
  eapply (rtc_ind_r (λ s, names_unique s) empty_store); [| |exact Hrun].
  - repeat split; intros i j x y Hx; simpl in Hx;
      by rewrite lookup_empty in Hx.
  - intros s1 s2 _ Hstep IH.
    eapply keeps_names_unique; [exact IH|]. by apply step_keeps_names.
Qed.

(** ** The stored users are as the setters left them *)

Lemma step_users s s' :
  step s s' →
  db_users s' = db_users s
  ∨ ∃ hash body f rs,
      db_users s'
      = <[oid f := AuthController.hash_password hash
                     (AuthController.new_user body f rs)]> (db_users s).
Proof.
  destruct 1.
  1: { unfold AuthController.signup, save_new.
       split_handler; first [by left|right; by repeat eexists]. }
  all: left.
  all: first
    [ progress unfold NoteController.createNote, save_new
    | progress unfold NoteController.updateNote, Model.findById,
        save_existing
    | progress unfold NoteController.deleteNote, Model.findById,
        Model.findByIdAndDelete
    | progress unfold NoteController.addTagToNote, Model.findById,
        save_existing
    | progress unfold TagController.createTag, save_new
    | progress unfold TagController.deleteTag, Model.findById
    | progress unfold NotebookController.createNotebook, save_new
    | progress unfold NotebookController.updateNotebook, save_existing
    | progress unfold NotebookController.deleteNotebook, Model.findById
    | progress unfold NotebookController.addNoteToNotebook, Model.findById,
        save_existing
    | progress unfold GroupController.createGroup, save_new
    | progress unfold GroupController.updateGroup, save_existing
    | progress unfold GroupController.deleteGroup
    | progress unfold GroupController.addMemberToGroup, save_existing
    | progress unfold CommentController.createComment, Model.findById,
        save_new, save_existing
    | progress unfold CommentController.deleteComment, Model.findById
    | progress unfold AttachmentController.createAttachment,
        AttachmentController.save_parent, save_new, save_existing
    | progress unfold AttachmentController.deleteAttachment,
        AttachmentController.save_parent, Model.findById, save_existing ].
  all: split_handler; reflexivity.
Qed.

Lemma new_user_normalised hash body f rs :
  let u := AuthController.hash_password hash
             (AuthController.new_user body f rs) in
  User.cast_email (User.email u) = User.email u
  ∧ User.cast_user_name (User.user_name u) = User.user_name u.
Proof.
  cbn [AuthController.hash_password AuthController.new_user User.email
       User.user_name]. split.
  - apply cast_email_idem.
  - apply trim_idem.
Qed.

(** In every store the service reaches, the email of every stored user is
    in lower case and trimmed and the user name is trimmed: users are
    stored by [signup] only, through the setters. *)
Lemma reachable_users_normalised s : reachable s → users_normalised s.
Proof.
  unfold reachable. intros Hrun.
  eapply (rtc_ind_r (λ s, users_normalised s) empty_store); [| |exact Hrun].
  - intros i u Hu. simpl in Hu. by rewrite lookup_empty in Hu.
  - intros s1 s2 _ Hstep IH i u Hu.
    destruct (step_users s1 s2 Hstep) as [Heq|(hash & body & f & rs & Heq)];
      rewrite Heq in Hu.
    + by apply (IH i).
    + apply lookup_insert_Some in Hu as [[_ <-]|[_ Hu]].
      * apply new_user_normalised.
      * by apply (IH i).
Qed.

(** ** Signing up, then logging in *)

Lemma findOne_unique {A} (q : nat → A → bool) (m : gmap nat A) i d :
  m !! i = Some d → q i d = true →
  (∀ j x, m !! j = Some x → q j x = true → j = i) →
  Model.findOne q m = Some (i, d).
Proof.
  intros Hm Hq Huniq.
  destruct (findOne_is_Some q m i d Hm Hq) as [[j x] E].
  destruct (findOne_Some q m j x E) as [Hj Hx].
  assert (j = i) as -> by (by eapply Huniq). congruence.
Qed.

(** X30. After a successful signup, a login with the same password and
    with the email of the signup, or a variant of it in letter case or
    with blanks around it, answers 200 with the identity and the user of
    the signup answer (without the password) and with a token signed for
    that identity at the time of the login; the profile request of that
    identity returns the same user.  Neither changes the store.  The
    password library is taken to accept a password against its own
    hash. *)
Theorem signup_then_login
    (hash : string → nat → string) (compare : string → string → bool)
    (sign : nat → N → string)
    (s : Store) (body : AuthController.SignupBody) (f : Gen)
    (e e' p : string) (rs : list Role) (clock : N) :
  AuthController.email body = Some e →
  AuthController.password body = Some p →
  e' ≠ "" → User.cast_email e' = User.cast_email e →
  compare p (hash p 10) = true →
  status (fst (AuthController.signup hash sign s body f)) = 201 →
  let r := fst (AuthController.signup hash sign s body f) in
  let s1 := snd (AuthController.signup hash sign s body f) in
  ∃ u,
    data r = AuthData (sign (oid f) (iat f)) (oid f) u
    ∧ User.password u = ""
    ∧ AuthController.login compare sign s1
        (AuthController.Login.Build_Body (Js.str e') (Js.str p)) clock
      = (Res 200 "Login successful"
             (AuthData (sign (oid f) clock) (oid f) u), s1)
    ∧ AuthController.getCurrentUser s1 (Build_Requester (oid f) rs)
      = (Ans 200 "" (Some u), s1).
Proof.
  intros He Hp He' Hsame Hcmp. unfold AuthController.signup.
  destruct (_ || _ : bool) eqn:Hreq; [intros [=]|].
  destruct (Model.findOne _ _); [intros [=]|].
  destruct (AuthController.cast_roles _) as [rs'|]; [|intros [=]].
  unfold save_new. cbv zeta.
  destruct (negb (AuthController.user_valid _)); [intros [=]|].
  destruct (bool_decide (is_Some (db_users s !! oid f))) eqn:Hfresh;
    [intros [=]|].
  destruct (AuthController.user_index_free _ _) eqn:Hfree; [|intros [=]].
  cbn [orb negb fst snd data]. intros _.
  set (u := AuthController.hash_password hash
              (AuthController.new_user body f rs')).
  exists (AuthController.public_fields u).
  split; [reflexivity|]. split; [reflexivity|].
  assert (Hne : e ≠ "").
  { intros ->. rewrite He in Hreq. cbn [Js.truthy] in Hreq.
    rewrite bool_decide_eq_true_2 in Hreq by done. cbn [negb] in Hreq.
    rewrite !orb_true_r in Hreq. discriminate. }
  assert (Hpne : p ≠ "").
  { intros ->. rewrite Hp in Hreq. cbn [Js.truthy] in Hreq.
    rewrite (bool_decide_eq_true_2 ("" = "")) in Hreq by done.
    cbn [negb] in Hreq. rewrite !orb_true_r in Hreq. discriminate. }
  assert (Hemail : User.email u = User.cast_email e).
  { unfold u. cbn [AuthController.hash_password AuthController.new_user
                   User.email Js.or_else]. rewrite He.
    cbn [Js.or_else]. rewrite (bool_decide_eq_false_2 (e = "")) by done.
    reflexivity. }
  assert (Hpw : User.password u = hash p 10).
  { unfold u. cbn [AuthController.hash_password AuthController.new_user
                   User.password]. rewrite Hp.
    cbn [Js.or_else]. by rewrite (bool_decide_eq_false_2 (p = "")). }
  split.
  - unfold AuthController.login.
    cbn [AuthController.Login.email AuthController.Login.password
         Js.truthy_value].
    rewrite (bool_decide_eq_false_2 (e' = "")) by done.
    rewrite (bool_decide_eq_false_2 (p = "")) by done.
    cbn [negb orb db_users with_users].
    rewrite cast_email_toLowerCase, Hsame.
    rewrite (findOne_unique _ _ (oid f) u).
    + rewrite Hpw, Hcmp. reflexivity.
    + apply lookup_insert_eq.
    + apply bool_decide_eq_true. exact Hemail.
    + intros j x Hj Hq. apply bool_decide_eq_true in Hq.
      apply lookup_insert_Some in Hj as [[-> _]|[_ Hj]]; [done|].
      unfold AuthController.user_index_free in Hfree.
      apply andb_true_iff in Hfree as [_ Hfree].
      apply bool_decide_eq_true in Hfree.
      destruct (Hfree j x Hj). rewrite Hq, <- Hemail. reflexivity.
  - unfold AuthController.getCurrentUser, Model.findById.
    cbn [userId db_users with_users]. rewrite lookup_insert_eq.
    reflexivity.
Qed.

Lemma signup_then_login_witness :
  let s1 := snd (AuthController.signup Sample.hash Sample.sign Sample.store
                   Sample.signup_as_admin Sample.gen) in
  ∃ u,
    data (fst (AuthController.signup Sample.hash Sample.sign Sample.store
                 Sample.signup_as_admin Sample.gen))
    = AuthData (Sample.sign 70 1700000000%N) 70 u
    ∧ User.password u = ""
    ∧ AuthController.login Sample.compare Sample.sign s1
        (AuthController.Login.Build_Body (Js.str " mallory@EXAMPLE.org")
                                         (Js.str "hunter22"))
        1700000100%N
      = (Res 200 "Login successful"
             (AuthData (Sample.sign 70 1700000100%N) 70 u), s1)
    ∧ AuthController.getCurrentUser s1 (Build_Requester 70 [Admin])
      = (Ans 200 "" (Some u), s1).
Proof.
  apply (signup_then_login Sample.hash Sample.compare Sample.sign
           Sample.store Sample.signup_as_admin Sample.gen
           "Mallory@Example.org" " mallory@EXAMPLE.org" "hunter22" [Admin]
           1700000100%N).
  - reflexivity.
  - reflexivity.
  - discriminate.
  - vm_compute. reflexivity.
  - vm_compute. reflexivity.
  - vm_compute. reflexivity.
Defined.


(** ** A run of the service *)

Lemma sample_run_reachable : reachable Sample.run.
Proof.
  unfold reachable, Sample.run, Sample.after_note, Sample.after_signup.
  eapply rtc_l; [apply (step_signup _ Sample.hash Sample.sign
                          Sample.signup_as_admin Sample.gen)|].
  eapply rtc_l; [apply (step_createNote _ Sample.as_mallory Sample.minutes
                          Sample.gen2)|].
  { eexists. split; vm_compute; reflexivity. }
  eapply rtc_l; [apply (step_createTag _ (Some "Work") Sample.gen3)|].
  apply rtc_refl.
Qed.

Lemma sample_run_contents :
  is_Some (db_users Sample.run !! 70) ∧ is_Some (db_notes Sample.run !! 71)
  ∧ is_Some (db_tags Sample.run !! 72).
Proof. repeat split; vm_compute; by eexists. Qed.

Lemma reachable_owners_resolve_witness : owners_resolve Sample.run.
Proof. exact (reachable_owners_resolve Sample.run sample_run_reachable). Defined.

Lemma reachable_notes_valid_witness : notes_valid Sample.run.
Proof. exact (reachable_notes_valid Sample.run sample_run_reachable). Defined.

Lemma reachable_names_unique_witness : names_unique Sample.run.
Proof. exact (reachable_names_unique Sample.run sample_run_reachable). Defined.
